(** * ANYToken-distribution: the RPC gateway and the reward-sending pipeline

    A shallow embedding of
      - package [callapi]     (the endpoint gateway and the contract call helper),
      - package [distributer] (file [sendtx.go]: [BuildTxArgs] and
                               [SendRewardsFromFile]),
      - package [syncer]      (file [clients.go]: [dialServer]),
    followed by the properties proved about them.

    Go values are rendered as follows.
      - [*big.Int]           is [option Z]   ([None] is the nil pointer);
      - [uint64]             is [Z] with the wrap-around written out;
      - [error]              is [option string] ([None] is nil, the string is
                             the message, so [fmt.Errorf] is concatenation);
      - [(v, err)] results   are pairs: Go assigns both components at every
                             call, whether or not [err] is nil;
      - [[]byte]             is [list Z].
    Everything outside the process (the remote nodes, the files) is the
    abstract [World]; what the process does to it is recorded, in program
    order, in a trace of events. *)

From Stdlib Require Import ZArith List String Ascii Bool Lia.
Import ListNotations.

Local Open Scope string_scope.
Local Open Scope list_scope.
Local Open Scope Z_scope.

Infix "+++" := String.append (right associativity, at level 60).
Arguments String.append : simpl never.

(** Go's [error]. *)
Abbreviation error := (option string).

Definition bytes : Type := list Z.

(* ================================================================== *)
(** ** Types of the libraries the program is linked with *)

(** The types of [go-sdk/efsn/common], [core/types], [ethclient],
    [accounts/keystore] and [mongodb] that the program only passes around. *)
Class ChainTypes : Type := {
  Address : Type;        (* common.Address *)
  Hash : Type;           (* common.Hash *)
  Header : Type;         (* types.Header *)
  SyncProgress : Type;   (* ethereum.SyncProgress *)
  PrivateKey : Type;     (* ecdsa.PrivateKey *)
  Signer : Type;         (* types.Signer *)
  Signature : Type;      (* the V, R, S values of a signed transaction *)
  Client : Type;         (* *ethclient.Client, one per endpoint *)
  AccountStat : Type;    (* mongodb.AccountStat *)
  World : Type           (* the nodes behind the endpoints, and the files *)
}.

Section Data.
Context {T : ChainTypes}.

(** [keystore.Key], the two fields the program reads. *)
Record Key : Type := {
  key_Address : Address;
  key_PrivateKey : PrivateKey
}.

(** [types.Transaction]: what [types.NewTransaction] stores, and the
    signature [types.SignTx] adds. *)
Record Transaction : Type := {
  tx_nonce : Z;
  tx_to : Address;
  tx_amount : option Z;
  tx_gasLimit : Z;
  tx_gasPrice : option Z;
  tx_data : bytes;
  tx_sig : option Signature
}.

Definition NewTransaction (nonce : Z) (to : Address) (amount : option Z)
    (gasLimit : Z) (gasPrice : option Z) (data : bytes) : Transaction :=
  {| tx_nonce := nonce; tx_to := to; tx_amount := amount;
     tx_gasLimit := gasLimit; tx_gasPrice := gasPrice; tx_data := data;
     tx_sig := None |}.

Definition WithSignature (tx : Transaction) (sig : Signature) : Transaction :=
  {| tx_nonce := tx_nonce tx; tx_to := tx_to tx; tx_amount := tx_amount tx;
     tx_gasLimit := tx_gasLimit tx; tx_gasPrice := tx_gasPrice tx;
     tx_data := tx_data tx; tx_sig := Some sig |}.

(** [ethereum.CallMsg], the two fields [CallContract] sets. *)
Record CallMsg : Type := {
  msg_To : option Address;
  msg_Data : bytes
}.

(** [callapi.APICaller].  The [context] field is handed to every client call
    unchanged and is left out. *)
Record APICaller : Type := {
  clients : list Client;
  rpcRetryCount : Z;
  rpcRetryInterval : Z
}.

(** [distributer.BuildTxArgs]. *)
Record BuildTxArgs : Type := {
  Sender : string;
  KeystoreFile : string;
  PasswordFile : string;
  Nonce : option Z;
  GasLimit : option Z;
  GasPrice : option Z;
  keyWrapper : option Key;
  fromAddr : Address;
  chainID : option Z;
  chainSigner : option Signer
}.

Definition set_Sender (a : BuildTxArgs) (s : string) : BuildTxArgs :=
  {| Sender := s; KeystoreFile := KeystoreFile a;
     PasswordFile := PasswordFile a; Nonce := Nonce a;
     GasLimit := GasLimit a; GasPrice := GasPrice a;
     keyWrapper := keyWrapper a; fromAddr := fromAddr a;
     chainID := chainID a; chainSigner := chainSigner a |}.

Definition set_Nonce (a : BuildTxArgs) (n : option Z) : BuildTxArgs :=
  {| Sender := Sender a; KeystoreFile := KeystoreFile a;
     PasswordFile := PasswordFile a; Nonce := n;
     GasLimit := GasLimit a; GasPrice := GasPrice a;
     keyWrapper := keyWrapper a; fromAddr := fromAddr a;
     chainID := chainID a; chainSigner := chainSigner a |}.

Definition set_GasLimit (a : BuildTxArgs) (g : option Z) : BuildTxArgs :=
  {| Sender := Sender a; KeystoreFile := KeystoreFile a;
     PasswordFile := PasswordFile a; Nonce := Nonce a;
     GasLimit := g; GasPrice := GasPrice a;
     keyWrapper := keyWrapper a; fromAddr := fromAddr a;
     chainID := chainID a; chainSigner := chainSigner a |}.

Definition set_GasPrice (a : BuildTxArgs) (g : option Z) : BuildTxArgs :=
  {| Sender := Sender a; KeystoreFile := KeystoreFile a;
     PasswordFile := PasswordFile a; Nonce := Nonce a;
     GasLimit := GasLimit a; GasPrice := g;
     keyWrapper := keyWrapper a; fromAddr := fromAddr a;
     chainID := chainID a; chainSigner := chainSigner a |}.

Definition set_keyWrapper (a : BuildTxArgs) (k : option Key) : BuildTxArgs :=
  {| Sender := Sender a; KeystoreFile := KeystoreFile a;
     PasswordFile := PasswordFile a; Nonce := Nonce a;
     GasLimit := GasLimit a; GasPrice := GasPrice a;
     keyWrapper := k; fromAddr := fromAddr a;
     chainID := chainID a; chainSigner := chainSigner a |}.

Definition set_fromAddr (a : BuildTxArgs) (f : Address) : BuildTxArgs :=
  {| Sender := Sender a; KeystoreFile := KeystoreFile a;
     PasswordFile := PasswordFile a; Nonce := Nonce a;
     GasLimit := GasLimit a; GasPrice := GasPrice a;
     keyWrapper := keyWrapper a; fromAddr := f;
     chainID := chainID a; chainSigner := chainSigner a |}.

Definition set_chainID (a : BuildTxArgs) (c : option Z) : BuildTxArgs :=
  {| Sender := Sender a; KeystoreFile := KeystoreFile a;
     PasswordFile := PasswordFile a; Nonce := Nonce a;
     GasLimit := GasLimit a; GasPrice := GasPrice a;
     keyWrapper := keyWrapper a; fromAddr := fromAddr a;
     chainID := c; chainSigner := chainSigner a |}.

Definition set_chainSigner (a : BuildTxArgs) (s : option Signer) : BuildTxArgs :=
  {| Sender := Sender a; KeystoreFile := KeystoreFile a;
     PasswordFile := PasswordFile a; Nonce := Nonce a;
     GasLimit := GasLimit a; GasPrice := GasPrice a;
     keyWrapper := keyWrapper a; fromAddr := fromAddr a;
     chainID := chainID a; chainSigner := s |}.

(** [distributer.Option]: its declaration is in a file of the package that
    is not part of this development; these are the fields [sendtx.go] reads
    and writes, with the transaction arguments and the reward token the
    sending step works on. *)
Record Option : Type := {
  InputFile : string;
  DryRun : bool;
  SaveDB : bool;
  byWhat : string;
  TotalValue : option Z;
  RewardToken : Address;
  TxArgs : BuildTxArgs
}.

Definition set_TotalValue (o : Option) (v : option Z) : Option :=
  {| InputFile := InputFile o; DryRun := DryRun o; SaveDB := SaveDB o;
     byWhat := byWhat o; TotalValue := v; RewardToken := RewardToken o;
     TxArgs := TxArgs o |}.

Definition set_TxArgs (o : Option) (a : BuildTxArgs) : Option :=
  {| InputFile := InputFile o; DryRun := DryRun o; SaveDB := SaveDB o;
     byWhat := byWhat o; TotalValue := TotalValue o;
     RewardToken := RewardToken o; TxArgs := a |}.

(** The requests an [ethclient.Client] answers, indexed by the Go type of
    the value that comes back beside the error. *)
Inductive Request : Type -> Type :=
| ReqBalanceAt (account : Address) (blockNumber : option Z) : Request (option Z)
| ReqPendingNonceAt (account : Address) : Request Z
| ReqSendTransaction (tx : option Transaction) : Request unit
| ReqNetworkID : Request (option Z)
| ReqSuggestGasPrice : Request (option Z)
| ReqSyncProgress : Request (option SyncProgress)
| ReqCallContract (msg : CallMsg) (blockNumber : option Z) : Request bytes
| ReqHeaderByNumber (blockNumber : option Z) : Request (option Header).

(** The zero value of a request's result: what a named result holds before
    anything is assigned to it. *)
Definition zero {V : Type} (req : Request V) : V :=
  match req in Request V0 return V0 with
  | ReqBalanceAt _ _ => None
  | ReqPendingNonceAt _ => 0
  | ReqSendTransaction _ => tt
  | ReqNetworkID => None
  | ReqSuggestGasPrice => None
  | ReqSyncProgress => None
  | ReqCallContract _ _ => []
  | ReqHeaderByNumber _ => None
  end.

(** Values handed to the logger as context. *)
Inductive LogVal : Type :=
| LStr (s : string)
| LBig (z : option Z)
| LUint (z : Z)
| LBool (b : bool)
| LAddr (a : Address)
| LErr (e : error)
| LHash (h : Hash)
| LOption (o : Option)
| LProgress (p : option SyncProgress).

Inductive Level : Type := LvlPrintln | LvlInfo | LvlWarn | LvlError.

(** What the process does to the outside, in program order. *)
Inductive Event : Type :=
| EvRPC {V : Type} (cl : Client) (req : Request V)
| EvSleep (d : Z)
| EvLog (lvl : Level) (msg : string) (ctx : list (string * LogVal))
| EvWriteOutput (line : string)
| EvWriteSendRewardResult (stat : AccountStat) (txHash : option Hash)
| EvWriteSendRewardFromFileResult (account : Address) (reward : option Z)
    (txHash : option Hash)
| EvDeinit.

(** How a piece of the program ends: it returns, it panics (a nil pointer
    is dereferenced), or it is still looping when the fuel given to an
    unbounded [for] loop has run out.  Each outcome comes with the world it
    leaves and the events of the piece, in program order. *)
Inductive Res (A : Type) : Type :=
| Done (a : A) (w : World) (evs : list Event)
| Panic (why : string) (w : World) (evs : list Event)
| Spin (w : World) (evs : list Event).

Arguments Done {A} a w evs.
Arguments Panic {A} why w evs.
Arguments Spin {A} w evs.

(** A piece of the program: from the world it starts in to its outcome.
    The program never reads the trace, so a piece cannot depend on it. *)
Definition M (A : Type) : Type := World -> Res A.

Definition ret {A : Type} (a : A) : M A := fun w => Done a w [].

(** The outcome [r] of a piece that comes after the events [evs0]. *)
Definition prepend {A : Type} (evs0 : list Event) (r : Res A) : Res A :=
  match r with
  | Done a w evs => Done a w (evs0 ++ evs)
  | Panic why w evs => Panic why w (evs0 ++ evs)
  | Spin w evs => Spin w (evs0 ++ evs)
  end.

Definition bind {A B : Type} (c : M A) (k : A -> M B) : M B :=
  fun w =>
    match c w with
    | Done a w1 evs1 => prepend evs1 (k a w1)
    | Panic why w1 evs1 => Panic why w1 evs1
    | Spin w1 evs1 => Spin w1 evs1
    end.

Definition panic {A : Type} (why : string) : M A := fun w => Panic why w [].

(** The fuel of an unbounded loop is used up. *)
Definition spin {A : Type} : M A := fun w => Spin w [].

Definition emit (e : Event) : M unit := fun w => Done tt w [e].

(** A call into the world that the trace records under [e]. *)
Definition external {A : Type} (e : Event) (f : World -> A * World) : M A :=
  fun w => let '(a, w') := f w in Done a w' [e].

(** A read of the world. *)
Definition inspect {A : Type} (f : World -> A) : M A :=
  fun w => Done (f w) w [].

End Data.

Arguments Done {T A} a w evs.
Arguments Panic {T A} why w evs.
Arguments Spin {T A} w evs.
Arguments prepend {T A} evs0 r.

Notation "x <- c ;; k" := (bind c (fun x => k))
  (at level 61, c at next level, right associativity).
Notation "c ;;; k" := (bind c (fun _ => k))
  (at level 61, right associativity).

(* ================================================================== *)
(** ** Functions of the libraries, and of the package's other files *)

Class Backend {T : ChainTypes} : Type := {
  (* ethclient: one request to one endpoint *)
  serve : forall V : Type, Client -> Request V -> World -> (V * error) * World;
  (* core/types *)
  sign : Signer -> PrivateKey -> Transaction -> Signature + string;
  Transaction_Hash : Transaction -> Hash;
  NewEIP155Signer : option Z -> Signer;
  (* common *)
  zeroAddress : Address;
  IsHexAddress : string -> bool;
  HexToAddress : string -> Address;
  Address_String : Address -> string;
  Address_Bytes : Address -> bytes;
  BytesToAddress : bytes -> Address;
  GetData : bytes -> Z -> Z -> bytes;
  GetBigInt : bytes -> Z -> Z -> Z;
  BigInt_Bytes : Z -> bytes;
  (* strings, io/ioutil, keystore *)
  EqualFold : string -> string -> bool;
  TrimSpace : string -> string;
  ReadFile : string -> World -> string * error;
  DecryptKey : string -> string -> option Key * error;
  (* package callapi, another file *)
  UnpackABIEncodedStringInIndex : bytes -> Z -> string * error;
  (* package mongodb *)
  stat_Account : AccountStat -> Address;
  stat_Reward : AccountStat -> option Z;
  CalcTotalReward : list AccountStat -> option Z;
  (* package distributer, other files *)
  isCommentedLine : string -> bool;
  blankOrCommaSepRegexp_Split : string -> list string;
  GetStandardByWhat : string -> string;
  SetByWhat : Option -> string -> error * Option;
  GetAccountsAndRewardsFromFile :
    Option -> M ((list AccountStat * string * error) * Option);
  CheckSenderRewardTokenBalance : Option -> M (error * Option);
  CheckBasic : Option -> M (error * Option);
  output_write : Option -> Event -> World -> error * World;
  deinit_effect : World -> unit * World
}.

(* ================================================================== *)
(** ** Package [callapi] *)

Section Callapi.
Context {T : ChainTypes} {B : Backend}.

Definition Sleep (d : Z) : M unit := emit (EvSleep d).

Definition log (lvl : Level) (msg : string) (ctx : list (string * LogVal))
    : M unit :=
  emit (EvLog lvl msg ctx).

(** [common.LeftPadBytes]. *)
Definition LeftPadBytes (slice : bytes) (l : Z) : bytes :=
  if l <=? Z.of_nat (List.length slice) then slice
  else repeat 0 (Z.to_nat (l - Z.of_nat (List.length slice))) ++ slice.

(** The selectors, as [common.FromHex] reads them. *)
Definition totalSupplyFuncHash : bytes := [24; 22; 13; 221].   (* 0x18160ddd *)
Definition balanceOfFuncHash : bytes := [112; 160; 130; 49].   (* 0x70a08231 *)
Definition tokenAddressFuncHash : bytes := [157; 118; 234; 88]. (* 0x9d76ea58 *)
Definition factoryAddressFuncHash : bytes := [150; 109; 174; 14]. (* 0x966dae0e *)
Definition nameFuncHash : bytes := [6; 253; 222; 3].           (* 0x06fdde03 *)
Definition symbolFuncHash : bytes := [149; 216; 155; 65].      (* 0x95d89b41 *)
Definition decimalsFuncHash : bytes := [49; 60; 229; 103].     (* 0x313ce567 *)
Definition transferFuncHash : bytes := [169; 5; 156; 187].     (* 0xa9059cbb *)

(** [time.Second], in nanoseconds. *)
Definition Second : Z := 1000000000.

(** [NewDefaultAPICaller]: no endpoint yet, three attempts, one second. *)
Definition NewDefaultAPICaller : APICaller :=
  {| clients := []; rpcRetryCount := 3; rpcRetryInterval := 1 * Second |}.

(** [NewAPICaller]. *)
Definition NewAPICaller (retryCount : Z) (retryInterval : Z) : APICaller :=
  {| clients := []; rpcRetryCount := retryCount;
     rpcRetryInterval := retryInterval |}.

(** One request to one endpoint: [client.X(c.context, ...)]. *)
Definition ask {V : Type} (cl : Client) (req : Request V) : M (V * error) :=
  external (EvRPC cl req) (serve V cl req).

(** The loop shared by every single-pass operation,
<<
    for _, client := range c.clients {
        v, err = client.X(c.context, ...)
        if err == nil { return }
    }
    return
>>
    with [cur] the current content of the named results [(v, err)]. *)
Fixpoint eachClient {V : Type} (req : Request V) (cls : list Client)
    (cur : V * error) : M (V * error) :=
  match cls with
  | [] => ret cur
  | client :: rest =>
      r <- ask client req ;;
      match snd r with
      | None => ret r
      | Some _ => eachClient req rest r
      end
  end.

Definition perform {V : Type} (c : APICaller) (req : Request V)
    : M (V * error) :=
  eachClient req (clients c) (zero req, None).

Definition BalanceAt (c : APICaller) (account : Address)
    (blockNumber : option Z) : M (option Z * error) :=
  perform c (ReqBalanceAt account blockNumber).

Definition GetAccountNonce (c : APICaller) (account : Address)
    : M (Z * error) :=
  perform c (ReqPendingNonceAt account).

Definition SendTransaction (c : APICaller) (tx : option Transaction)
    : M error :=
  r <- perform c (ReqSendTransaction tx) ;; ret (snd r).

Definition GetChainID (c : APICaller) : M (option Z * error) :=
  perform c ReqNetworkID.

Definition SuggestGasPrice (c : APICaller) : M (option Z * error) :=
  perform c ReqSuggestGasPrice.

Definition SyncProgress_ (c : APICaller) : M (option SyncProgress * error) :=
  perform c ReqSyncProgress.

Definition DoCall (c : APICaller) (msg : CallMsg) (blockNumber : option Z)
    : M (bytes * error) :=
  perform c (ReqCallContract msg blockNumber).

Definition HeaderByNumber (c : APICaller) (blockNumber : option Z)
    : M (option Header * error) :=
  perform c (ReqHeaderByNumber blockNumber).

(** [GetSyncProgress]: [for { ... }] without a bound; [fuel] bounds the
    number of rounds the model follows. *)
Fixpoint GetSyncProgress (fuel : nat) (c : APICaller)
    : M (option SyncProgress) :=
  match fuel with
  | O => spin
  | S fuel' =>
      r <- SyncProgress_ c ;;
      match snd r with
      | None =>
          log LvlInfo "call eth_syncing success"
            [("progress", LProgress (fst r))] ;;;
          ret (fst r)
      | Some e =>
          log LvlWarn "call eth_syncing failed" [("err", LErr (Some e))] ;;;
          Sleep (rpcRetryInterval c) ;;;
          GetSyncProgress fuel' c
      end
  end.

(** The [for i := 0; i < c.rpcRetryCount; i++] loop of [GetCoinBalance];
    [n] is the number of rounds left. *)
Fixpoint GetCoinBalance_for (c : APICaller) (account : Address)
    (blockNumber : option Z) (n : nat) (cur : option Z * error)
    : M (option Z * error) :=
  match n with
  | O => ret cur
  | S n' =>
      r <- BalanceAt c account blockNumber ;;
      match snd r with
      | None => ret r
      | Some _ => GetCoinBalance_for c account blockNumber n' r
      end
  end.

Definition GetCoinBalance (c : APICaller) (account : Address)
    (blockNumber : option Z) : M (option Z * error) :=
  r <- GetCoinBalance_for c account blockNumber
         (Z.to_nat (rpcRetryCount c)) (None, None) ;;
  match snd r with
  | Some e =>
      log LvlWarn "[callapi] GetCoinBalance error"
        [("account", LStr (Address_String account));
         ("blockNumber", LBig blockNumber); ("err", LErr (Some e))] ;;;
      ret (None, Some e)
  | None => ret (fst r, None)
  end.

(** The retry loop of [CallContract]. *)
Fixpoint CallContract_for (c : APICaller) (contract : Address)
    (msg : CallMsg) (blockNumber : option Z) (n : nat) (cur : bytes * error)
    : M (bytes * error) :=
  match n with
  | O => ret cur
  | S n' =>
      r <- DoCall c msg blockNumber ;;
      match snd r with
      | None => ret r
      | Some e =>
          log LvlError "[callapi] CallContract error"
            [("contract", LStr (Address_String contract));
             ("blockNumber", LBig blockNumber); ("err", LErr (Some e))] ;;;
          Sleep (rpcRetryInterval c) ;;;
          CallContract_for c contract msg blockNumber n' r
      end
  end.

Definition CallContract (c : APICaller) (contract : Address) (data : bytes)
    (blockNumber : option Z) : M (bytes * error) :=
  let msg := {| msg_To := Some contract; msg_Data := data |} in
  CallContract_for c contract msg blockNumber
    (Z.to_nat (rpcRetryCount c)) ([], None).

Definition GetTokenTotalSupply (c : APICaller) (token : Address)
    (blockNumber : option Z) : M (option Z * error) :=
  r <- CallContract c token totalSupplyFuncHash blockNumber ;;
  match snd r with
  | Some e =>
      log LvlWarn "[callapi] GetTokenTotalSupply error"
        [("token", LStr (Address_String token));
         ("blockNumber", LBig blockNumber); ("err", LErr (Some e))] ;;;
      ret (None, Some e)
  | None => ret (Some (GetBigInt (fst r) 0 32), None)
  end.

Definition GetExchangeLiquidity (c : APICaller) (exchange : Address)
    (blockNumber : option Z) : M (option Z * error) :=
  GetTokenTotalSupply c exchange blockNumber.

Definition packBytes (bsSlice : list bytes) : bytes :=
  match bsSlice with
  | [] => []
  | first :: others =>
      first ++ flat_map (fun bs => LeftPadBytes bs 32) others
  end.

Definition GetTokenBalance (c : APICaller) (token account : Address)
    (blockNumber : option Z) : M (option Z * error) :=
  let data := packBytes [balanceOfFuncHash; Address_Bytes account] in
  r <- CallContract c token data blockNumber ;;
  match snd r with
  | Some e =>
      log LvlWarn "[callapi] GetTokenBalance error"
        [("token", LStr (Address_String token));
         ("account", LStr (Address_String account));
         ("blockNumber", LBig blockNumber); ("err", LErr (Some e))] ;;;
      ret (None, Some e)
  | None => ret (Some (GetBigInt (fst r) 0 32), None)
  end.

Definition GetExchangeTokenBalance (c : APICaller) (exchange token : Address)
    (blockNumber : option Z) : M (option Z * error) :=
  GetTokenBalance c token exchange blockNumber.

Definition GetLiquidityBalance (c : APICaller) (exchange account : Address)
    (blockNumber : option Z) : M (option Z * error) :=
  GetTokenBalance c exchange account blockNumber.

(** The two address queries have a single result: no error comes back. *)
Definition GetExchangeTokenAddress (c : APICaller) (exchange : Address)
    : M Address :=
  r <- CallContract c exchange tokenAddressFuncHash None ;;
  match snd r with
  | Some _ => ret zeroAddress
  | None => ret (BytesToAddress (GetData (fst r) 0 32))
  end.

Definition GetExchangeFactoryAddress (c : APICaller) (exchange : Address)
    : M Address :=
  r <- CallContract c exchange factoryAddressFuncHash None ;;
  match snd r with
  | Some _ => ret zeroAddress
  | None => ret (BytesToAddress (GetData (fst r) 0 32))
  end.

Definition GetErc20Name (c : APICaller) (erc20 : Address)
    : M (string * error) :=
  r <- CallContract c erc20 nameFuncHash None ;;
  match snd r with
  | Some e => ret ("", Some e)
  | None => ret (UnpackABIEncodedStringInIndex (fst r) 0)
  end.

Definition GetErc20Symbol (c : APICaller) (erc20 : Address)
    : M (string * error) :=
  r <- CallContract c erc20 symbolFuncHash None ;;
  match snd r with
  | Some e => ret ("", Some e)
  | None => ret (UnpackABIEncodedStringInIndex (fst r) 0)
  end.

(** [uint8(x.Uint64())]: the low 64 bits, then the low 8. *)
Definition GetErc20Decimals (c : APICaller) (erc20 : Address)
    : M (Z * error) :=
  r <- CallContract c erc20 decimalsFuncHash None ;;
  match snd r with
  | Some e => ret (0, Some e)
  | None => ret ((GetBigInt (fst r) 0 32 mod 2 ^ 64) mod 2 ^ 8, None)
  end.

Definition GetErc20TotalSupply (c : APICaller) (erc20 : Address)
    (blockNumber : option Z) : M (option Z * error) :=
  r <- CallContract c erc20 totalSupplyFuncHash blockNumber ;;
  match snd r with
  | Some e => ret (None, Some e)
  | None => ret (Some (GetBigInt (fst r) 0 32), None)
  end.

(** *** Connecting: [DialServer], and [dialServer] of package [syncer] *)

Section Dialing.

(** [ethclient.Dial]: the connection to the endpoint, or the error. *)
Variable Dial : string -> World -> (Client + string) * World.

(** [LoopGetLatestBlockHeader], a method of another file of the package:
    [DialServer] calls it on the gateway and drops what it returns. *)
Variable LoopGetLatestBlockHeader : APICaller -> M unit.

Definition dial (url : string) : M (Client + string) :=
  fun w => let '(r, w') := Dial url w in Done r w' [].

(** The loop of [DialServer] and of [dialServer],
<<
    for _, url := range serverURL {
        client, err = ethclient.Dial(url)
        if err != nil {
            log.Error("[...] client connection error", "server", url, "err", err)
            return err
        }
        log.Info("[...] client connection succeed", "server", url)
        clients = append(clients, client)
    }
>>
    with [pkg] the tag of the log lines and [cls] the list of clients so
    far.  It ends with the error returned from inside the loop, or with nil
    when the range is exhausted, and with the list as it is then. *)
Fixpoint dialEach (pkg : string) (serverURL : list string) (cls : list Client)
    : M (error * list Client) :=
  match serverURL with
  | [] => ret (None, cls)
  | url :: rest =>
      r <- dial url ;;
      match r with
      | inr e =>
          log LvlError (pkg +++ " client connection error")
            [("server", LStr url); ("err", LErr (Some e))] ;;;
          ret (Some e, cls)
      | inl client =>
          log LvlInfo (pkg +++ " client connection succeed")
            [("server", LStr url)] ;;;
          dialEach pkg rest (cls ++ [client])
      end
  end.

Definition set_clients (c : APICaller) (cls : list Client) : APICaller :=
  {| clients := cls; rpcRetryCount := rpcRetryCount c;
     rpcRetryInterval := rpcRetryInterval c |}.

(** [DialServer]; the gateway is returned as the call leaves it. *)
Definition DialServer (c : APICaller) (serverURL : list string)
    : M (error * APICaller) :=
  r <- dialEach "[callapi]" serverURL (clients c) ;;
  let c := set_clients c (snd r) in
  match fst r with
  | Some e => ret (Some e, c)
  | None => LoopGetLatestBlockHeader c ;;; ret (None, c)
  end.

(** [dialServer] of package [syncer], file [clients.go]: the package
    variables [serverURL] and [clients] are arguments, and the list of
    clients is returned as the call leaves it. *)
Definition dialServer (serverURL : list string) (cls : list Client)
    : M (error * list Client) :=
  dialEach "[syncer]" serverURL cls.

(** The endpoints of [urls], dialed in order from world [w], all connect:
    [cls] are the clients, in order, and [w'] is the world left. *)
Inductive Connected : list string -> World -> list Client -> World -> Prop :=
| Connected_nil (w : World) : Connected [] w [] w
| Connected_cons (url : string) (rest : list string) (client : Client)
    (w w1 : World) (cls : list Client) (w' : World) :
    Dial url w = (inl client, w1) ->
    Connected rest w1 cls w' ->
    Connected (url :: rest) w (client :: cls) w'.

(** The log lines of the endpoints that connected. *)
Definition connectedLog (pkg : string) (urls : list string) : list Event :=
  map (fun url =>
         EvLog LvlInfo (pkg +++ " client connection succeed")
           [("server", LStr url)]) urls.

End Dialing.

End Callapi.

(* ================================================================== *)
(** ** Package [distributer], file [sendtx.go] *)

Section Distributer.
Context {T : ChainTypes} {B : Backend}.

(** The package variable [capi], set once at start-up by [SetAPICaller]. *)
Variable capi : APICaller.

Definition nilDeref : string :=
  "invalid memory address or nil pointer dereference".

(** [n++] on a [uint64]. *)
Definition uint64_incr (n : Z) : Z := (n + 1) mod 2 ^ 64.

(** [copy(dst[lo:hi], src)] for [lo <= hi <= len(dst)]. *)
Definition copy_at (dst : bytes) (lo hi : nat) (src : bytes) : bytes :=
  let k := Nat.min (hi - lo) (List.length src) in
  firstn lo dst ++ firstn k src ++ skipn (lo + k) dst.

(** [account.Hash().Bytes()]: the 20 bytes at the right of a 32 byte word. *)
Definition Address_Hash_Bytes (account : Address) : bytes :=
  LeftPadBytes (Address_Bytes account) 32.

(** [types.SignTx]: the transaction with the signature, or the error. *)
Definition SignTx (tx : Transaction) (s : Signer) (prv : PrivateKey)
    : option Transaction * error :=
  match sign s prv tx with
  | inl sig => (Some (WithSignature tx sig), None)
  | inr e => (None, Some e)
  end.

Definition isEmpty (s : string) : bool := String.eqb s "".

(** [BuildTxArgs.GetSender] and [BuildTxArgs.GetChainID]. *)
Definition GetSender (args : BuildTxArgs) : Address := fromAddr args.

Definition BuildTxArgs_GetChainID (args : BuildTxArgs) : option Z :=
  chainID args.

(** [loadKeyStore]. *)
Definition loadKeyStore (args : BuildTxArgs) : M (error * BuildTxArgs) :=
  let keyfile := KeystoreFile args in
  let passfile := PasswordFile args in
  r <- inspect (ReadFile keyfile) ;;
  let '(keyjson, err) := r in
  match err with
  | Some e =>
      log LvlPrintln "read keystore fail" [("", LErr (Some e))] ;;;
      ret (Some e, args)
  | None =>
  r <- inspect (ReadFile passfile) ;;
  let '(passdata, err) := r in
  match err with
  | Some e =>
      log LvlPrintln "read password fail" [("", LErr (Some e))] ;;;
      ret (Some e, args)
  | None =>
  let passwd := TrimSpace passdata in
  log LvlPrintln "decrypt keystore ......" [] ;;;
  let '(key, err) := DecryptKey keyjson passwd in
  let args := set_keyWrapper args key in
  match err with
  | Some e =>
      log LvlPrintln "key decrypt fail" [("", LErr (Some e))] ;;;
      ret (Some e, args)
  | None =>
      match keyWrapper args with
      | None => panic nilDeref
      | Some k =>
          let args := set_fromAddr args (key_Address k) in
          let args :=
            if isEmpty (Sender args)
            then set_Sender args (Address_String (fromAddr args))
            else args in
          ret (None, args)
      end
  end
  end
  end.

(** The body of the [for { ... }] of [setDefaults], block by block;
    [continue] is what the statement [continue] does, and [from] is read
    once, before the loop. *)

(** Lines 131 to 137: the gas limit, and [break]. *)
Definition limitStep (args : BuildTxArgs) : M BuildTxArgs :=
  log LvlInfo "get gas price succeed" [("gasPrice", LBig (GasPrice args))] ;;;
  let args :=
    match GasLimit args with
    | None => set_GasLimit args (Some 90000)
    | Some _ => args
    end in
  match GasLimit args with
  | None => panic nilDeref
  | Some l =>
      log LvlInfo "get gas limit succeed" [("gasLimit", LUint l)] ;;;
      ret args
  end.

(** Lines 123 to 130: the gas price. *)
Definition gasStep (continue : BuildTxArgs -> M BuildTxArgs) (from : Address)
    (args : BuildTxArgs) : M BuildTxArgs :=
  match Nonce args with
  | None => panic nilDeref
  | Some n =>
      log LvlInfo "get nonce succeed"
        [("from", LStr (Address_String from)); ("nonce", LUint n)] ;;;
      match GasPrice args with
      | None =>
          r <- SuggestGasPrice capi ;;
          let args := set_GasPrice args (fst r) in
          match snd r with
          | Some e =>
              log LvlWarn "get gas price error" [("err", LErr (Some e))] ;;;
              continue args
          | None => limitStep args
          end
      | Some _ => limitStep args
      end
  end.

(** Lines 113 to 122: the nonce. *)
Definition nonceStep (continue : BuildTxArgs -> M BuildTxArgs)
    (from : Address) (args : BuildTxArgs) : M BuildTxArgs :=
  log LvlInfo "get chain ID succeed" [("chainID", LBig (chainID args))] ;;;
  match Nonce args with
  | None =>
      r <- GetAccountNonce capi from ;;
      match snd r with
      | Some e =>
          log LvlWarn "get nonce error"
            [("from", LStr (Address_String from)); ("err", LErr (Some e))] ;;;
          continue args
      | None => gasStep continue from (set_Nonce args (Some (fst r)))
      end
  | Some _ => gasStep continue from args
  end.

(** Lines 105 to 112: the chain identifier and the signer. *)
Definition chainStep (continue : BuildTxArgs -> M BuildTxArgs)
    (from : Address) (args : BuildTxArgs) : M BuildTxArgs :=
  match chainID args with
  | None =>
      r <- GetChainID capi ;;
      let args := set_chainID args (fst r) in
      match snd r with
      | Some e =>
          log LvlWarn "get chain ID error" [("err", LErr (Some e))] ;;;
          continue args
      | None =>
          nonceStep continue from
            (set_chainSigner args (Some (NewEIP155Signer (chainID args))))
      end
  | Some _ => nonceStep continue from args
  end.

(** The loop: [fuel] bounds the number of rounds the model follows. *)
Fixpoint setDefaults_for (from : Address) (fuel : nat) (args : BuildTxArgs)
    : M BuildTxArgs :=
  match fuel with
  | O => spin
  | S fuel' => chainStep (setDefaults_for from fuel') from args
  end.

Definition setDefaults (fuel : nat) (args : BuildTxArgs) : M BuildTxArgs :=
  setDefaults_for (fromAddr args) fuel args.

(** [Check]; [fuel] is handed to [setDefaults]. *)
Definition Check (fuel : nat) (args : BuildTxArgs) (dryRun : bool)
    : M (error * BuildTxArgs) :=
  if negb (isEmpty (Sender args)) && negb (IsHexAddress (Sender args)) then
    ret (Some ("wrong sender address '" +++ Sender args +++ "'"), args)
  else
    let afterLoad (args : BuildTxArgs) : M (error * BuildTxArgs) :=
      if negb (EqualFold (Sender args) (Address_String (fromAddr args))) then
        ret (Some ("sender mismatch. sender from args = '" +++ Sender args
                   +++ "', sender from keystore = '"
                   +++ Address_String (fromAddr args) +++ "'"), args)
      else
        log LvlInfo "get build transaction's sender"
          [("sender", LStr (Sender args))] ;;;
        args <- setDefaults fuel args ;;
        ret (None, args) in
    r <- loadKeyStore args ;;
    let args := snd r in
    match fst r with
    | Some e =>
        if negb dryRun then ret (Some e, args)
        else
          let args :=
            if negb (isEmpty (Sender args))
            then set_fromAddr args (HexToAddress (Sender args))
            else set_Sender args (Address_String (fromAddr args)) in
          log LvlWarn "check build tx args failed, but ignore in dry run"
            [("err", LErr (Some e))] ;;;
          afterLoad args
    | None => afterLoad args
    end.

(** The call data of a token transfer, lines 147 to 150 of [sendtx.go]:
    the selector, the account as a word, the reward as a word. *)
Definition transferData (account : Address) (rewardValue : Z) : bytes :=
  let data := repeat 0 68%nat in
  let data := copy_at data 0 4 transferFuncHash in
  let data := copy_at data 4 36 (Address_Hash_Bytes account) in
  let data := copy_at data 36 68
                (LeftPadBytes (BigInt_Bytes rewardValue) 32) in
  data.

(** [sendRewardsTransaction]. *)
Definition sendRewardsTransaction (args : BuildTxArgs) (account : Address)
    (reward : option Z) (rewardToken : Address) (dryRun : bool)
    : M ((option Hash * error) * BuildTxArgs) :=
  let txHash : option Hash := None in
  if dryRun then
    log LvlInfo "sendRewards dry run"
      [("account", LStr (Address_String account)); ("reward", LBig reward)] ;;;
    ret ((txHash, None), args)
  else
    match reward with
    | None => panic nilDeref
    | Some rewardValue =>
    let data := transferData account rewardValue in
    r <- GetAccountNonce capi (fromAddr args) ;;
    let nonce := fst r in
    args <- match snd r with
            | None =>
                match Nonce args with
                | None => panic nilDeref
                | Some cached =>
                    if cached <? nonce
                    then ret (set_Nonce args (Some nonce))
                    else ret args
                end
            | Some _ => ret args
            end ;;
    match Nonce args with
    | None => panic nilDeref
    | Some n =>
    match GasLimit args with
    | None => panic nilDeref
    | Some gasLimit =>
    let rawTx :=
      NewTransaction n rewardToken (Some 0) gasLimit (GasPrice args) data in
    if match keyWrapper args with None => true | Some _ => false end
       && dryRun then
      log LvlInfo "sendRewards dry run"
        [("account", LStr (Address_String account));
         ("reward", LBig reward)] ;;;
      ret ((txHash, None), args)
    else
    match keyWrapper args with
    | None => panic nilDeref
    | Some key =>
    match chainSigner args with
    | None => panic nilDeref
    | Some signer =>
    let '(signedTx, err) := SignTx rawTx signer (key_PrivateKey key) in
    if match err with Some _ => true | None => false end && negb dryRun then
      ret ((txHash, Some ("sign tx failed, "
                          +++ match err with Some e => e | None => "" end)),
           args)
    else
    err <- SendTransaction capi signedTx ;;
    match err with
    | Some e => ret ((txHash, Some ("send tx failed, " +++ e)), args)
    | None =>
        let args := set_Nonce args (Some (uint64_incr n)) in
        match signedTx with
        | None => panic nilDeref
        | Some tx =>
            let signedTxHash := Transaction_Hash tx in
            let txHash := Some signedTxHash in
            log LvlInfo "sendRewards success"
              [("account", LStr (Address_String account));
               ("reward", LBig reward);
               ("txHash", LHash signedTxHash)] ;;;
            ret ((txHash, None), args)
        end
    end
    end end end end
    end.

Definition addTxHashFieldToTitleLine (titleLine : string) : string :=
  let parts := blankOrCommaSepRegexp_Split titleLine in
  if (List.length parts <=? 1)%nat then titleLine +++ ",txhash"
  else
    let lastPart := last parts "" in
    let result := String.concat "," (removelast parts) in
    let result := result +++ ",txhash," in
    result +++ lastPart.

(** [checkTitleLine]; [SetByWhat] may write to [opt]. *)
Definition checkTitleLine (opt : Option) (titleLine : string)
    : error * Option :=
  if negb (isCommentedLine titleLine) then
    (Some ("title line '" +++ titleLine +++ "' is not comment line"), opt)
  else
    let titleParts := blankOrCommaSepRegexp_Split titleLine in
    if (List.length titleParts <? 5)%nat then
      (Some ("title line parts is less than 5. " +++ titleLine), opt)
    else
      let methodID := nth 2 titleParts "" in
      if isEmpty (byWhat opt) then SetByWhat opt methodID
      else if negb (String.eqb (byWhat opt) (GetStandardByWhat methodID)) then
        (Some ("byWhat mismatch. from arg " +++ byWhat opt
               +++ ", from file " +++ methodID), opt)
      else (None, opt).

(** The three writers of the output file are in another file of the
    package: a call is recorded in the trace, and what it does to the
    world is the backend's. *)
Definition WriteOutput (opt : Option) (line : string) : M error :=
  external (EvWriteOutput line) (output_write opt (EvWriteOutput line)).

Definition WriteSendRewardResult (opt : Option) (stat : AccountStat)
    (txHash : option Hash) : M error :=
  external (EvWriteSendRewardResult stat txHash)
    (output_write opt (EvWriteSendRewardResult stat txHash)).

Definition WriteSendRewardFromFileResult (opt : Option) (account : Address)
    (reward : option Z) (txHash : option Hash) : M error :=
  external (EvWriteSendRewardFromFileResult account reward txHash)
    (output_write opt (EvWriteSendRewardFromFileResult account reward txHash)).

Definition deinit : M unit := external EvDeinit deinit_effect.

(** Modelled from the spec: [Option.SendRewardsTransaction] is declared in
    a file of the package that is not part of this development.  The
    pipeline "invoke[s] the Transaction Builder to build, sign, and submit
    a transfer" for the entry, the transfer "targets the token contract
    address", and the run's dry-run flag decides whether anything is sent:
    the call is handed to [sendRewardsTransaction] with the option's reward
    token and dry-run flag, and the arguments it leaves are kept. *)
Definition SendRewardsTransaction (opt : Option) (account : Address)
    (reward : option Z) : M ((option Hash * error) * Option) :=
  r <- sendRewardsTransaction (TxArgs opt) account reward
         (RewardToken opt) (DryRun opt) ;;
  ret (fst r, set_TxArgs opt (snd r)).

(** [checkSendRewardsFromFile]. *)
Definition checkSendRewardsFromFile (opt : Option)
    : M ((list AccountStat * bool * error) * Option) :=
  if isEmpty (InputFile opt) then
    ret (([], false, Some "must specify input file"), opt)
  else
    r <- GetAccountsAndRewardsFromFile opt ;;
    let '((accountStats, titleLine, err), opt) := r in
    match err with
    | Some e =>
        log LvlError
          "[sendRewards] get accounts and rewards from input file failed"
          [("inputfile", LStr (InputFile opt)); ("err", LErr (Some e))] ;;;
        ret (([], false, Some e), opt)
    | None =>
    if (List.length accountStats =? 0)%nat then
      log LvlWarn "empty account list, no need to send reward" [] ;;;
      ret (([], false, None), opt)
    else
    let '(err, opt) := checkTitleLine opt titleLine in
    match err with
    | Some e =>
        log LvlError "check title line failed"
          [("titleLine", LStr titleLine); ("err", LErr (Some e))] ;;;
        ret (([], false, Some e), opt)
    | None =>
    let opt := set_TotalValue opt (CalcTotalReward accountStats) in
    r <- CheckSenderRewardTokenBalance opt ;;
    let '(err, opt) := r in
    match err with
    | Some e => ret (([], false, Some e), opt)
    | None =>
    r <- CheckBasic opt ;;
    let '(err, opt) := r in
    let canSaveDB := match err with None => true | Some _ => false end in
    if negb canSaveDB && SaveDB opt then
      ret (([], false,
            Some ("can not savedb as error "
                  +++ match err with Some e => e | None => "" end)), opt)
    else
      (if DryRun opt then WriteOutput opt titleLine
       else if canSaveDB
       then WriteOutput opt (addTxHashFieldToTitleLine titleLine)
       else WriteOutput opt "#account,reward,txhash") ;;;
      ret ((accountStats, canSaveDB, None), opt)
    end end end.

(** [reward == nil || reward.Sign() <= 0]. *)
Definition noReward (reward : option Z) : bool :=
  match reward with
  | None => true
  | Some r => r <=? 0
  end.

(** [rewardsSended.Cmp(opt.TotalValue) == 0]. *)
Definition allRewardsSended (opt : Option) (rewardsSended : Z) : M bool :=
  match TotalValue opt with
  | None => panic nilDeref
  | Some total => ret (rewardsSended =? total)
  end.

Definition logRewardsSended (opt : Option) (rewardsSended : Z) : M unit :=
  all <- allRewardsSended opt rewardsSended ;;
  log LvlInfo "[sendRewards] rewards sended"
    [("totalRewards", LBig (TotalValue opt));
     ("rewardsSended", LBig (Some rewardsSended));
     ("allRewardsSended", LBool all)].

(** The [for _, stat := range accountStats] of [SendRewardsFromFile].  It
    ends with the error the function returns from inside the loop, or with
    nil when the range is exhausted; [rewardsSended] is the running sum. *)
Fixpoint SendRewardsFromFile_range (canSaveDB : bool)
    (accountStats : list AccountStat) (opt : Option) (rewardsSended : Z)
    : M ((error * Z) * Option) :=
  match accountStats with
  | [] => ret ((None, rewardsSended), opt)
  | stat :: rest =>
      let account := stat_Account stat in
      let reward := stat_Reward stat in
      if noReward reward then
        log LvlInfo "ignore zero reward line" [("account", LAddr account)] ;;;
        SendRewardsFromFile_range canSaveDB rest opt rewardsSended
      else
        r <- SendRewardsTransaction opt account reward ;;
        let '((txHash, err), opt) := r in
        match err with
        | Some e =>
            logRewardsSended opt rewardsSended ;;;
            log LvlError "[sendRewards] send tx failed"
              [("account", LStr (Address_String account));
               ("reward", LBig reward); ("dryrun", LBool (DryRun opt));
               ("err", LErr (Some e))] ;;;
            ret ((Some "[sendRewards] send tx failed", rewardsSended), opt)
        | None =>
            let rewardsSended :=
              rewardsSended + match reward with Some v => v | None => 0 end in
            (if DryRun opt || canSaveDB
             then WriteSendRewardResult opt stat txHash
             else WriteSendRewardFromFileResult opt account reward txHash) ;;;
            SendRewardsFromFile_range canSaveDB rest opt rewardsSended
        end
  end.

(** [defer f()]: [f] runs when the body returns and when it panics. *)
Definition defer {A : Type} (deferred : M unit) (body : M A) : M A :=
  fun w =>
    match body w with
    | Done a w1 evs1 =>
        match deferred w1 with
        | Done _ w2 evs2 => Done a w2 (evs1 ++ evs2)
        | Panic why w2 evs2 => Panic why w2 (evs1 ++ evs2)
        | Spin w2 evs2 => Spin w2 (evs1 ++ evs2)
        end
    | Panic why w1 evs1 =>
        match deferred w1 with
        | Done _ w2 evs2 => Panic why w2 (evs1 ++ evs2)
        | Panic why' w2 evs2 => Panic why' w2 (evs1 ++ evs2)
        | Spin w2 evs2 => Spin w2 (evs1 ++ evs2)
        end
    | Spin w1 evs1 => Spin w1 evs1
    end.

(** [SendRewardsFromFile]. *)
Definition SendRewardsFromFile (opt : Option) : M (error * Option) :=
  r <- checkSendRewardsFromFile opt ;;
  let '((accountStats, canSaveDB, err), opt) := r in
  match err with
  | Some e => ret (Some e, opt)
  | None =>
      log LvlInfo "call SendRewardsFromFile" [("option", LOption opt)] ;;;
      defer deinit
        (r <- SendRewardsFromFile_range canSaveDB accountStats opt 0 ;;
         let '((err, rewardsSended), opt) := r in
         match err with
         | Some e => ret (Some e, opt)
         | None =>
             logRewardsSended opt rewardsSended ;;;
             ret (None, opt)
         end)
  end.

End Distributer.

(* ================================================================== *)
(** ** Vocabulary of the statements *)

Section Vocabulary.
Context {T : ChainTypes} {B : Backend}.

(** The world and the events an outcome leaves. *)
Definition world_of {A : Type} (r : Res A) : World :=
  match r with
  | Done _ w _ => w
  | Panic _ w _ => w
  | Spin w _ => w
  end.

Definition events_of {A : Type} (r : Res A) : list Event :=
  match r with
  | Done _ _ evs => evs
  | Panic _ _ evs => evs
  | Spin _ evs => evs
  end.

(** The durations slept, in order. *)
Definition sleeps (evs : list Event) : list Z :=
  flat_map (fun e => match e with EvSleep d => [d] | _ => [] end) evs.

(** The endpoints that were sent a request, in order. *)
Definition consulted (evs : list Event) : list Client :=
  flat_map (fun e => match e with EvRPC cl _ => [cl] | _ => [] end) evs.

(** The transactions handed to an endpoint for submission, in order. *)
Definition submitted (evs : list Event) : list (option Transaction) :=
  flat_map
    (fun e =>
       match e with
       | @EvRPC _ V _ req =>
           match req in Request V0 return list (option Transaction) with
           | ReqSendTransaction tx => [tx]
           | _ => []
           end
       | _ => []
       end) evs.

(** The body lines written to the output file, in order. *)
Definition bodyLines (evs : list Event) : list Event :=
  filter
    (fun e =>
       match e with
       | EvWriteSendRewardResult _ _ => true
       | EvWriteSendRewardFromFileResult _ _ _ => true
       | _ => false
       end) evs.

(** The transaction hash a body line carries. *)
Definition lineHash (e : Event) : option Hash :=
  match e with
  | EvWriteSendRewardResult _ h => h
  | EvWriteSendRewardFromFileResult _ _ h => h
  | _ => None
  end.

(** The events of one request sent to each endpoint of [cls], in order. *)
Definition asked {V : Type} (req : Request V) (cls : list Client)
    : list Event :=
  map (fun cl => EvRPC cl req) cls.

(** Every endpoint of the list, sent [req] in order from world [w], answers
    with an error; [w'] is the world left. *)
Inductive Refused {V : Type} (req : Request V)
    : list Client -> World -> World -> Prop :=
| Refused_nil (w : World) : Refused req [] w w
| Refused_cons (cl : Client) (rest : list Client) (v : V) (e : string)
    (w w1 w' : World) :
    serve V cl req w = ((v, Some e), w1) ->
    Refused req rest w1 w' ->
    Refused req (cl :: rest) w w'.

(** The named single-pass operation that sends [req]. *)
Definition operation (c : APICaller) {V : Type} (req : Request V)
    : M (V * error) :=
  match req in Request V0 return M (V0 * error) with
  | ReqBalanceAt account blockNumber => BalanceAt c account blockNumber
  | ReqPendingNonceAt account => GetAccountNonce c account
  | ReqSendTransaction tx => err <- SendTransaction c tx ;; ret (tt, err)
  | ReqNetworkID => GetChainID c
  | ReqSuggestGasPrice => SuggestGasPrice c
  | ReqSyncProgress => SyncProgress_ c
  | ReqCallContract msg blockNumber => DoCall c msg blockNumber
  | ReqHeaderByNumber blockNumber => HeaderByNumber c blockNumber
  end.

(** [q], run again after each failure, fails [k] times and then succeeds
    with [v]: it is started in world [w] and leaves [w'].  A failed run
    comes with a value that satisfies [junk]. *)
Inductive Retried {A : Type} (q : M (A * error)) (junk : A -> Prop)
    : nat -> World -> A -> World -> Prop :=
| Retried_success (w : World) (v : A) (w' : World) (evs : list Event) :
    q w = Done (v, None) w' evs ->
    Retried q junk 0 w v w'
| Retried_failure (w : World) (v0 : A) (e : string) (w1 : World)
    (evs : list Event) (k : nat) (v : A) (w' : World) :
    q w = Done (v0, Some e) w1 evs ->
    junk v0 ->
    Retried q junk k w1 v w' ->
    Retried q junk (S k) w v w'.

(** An outcome with its events rewritten by [f]. *)
Definition mapEvents {A : Type} (f : list Event -> list Event) (r : Res A)
    : Res A :=
  match r with
  | Done a w evs => Done a w (f evs)
  | Panic why w evs => Panic why w (f evs)
  | Spin w evs => Spin w (f evs)
  end.

(** The log line of a skipped entry. *)
Definition isIgnoreLine (e : Event) : bool :=
  match e with
  | EvLog LvlInfo msg _ => String.eqb msg "ignore zero reward line"
  | _ => false
  end.

(** A trace without the log lines of the skipped entries. *)
Definition withoutIgnored (evs : list Event) : list Event :=
  filter (fun e => negb (isIgnoreLine e)) evs.

(** The nonce a transaction is built with: the cached one, or the live one
    when the query succeeded and it is the greater. *)
Definition reconciled (cached live : Z) (nerr : error) : Z :=
  match nerr with
  | None => if cached <? live then live else cached
  | Some _ => cached
  end.

(** [q] is run [n] times and fails each time; [cur] is the result held
    before the first run and [r] the one held after the last, which is the
    result of the last run when there is one. *)
Inductive Exhausted {A : Type} (q : M (A * error))
    : nat -> World -> A * error -> A * error -> World -> Prop :=
| Exhausted_done (w : World) (cur : A * error) : Exhausted q 0 w cur cur w
| Exhausted_again (w : World) (cur : A * error) (v : A) (e : string)
    (w1 : World) (evs : list Event) (k : nat) (r : A * error) (w' : World) :
    q w = Done (v, Some e) w1 evs ->
    Exhausted q k w1 (v, Some e) r w' ->
    Exhausted q (S k) w cur r w'.

(** A parameter of the transaction: supplied ([cur] is set and nothing is
    asked), or obtained from [q] after [k] failures. *)
Definition Obtained {A R : Type} (cur : option A) (q : M (R * error))
    (junk : R -> Prop) (val : A -> R) (k : nat) (w : World) (v : A)
    (w' : World) : Prop :=
  match cur with
  | Some x => k = 0%nat /\ v = x /\ w' = w
  | None => Retried q junk k w (val v) w'
  end.

(** The arguments after each block of [setDefaults] has done its part. *)
Definition withChain (args : BuildTxArgs) (cid : Z) : BuildTxArgs :=
  match chainID args with
  | None =>
      set_chainSigner (set_chainID args (Some cid))
        (Some (NewEIP155Signer (Some cid)))
  | Some _ => args
  end.

Definition withGasLimit (args : BuildTxArgs) : BuildTxArgs :=
  match GasLimit args with
  | None => set_GasLimit args (Some 90000)
  | Some _ => args
  end.

Definition finalArgs (args : BuildTxArgs) (cid n g : Z) : BuildTxArgs :=
  withGasLimit
    (set_GasPrice (set_Nonce (withChain args cid) (Some n)) (Some g)).

(** The arguments [setDefaults] leaves when the chain identifier is [cid]
    and the nonce and the gas price are, or were already, [n] and [g]. *)
Definition resolvedWith (args : BuildTxArgs) (cid n g : Z) : BuildTxArgs :=
  {| Sender := Sender args;
     KeystoreFile := KeystoreFile args;
     PasswordFile := PasswordFile args;
     Nonce := Some n;
     GasLimit := Some match GasLimit args with Some l => l | None => 90000 end;
     GasPrice := Some g;
     keyWrapper := keyWrapper args;
     fromAddr := fromAddr args;
     chainID := Some cid;
     chainSigner := Some (NewEIP155Signer (Some cid)) |}.

(** The log lines of a failed transfer. *)
Definition failureReport (opt : Option) (stat : AccountStat) (total sent : Z)
    (e : string) : list Event :=
  [EvLog LvlInfo "[sendRewards] rewards sended"
     [("totalRewards", LBig (Some total));
      ("rewardsSended", LBig (Some sent));
      ("allRewardsSended", LBool (sent =? total))];
   EvLog LvlError "[sendRewards] send tx failed"
     [("account", LStr (Address_String (stat_Account stat)));
      ("reward", LBig (stat_Reward stat));
      ("dryrun", LBool (DryRun opt));
      ("err", LErr (Some e))]].

(** Every event of every outcome of [c] satisfies [P]. *)
Definition Only (P : Event -> Prop) {A : Type} (c : M A) : Prop :=
  forall w, Forall P (events_of (c w)).

(** A request to an endpoint, or a log line. *)
Definition isRequestOrLog (e : Event) : Prop :=
  match e with
  | EvRPC _ _ => True
  | EvLog _ _ _ => True
  | _ => False
  end.

Definition isNoSleep (e : Event) : Prop :=
  match e with
  | EvSleep _ => False
  | _ => True
  end.

(** The entries of a batch for which a transfer is attempted. *)
Definition rewarded (accountStats : list AccountStat) : list AccountStat :=
  filter (fun stat => negb (noReward (stat_Reward stat))) accountStats.

(** The sum of the rewards of the entries for which a transfer is
    attempted. *)
Definition rewardSum (accountStats : list AccountStat) : Z :=
  fold_right
    (fun stat acc => match stat_Reward stat with Some v => v + acc | None => acc end)
    0 (rewarded accountStats).

(** A request to an endpoint. *)
Definition isRequest (e : Event) : Prop :=
  match e with
  | EvRPC _ _ => True
  | _ => False
  end.

(** A contract call with message [msg] at block [bn], a log line or a
    sleep. *)
Definition isCallOf (msg : CallMsg) (bn : option Z) (e : Event) : Prop :=
  match e with
  | @EvRPC _ V _ req =>
      match req in Request V0 return Prop with
      | ReqCallContract m b => m = msg /\ b = bn
      | _ => False
      end
  | EvLog _ _ _ => True
  | EvSleep _ => True
  | _ => False
  end.

(** The call of [balanceOf(account)] on the contract [token]. *)
Definition balanceOfCall (token account : Address) : CallMsg :=
  {| msg_To := Some token;
     msg_Data := balanceOfFuncHash ++ repeat 0 12 ++ Address_Bytes account |}.

(** [args'] holds what [args] held: the sender, the files, the key and the
    address are the same, and so is every parameter that was set; the gas
    limit is the same or, from nil, 90000; the signer is the same when the
    chain identifier was set. *)
Definition keeps (args args' : BuildTxArgs) : Prop :=
  Sender args' = Sender args
  /\ KeystoreFile args' = KeystoreFile args
  /\ PasswordFile args' = PasswordFile args
  /\ keyWrapper args' = keyWrapper args
  /\ fromAddr args' = fromAddr args
  /\ (forall n, Nonce args = Some n -> Nonce args' = Some n)
  /\ (GasLimit args' = GasLimit args
      \/ GasLimit args = None /\ GasLimit args' = Some 90000)
  /\ (forall g, GasPrice args = Some g -> GasPrice args' = Some g)
  /\ (forall cid, chainID args = Some cid ->
        chainID args' = Some cid /\ chainSigner args' = chainSigner args).

(** The outcome [r] of a piece started with [args]: when it has returned,
    it keeps what [args] held and has set the nonce and the gas limit. *)
Definition settled (args : BuildTxArgs) (r : Res BuildTxArgs) : Prop :=
  match r with
  | Done args' _ _ =>
      keeps args args' /\ Nonce args' <> None /\ GasLimit args' <> None
  | _ => True
  end.

(** The outcome [r], when it has returned, holds a signer. *)
Definition signed (r : Res BuildTxArgs) : Prop :=
  match r with
  | Done args' _ _ => chainSigner args' <> None
  | _ => True
  end.

(** The fields a transfer dereferences are set. *)
Definition ready (args : BuildTxArgs) : Prop :=
  Nonce args <> None /\ GasLimit args <> None
  /\ keyWrapper args <> None /\ chainSigner args <> None.

(** An endpoint that fails to give the chain identifier gives nil with the
    error, as [ethclient] does. *)
Definition nilOnError (capi : APICaller) : Prop :=
  forall w v e w1 evs,
    GetChainID capi w = Done (v, Some e) w1 evs -> v = None.

(** The arguments [loadKeyStore] leaves when the keystore opens with
    [key]. *)
Definition withKey (args : BuildTxArgs) (key : Key) : BuildTxArgs :=
  let args := set_fromAddr (set_keyWrapper args (Some key)) (key_Address key) in
  if isEmpty (Sender args)
  then set_Sender args (Address_String (fromAddr args))
  else args.

(** The fields of a title line with the column of the hashes: [txhash]
    comes in before the last field. *)
Definition withTxHashField (parts : list string) : list string :=
  removelast parts ++ ["txhash"; last parts ""].

(** The call of the function [selector], without arguments, on
    [contract]. *)
Definition plainCall (contract : Address) (selector : bytes) : CallMsg :=
  {| msg_To := Some contract; msg_Data := selector |}.

End Vocabulary.

(* ================================================================== *)
(** ** A simulated network, for the examples

    The world is a clock that counts the requests served.  An endpoint
    [(up, down)] answers the requests that arrive at a time [t] with
    [up <= t < down] and refuses the others. *)

Module Sim.

Definition types : ChainTypes := {|
  Address := string;
  Hash := Z;
  Header := Z;
  SyncProgress := unit;
  PrivateKey := Z;
  Signer := option Z;
  Signature := Z;
  Client := nat * nat;
  AccountStat := string * option Z;
  World := nat
|}.

#[local] Existing Instance types.

Definition answer {V : Type} (req : @Request types V) : V :=
  match req in Request V0 return V0 with
  | ReqBalanceAt _ _ => Some 1000
  | ReqPendingNonceAt _ => 9
  | ReqSendTransaction _ => tt
  | ReqNetworkID => Some 32659
  | ReqSuggestGasPrice => Some 1000000000
  | ReqSyncProgress => None
  | ReqCallContract _ _ => repeat 0 31%nat ++ [18]
  | ReqHeaderByNumber _ => Some 0
  end.

Definition respond (V : Type) (cl : nat * nat) (req : @Request types V)
    (t : nat) : (V * error) * nat :=
  if ((fst cl <=? t) && (t <? snd cl))%nat
  then ((answer req, None), S t)
  else ((zero req, Some "connection refused"), S t).

Definition lower (c : ascii) : ascii :=
  let n := nat_of_ascii c in
  if ((65 <=? n) && (n <=? 90))%nat then ascii_of_nat (n + 32) else c.

Fixpoint lowerString (s : string) : string :=
  match s with
  | EmptyString => EmptyString
  | String c rest => String (lower c) (lowerString rest)
  end.

Definition equalFold (s t : string) : bool :=
  String.eqb (lowerString s) (lowerString t).

Definition isHexDigit (c : ascii) : bool :=
  let n := nat_of_ascii (lower c) in
  ((48 <=? n) && (n <=? 57) || (97 <=? n) && (n <=? 102))%nat.

Definition has0xPrefix (s : string) : bool :=
  match s with
  | String "0" (String x _) => Ascii.eqb (lower x) "x"
  | _ => false
  end.

Definition strip0x (s : string) : string :=
  if has0xPrefix s then String.substring 2 (String.length s - 2) s else s.

Definition isHexAddress (s : string) : bool :=
  let h := strip0x s in
  (String.length h =? 40)%nat && forallb isHexDigit (list_ascii_of_string h).

Definition hexToAddress (s : string) : string := "0x" +++ strip0x s.

Definition hexValue (c : ascii) : Z :=
  let n := nat_of_ascii (lower c) in
  if (97 <=? n)%nat then Z.of_nat (n - 87) else Z.of_nat (n - 48).

Fixpoint decodeHex (l : list ascii) : bytes :=
  match l with
  | a :: b :: rest => (16 * hexValue a + hexValue b) :: decodeHex rest
  | _ => []
  end.

Definition isSpace (c : ascii) : bool :=
  let n := nat_of_ascii c in
  ((n =? 32) || (9 <=? n) && (n <=? 13))%nat.

Fixpoint dropSpaces (l : list ascii) : list ascii :=
  match l with
  | c :: rest => if isSpace c then dropSpaces rest else l
  | [] => []
  end.

Definition trimSpace (s : string) : string :=
  string_of_list_ascii
    (rev (dropSpaces (rev (dropSpaces (list_ascii_of_string s))))).

Definition newline : string := String (ascii_of_nat 10) EmptyString.

Definition keyAddress : string := "0x2222222222222222222222222222222222222222".

(** Two files: the keystore and the password that opens it. *)
Definition readFile (path : string) (t : nat) : string * error :=
  if String.eqb path "keystore.json" then ("{sealed}", None)
  else if String.eqb path "password.txt" then ("secret" +++ newline, None)
  else ("", Some ("open " +++ path +++ ": no such file or directory")).

Definition decryptKey (keyjson passwd : string)
    : option (@Key types) * error :=
  if String.eqb keyjson "{sealed}" && String.eqb passwd "secret"
  then (Some {| key_Address := keyAddress; key_PrivateKey := 7 |}, None)
  else (None, Some "could not decrypt key with given passphrase").

Definition beBytes (z : Z) : bytes :=
  if z =? 0 then [] else [z mod 256].

Definition splitChar (c : ascii) : bool :=
  (Ascii.eqb c ",") || (Ascii.eqb c " ").

Fixpoint splitFields (s : string) (cur : string) : list string :=
  match s with
  | EmptyString => [cur]
  | String c rest =>
      if splitChar c then cur :: splitFields rest ""
      else splitFields rest (cur +++ String c EmptyString)
  end.

Definition setByWhat (o : @Option types) (m : string) : @Option types :=
  {| InputFile := InputFile o; DryRun := DryRun o; SaveDB := SaveDB o;
     byWhat := m; TotalValue := TotalValue o; RewardToken := RewardToken o;
     TxArgs := TxArgs o |}.

Definition accountA : string := "0x000000000000000000000000000000000000000A".
Definition accountB : string := "0x000000000000000000000000000000000000000b".
Definition accountC : string := "0x000000000000000000000000000000000000000C".
Definition accountD : string := "0x000000000000000000000000000000000000000d".
Definition accountE : string := "0x000000000000000000000000000000000000000E".

Definition titleLine : string := "#account,reward,liquidity,share,number".

(** Two input files, chosen by name. *)
Definition loadBatch (path : string)
    : list (string * option Z) * string * error :=
  if String.eqb path "mixed.txt" then
    ([(accountA, Some 0); (accountB, Some 5); (accountC, Some (-1))],
     titleLine, None)
  else if String.eqb path "five.txt" then
    ([(accountA, Some 1); (accountB, Some 1); (accountC, Some 1);
      (accountD, Some 1); (accountE, Some 1)], titleLine, None)
  else ([], "", Some ("open " +++ path +++ ": no such file or directory")).

Definition totalReward (l : list (string * option Z)) : option Z :=
  Some (fold_right
          (fun s acc => match snd s with Some v => v + acc | None => acc end)
          0 l).

Definition backend : @Backend types := {|
  serve := respond;
  sign := fun (s : option Z) (prv : Z) (tx : @Transaction types) =>
            if prv =? 0 then inr "invalid private key" else inl prv;
  Transaction_Hash := fun tx : @Transaction types => 1000 + tx_nonce tx;
  NewEIP155Signer := fun c : option Z => c;
  zeroAddress := "0x0000000000000000000000000000000000000000";
  IsHexAddress := isHexAddress;
  HexToAddress := hexToAddress;
  Address_String := fun a : string => a;
  Address_Bytes :=
    fun a : string => decodeHex (list_ascii_of_string (strip0x a));
  BytesToAddress := fun _ : bytes => keyAddress;
  GetData := fun (b : bytes) (start size : Z) =>
               firstn (Z.to_nat size) (skipn (Z.to_nat start) b);
  GetBigInt := fun (b : bytes) (start size : Z) =>
                 fold_left (fun acc x => acc * 256 + x)
                   (firstn (Z.to_nat size) (skipn (Z.to_nat start) b)) 0;
  BigInt_Bytes := beBytes;
  EqualFold := equalFold;
  TrimSpace := trimSpace;
  ReadFile := readFile;
  DecryptKey := decryptKey;
  UnpackABIEncodedStringInIndex := fun (_ : bytes) (_ : Z) => ("ANY", None);
  stat_Account := fun s : string * option Z => fst s;
  stat_Reward := fun s : string * option Z => snd s;
  CalcTotalReward := totalReward;
  isCommentedLine := fun s => match s with String "#" _ => true | _ => false end;
  blankOrCommaSepRegexp_Split := fun s => splitFields s "";
  GetStandardByWhat := fun s => s;
  SetByWhat := fun o m => (None, setByWhat o m);
  GetAccountsAndRewardsFromFile :=
    fun o => ret (loadBatch (InputFile o), o);
  CheckSenderRewardTokenBalance := fun o => ret (None, o);
  CheckBasic := fun o => ret (None, o);
  output_write := fun _ _ t => (None, t);
  deinit_effect := fun t => (tt, t)
|}.

Definition key : @Key types :=
  {| key_Address := keyAddress; key_PrivateKey := 7 |}.

(** Arguments as [Check] leaves them in a normal run. *)
Definition resolvedArgs (nonce : Z) : @BuildTxArgs types := {|
  Sender := keyAddress;
  KeystoreFile := "keystore.json";
  PasswordFile := "password.txt";
  Nonce := Some nonce;
  GasLimit := Some 90000;
  GasPrice := Some 1000000000;
  keyWrapper := Some key;
  fromAddr := keyAddress;
  chainID := Some 32659;
  chainSigner := Some (Some 32659)
|}.

(** Arguments as the command line gives them. *)
Definition freshArgs (sender : string) : @BuildTxArgs types := {|
  Sender := sender;
  KeystoreFile := "keystore.json";
  PasswordFile := "password.txt";
  Nonce := None;
  GasLimit := None;
  GasPrice := None;
  keyWrapper := None;
  fromAddr := "0x0000000000000000000000000000000000000000";
  chainID := None;
  chainSigner := None
|}.

(** Arguments that name a keystore that does not exist. *)
Definition argsWithoutKeystore (sender : string) : @BuildTxArgs types := {|
  Sender := sender;
  KeystoreFile := "missing.json";
  PasswordFile := "password.txt";
  Nonce := None;
  GasLimit := None;
  GasPrice := None;
  keyWrapper := None;
  fromAddr := "0x0000000000000000000000000000000000000000";
  chainID := None;
  chainSigner := None
|}.

Definition tokenAddress : string := "0x1111111111111111111111111111111111111111".

Definition option_ (file : string) (dryRun : bool) (args : @BuildTxArgs types)
    : @Option types := {|
  InputFile := file;
  DryRun := dryRun;
  SaveDB := false;
  byWhat := "";
  TotalValue := None;
  RewardToken := tokenAddress;
  TxArgs := args
|}.

Definition gateway (endpoints : list (nat * nat)) (retries : Z)
    : @APICaller types :=
  {| clients := endpoints; rpcRetryCount := retries;
     rpcRetryInterval := 1000000000 |}.

(** Dialing: an address with the scheme [http] connects, to an endpoint
    that is up until the time given by the length of the address. *)
Definition dial (url : string) (t : nat) : ((nat * nat) + string) * nat :=
  if String.prefix "http://" url
  then (inl (0%nat, String.length url), t)
  else (inr ("dial " +++ url +++ ": unsupported scheme"), t).

(** The backend with another input file and another outcome of the basic
    check. *)
Definition backendWith (batch : list (string * option Z) * string * error)
    (basic : error) : @Backend types := {|
  serve := @serve types backend;
  sign := @sign types backend;
  Transaction_Hash := @Transaction_Hash types backend;
  NewEIP155Signer := @NewEIP155Signer types backend;
  zeroAddress := @zeroAddress types backend;
  IsHexAddress := @IsHexAddress types backend;
  HexToAddress := @HexToAddress types backend;
  Address_String := @Address_String types backend;
  Address_Bytes := @Address_Bytes types backend;
  BytesToAddress := @BytesToAddress types backend;
  GetData := @GetData types backend;
  GetBigInt := @GetBigInt types backend;
  BigInt_Bytes := @BigInt_Bytes types backend;
  EqualFold := @EqualFold types backend;
  TrimSpace := @TrimSpace types backend;
  ReadFile := @ReadFile types backend;
  DecryptKey := @DecryptKey types backend;
  UnpackABIEncodedStringInIndex := @UnpackABIEncodedStringInIndex types backend;
  stat_Account := @stat_Account types backend;
  stat_Reward := @stat_Reward types backend;
  CalcTotalReward := @CalcTotalReward types backend;
  isCommentedLine := @isCommentedLine types backend;
  blankOrCommaSepRegexp_Split := @blankOrCommaSepRegexp_Split types backend;
  GetStandardByWhat := @GetStandardByWhat types backend;
  SetByWhat := @SetByWhat types backend;
  GetAccountsAndRewardsFromFile := fun o => ret (batch, o);
  CheckSenderRewardTokenBalance := @CheckSenderRewardTokenBalance types backend;
  CheckBasic := fun o => ret (basic, o);
  output_write := @output_write types backend;
  deinit_effect := @deinit_effect types backend
|}.

End Sim.

(* ================================================================== *)
(** * Properties *)

Section MonadLemmas.
Context {T : ChainTypes}.

Lemma prepend_nil {A : Type} (r : Res A) : prepend [] r = r.
Proof. destruct r; reflexivity. Qed.

Lemma prepend_prepend {A : Type} (e1 e2 : list Event) (r : Res A) :
  prepend e1 (prepend e2 r) = prepend (e1 ++ e2) r.
Proof. destruct r; simpl; rewrite app_assoc; reflexivity. Qed.

Lemma bind_done {A C : Type} (c : M A) (k : A -> M C) (w : World)
    (a : A) (w1 : World) (evs1 : list Event) :
  c w = Done a w1 evs1 -> bind c k w = prepend evs1 (k a w1).
Proof. intros H; unfold bind; rewrite H; reflexivity. Qed.

Lemma bind_emit {C : Type} (e : Event) (k : unit -> M C) (w : World) :
  bind (emit e) k w = prepend [e] (k tt w).
Proof. reflexivity. Qed.

Lemma bind_ret {A C : Type} (a : A) (k : A -> M C) (w : World) :
  bind (ret a) k w = k a w.
Proof. unfold bind, ret; apply prepend_nil. Qed.

Lemma events_prepend {A : Type} (e : list Event) (r : Res A) :
  events_of (prepend e r) = e ++ events_of r.
Proof. destruct r; reflexivity. Qed.

Lemma world_prepend {A : Type} (e : list Event) (r : Res A) :
  world_of (prepend e r) = world_of r.
Proof. destruct r; reflexivity. Qed.

Lemma mapEvents_prepend {A : Type} (f : list Event -> list Event)
    (e : list Event) (r : Res A) :
  (forall x y, f (x ++ y) = f x ++ f y) ->
  mapEvents f (prepend e r) = prepend (f e) (mapEvents f r).
Proof. intros Hf; destruct r; simpl; rewrite Hf; reflexivity. Qed.

Lemma mapEvents_bind_ext {A C : Type} (f : list Event -> list Event)
    (c : M A) (k1 k2 : A -> M C) (w : World) :
  (forall x y, f (x ++ y) = f x ++ f y) ->
  (forall a w', mapEvents f (k1 a w') = mapEvents f (k2 a w')) ->
  mapEvents f (bind c k1 w) = mapEvents f (bind c k2 w).
Proof.
  intros Hf Hk. unfold bind. destruct (c w); try reflexivity.
  rewrite !mapEvents_prepend by exact Hf. rewrite Hk. reflexivity.
Qed.

Lemma sleeps_app (x y : list Event) : sleeps (x ++ y) = sleeps x ++ sleeps y.
Proof. unfold sleeps; apply flat_map_app. Qed.

Lemma consulted_app (x y : list Event) :
  consulted (x ++ y) = consulted x ++ consulted y.
Proof. unfold consulted; apply flat_map_app. Qed.

Lemma submitted_app (x y : list Event) :
  submitted (x ++ y) = submitted x ++ submitted y.
Proof. unfold submitted; apply flat_map_app. Qed.

Lemma bodyLines_app (x y : list Event) :
  bodyLines (x ++ y) = bodyLines x ++ bodyLines y.
Proof. unfold bodyLines; apply filter_app. Qed.

Lemma withoutIgnored_app (x y : list Event) :
  withoutIgnored (x ++ y) = withoutIgnored x ++ withoutIgnored y.
Proof. unfold withoutIgnored; apply filter_app. Qed.

Lemma sleeps_asked {V : Type} (req : Request V) (cls : list Client) :
  sleeps (asked req cls) = [].
Proof. induction cls; simpl; auto. Qed.

Lemma bodyLines_asked {V : Type} (req : Request V) (cls : list Client) :
  bodyLines (asked req cls) = [].
Proof. induction cls; simpl; auto. Qed.

Lemma consulted_asked {V : Type} (req : Request V) (cls : list Client) :
  consulted (asked req cls) = cls.
Proof. induction cls; simpl; congruence. Qed.

Lemma asked_app {V : Type} (req : Request V) (l1 l2 : list Client) :
  asked req (l1 ++ l2) = asked req l1 ++ asked req l2.
Proof. unfold asked; apply map_app. Qed.

End MonadLemmas.

Section GatewayProofs.
Context {T : ChainTypes} {B : Backend}.

Lemma ask_eq {V : Type} (cl : Client) (req : Request V) (w : World) :
  ask cl req w =
    Done (fst (serve V cl req w)) (snd (serve V cl req w)) [EvRPC cl req].
Proof. unfold ask, external; destruct (serve V cl req w); reflexivity. Qed.

(** A pass over the endpoints always returns, and its events are the
    requests sent to a prefix of the list. *)
Lemma eachClient_returns {V : Type} (req : Request V) (cls : list Client) :
  forall cur w,
    exists r w' n,
      eachClient req cls cur w = Done r w' (asked req (firstn n cls)).
Proof.
  induction cls as [|cl rest IH]; intros cur w.
  - exists cur, w, 0%nat; reflexivity.
  - simpl. rewrite (bind_done _ _ _ _ _ _ (ask_eq cl req w)).
    destruct (serve V cl req w) as [[v e] w1]; simpl.
    destruct e as [e|].
    + destruct (IH (v, Some e) w1) as (r & w' & n & H).
      exists r, w', (S n); rewrite H; reflexivity.
    + exists (v, None), w1, 1%nat; reflexivity.
Qed.

Lemma perform_returns {V : Type} (c : APICaller) (req : Request V) (w : World) :
  exists r w' n, perform c req w = Done r w' (asked req (firstn n (clients c))).
Proof. apply eachClient_returns. Qed.

(** The endpoints before the first that answers, or before the last of the
    list, are passed over; the answer of that one is the result. *)
Lemma eachClient_first_answer {V : Type} (req : Request V)
    (pre : list Client) (cl : Client) (post : list Client)
    (w w1 : World) (r : V * error) (w2 : World) :
  Refused req pre w w1 ->
  serve V cl req w1 = (r, w2) ->
  snd r = None \/ post = [] ->
  forall cur,
    eachClient req (pre ++ cl :: post) cur w
    = Done r w2 (asked req (pre ++ [cl])).
Proof.
  intros Href Hcl Hlast.
  induction Href as [w|cl0 rest v e w w1' w' Hs _ IH]; intros cur.
  - simpl. rewrite (bind_done _ _ _ _ _ _ (ask_eq cl req w)), Hcl; simpl.
    destruct r as [v [e|]]; simpl in *.
    + destruct Hlast as [Hn|Hp]; [discriminate|subst post]; reflexivity.
    + reflexivity.
  - simpl. rewrite (bind_done _ _ _ _ _ _ (ask_eq cl0 req w)), Hs; simpl.
    rewrite (IH Hcl); reflexivity.
Qed.

Lemma operation_perform {V : Type} (c : APICaller) (req : Request V)
    (w : World) :
  operation c req w = perform c req w.
Proof.
  destruct req; try reflexivity.
  simpl. unfold SendTransaction.
  destruct (perform_returns c (ReqSendTransaction tx) w) as (r & w' & n & H).
  unfold bind, ret; rewrite H; simpl; rewrite !app_nil_r.
  destruct r as [[] e]; reflexivity.
Qed.

(** A non-empty list of endpoints always splits at the endpoint whose
    answer ends the pass. *)
Lemma endpoints_split {V : Type} (req : Request V) (cls : list Client) :
  cls <> [] ->
  forall w,
    exists pre cl post w1 r w2,
      cls = pre ++ cl :: post
      /\ Refused req pre w w1
      /\ serve V cl req w1 = (r, w2)
      /\ (snd r = None \/ post = []).
Proof.
  induction cls as [|cl rest IH]; intros Hne w; [contradiction|].
  destruct (serve V cl req w) as [[v e] w1] eqn:Hs.
  destruct e as [e|].
  - destruct rest as [|cl' rest'].
    + exists [], cl, [], w, (v, Some e), w1.
      repeat split; [constructor|exact Hs|right; reflexivity].
    + destruct (IH ltac:(discriminate) w1)
        as (pre & cl0 & post & w2 & r & w3 & Heq & Href & Hcl & Hlast).
      exists (cl :: pre), cl0, post, w2, r, w3.
      repeat split; auto.
      * simpl; rewrite Heq; reflexivity.
      * eapply Refused_cons; eauto.
  - exists [], cl, rest, w, (v, None), w1.
    repeat split; [constructor|exact Hs|left; reflexivity].
Qed.

(** C3.  Take a gateway with a non-empty list of endpoints and any of the
    single-pass operations (balance, nonce, gas price, chain id, header,
    contract call, sync progress, submission).  The list splits as
    [pre ++ cl :: post], where the endpoints of [pre], asked one after the
    other, refuse the request and [cl] either answers without error or is
    the last of the list.  For every such split the operation returns what
    [cl] answered, value and error as they came (so the error of the last
    endpoint when all refuse), in the world [cl] leaves; the requests it
    sent went to [pre] and then [cl], in list order, and to no endpoint of
    [post]. *)
Theorem single_pass_first_success_or_last_error
    (c : APICaller) {V : Type} (req : Request V) (w : World) :
  clients c <> [] ->
  (exists pre cl post w1 r w2,
     clients c = pre ++ cl :: post
     /\ Refused req pre w w1
     /\ serve V cl req w1 = (r, w2)
     /\ (snd r = None \/ post = []))
  /\ (forall pre cl post w1 r w2,
        clients c = pre ++ cl :: post ->
        Refused req pre w w1 ->
        serve V cl req w1 = (r, w2) ->
        snd r = None \/ post = [] ->
        operation c req w = Done r w2 (asked req (pre ++ [cl]))
        /\ consulted (asked req (pre ++ [cl])) = pre ++ [cl]).
Proof.
  intros Hne. split; [apply endpoints_split; exact Hne|].
  intros pre cl post w1 r w2 Hc Href Hcl Hlast. split.
  - rewrite operation_perform. unfold perform. rewrite Hc.
    eapply eachClient_first_answer; eauto.
  - apply consulted_asked.
Qed.

End GatewayProofs.

Section FrameLemmas.
Context {T : ChainTypes} {B : Backend}.

Lemma only_ret (P : Event -> Prop) {A : Type} (a : A) : Only P (ret a).
Proof. intros w; constructor. Qed.

Lemma only_panic (P : Event -> Prop) {A : Type} (why : string) :
  Only P (@panic _ A why).
Proof. intros w; constructor. Qed.

Lemma only_spin (P : Event -> Prop) {A : Type} : Only P (@spin _ A).
Proof. intros w; constructor. Qed.

Lemma only_inspect (P : Event -> Prop) {A : Type} (f : World -> A) :
  Only P (inspect f).
Proof. intros w; constructor. Qed.

Lemma only_emit (P : Event -> Prop) (e : Event) : P e -> Only P (emit e).
Proof. intros H w; repeat constructor; exact H. Qed.

Lemma only_external (P : Event -> Prop) {A : Type} (e : Event)
    (f : World -> A * World) :
  P e -> Only P (external e f).
Proof.
  intros H w; unfold external; destruct (f w); repeat constructor; exact H.
Qed.

Lemma only_bind (P : Event -> Prop) {A C : Type} (c : M A) (k : A -> M C) :
  Only P c -> (forall a, Only P (k a)) -> Only P (bind c k).
Proof.
  intros Hc Hk w; unfold bind.
  specialize (Hc w); destruct (c w) as [a w1 e1|why w1 e1|w1 e1];
    simpl in *; auto.
  rewrite events_prepend; apply Forall_app; split; auto. apply Hk.
Qed.

Lemma only_eachClient (P : Event -> Prop) {V : Type} (req : Request V)
    (cls : list Client) (cur : V * error) :
  (forall cl, P (EvRPC cl req)) -> Only P (eachClient req cls cur).
Proof.
  intros HP; revert cur; induction cls as [|cl rest IH]; intros cur; simpl.
  - apply only_ret.
  - apply only_bind.
    + apply only_external, HP.
    + intros [v [e|]]; simpl; [apply IH|apply only_ret].
Qed.

Lemma only_perform (P : Event -> Prop) {V : Type} (c : APICaller)
    (req : Request V) :
  (forall cl, P (EvRPC cl req)) -> Only P (perform c req).
Proof. apply only_eachClient. Qed.

Lemma only_weaken (P Q : Event -> Prop) {A : Type} (c : M A) :
  (forall e, P e -> Q e) -> Only P c -> Only Q c.
Proof. intros H Hc w; eapply Forall_impl; [exact H|apply Hc]. Qed.

Lemma requestOrLog_bodyLines (evs : list Event) :
  Forall isRequestOrLog evs -> bodyLines evs = [].
Proof.
  induction 1 as [|e evs He _ IH]; [reflexivity|].
  simpl; destruct e; simpl in *; try contradiction; exact IH.
Qed.

Lemma requestOrLog_sleeps (evs : list Event) :
  Forall isRequestOrLog evs -> sleeps evs = [].
Proof.
  induction 1 as [|e evs He _ IH]; [reflexivity|].
  simpl; destruct e; simpl in *; try contradiction; exact IH.
Qed.

Lemma noSleep_sleeps (evs : list Event) :
  Forall isNoSleep evs -> sleeps evs = [].
Proof.
  induction 1 as [|e evs He _ IH]; [reflexivity|].
  simpl; destruct e; simpl in *; try contradiction; exact IH.
Qed.

End FrameLemmas.

Ltac frame_step :=
  match goal with
  | |- Only _ (bind _ _) => apply only_bind; [|intros ?]
  | |- Only _ (ret _) => apply only_ret
  | |- Only _ (panic _) => apply only_panic
  | |- Only _ spin => apply only_spin
  | |- Only _ (inspect _) => apply only_inspect
  | |- Only _ (log _ _ _) => apply only_emit; exact I
  | |- Only _ (emit _) => apply only_emit; exact I
  | |- Only _ (perform _ _) => apply only_perform; intros ?; exact I
  | |- Only _ (eachClient _ _ _) => apply only_eachClient; intros ?; exact I
  | |- Only _ (match ?x with _ => _ end) => destruct x
  | |- Only _ (if ?x then _ else _) => destruct x
  end.

Section TransferProofs.
Context {T : ChainTypes} {B : Backend}.
Variable capi : APICaller.

Lemma set_Nonce_same (args : BuildTxArgs) : set_Nonce args (Nonce args) = args.
Proof. destruct args; reflexivity. Qed.

Lemma uint64_incr_below (n : Z) :
  0 <= n < 2 ^ 64 - 1 -> uint64_incr n = n + 1.
Proof. intros H; unfold uint64_incr; apply Z.mod_small; lia. Qed.

(** The transfer sends requests and writes log lines, nothing else. *)
Lemma sendRewardsTransaction_frame (args : BuildTxArgs) (account : Address)
    (reward : option Z) (rewardToken : Address) (dryRun : bool) :
  Only isRequestOrLog
    (sendRewardsTransaction capi args account reward rewardToken dryRun).
Proof.
  unfold sendRewardsTransaction, GetAccountNonce, SendTransaction.
  destruct dryRun.
  - repeat frame_step.
  - destruct reward as [rv|]; [|frame_step].
    apply only_bind; [frame_step|intros r].
    apply only_bind.
    + repeat frame_step.
    + intros args1. simpl.
      destruct (Nonce args1); [|frame_step].
      destruct (GasLimit args1); [|frame_step].
      rewrite andb_false_r.
      destruct (keyWrapper args1); [|frame_step].
      destruct (chainSigner args1); [|frame_step].
      destruct (SignTx _ _ _) as [signedTx [e|]]; simpl.
      * frame_step.
      * repeat frame_step.
Qed.

(** What a transfer does, in a run that is not a dry run, with arguments
    that hold a nonce, a gas limit, a key and a signer. *)
Lemma sendRewardsTransaction_resolved (args : BuildTxArgs)
    (account : Address) (rv : Z) (token : Address) (w : World)
    (n0 gl : Z) (key : Key) (signer : Signer)
    (live : Z) (nerr : error) (w1 : World) (evs1 : list Event) :
  Nonce args = Some n0 ->
  GasLimit args = Some gl ->
  keyWrapper args = Some key ->
  chainSigner args = Some signer ->
  GetAccountNonce capi (fromAddr args) w = Done (live, nerr) w1 evs1 ->
  let used := reconciled n0 live nerr in
  let rawTx := NewTransaction used token (Some 0) gl (GasPrice args)
                 (transferData account rv) in
  sendRewardsTransaction capi args account (Some rv) token false w =
    match sign signer (key_PrivateKey key) rawTx with
    | inr e =>
        Done ((None, Some ("sign tx failed, " +++ e)),
              set_Nonce args (Some used)) w1 evs1
    | inl sig =>
        let signed := WithSignature rawTx sig in
        match SendTransaction capi (Some signed) w1 with
        | Done (Some e) w2 evs2 =>
            Done ((None, Some ("send tx failed, " +++ e)),
                  set_Nonce args (Some used)) w2 (evs1 ++ evs2)
        | Done None w2 evs2 =>
            Done ((Some (Transaction_Hash signed), None),
                  set_Nonce args (Some (uint64_incr used))) w2
              (evs1 ++ evs2 ++
               [EvLog LvlInfo "sendRewards success"
                  [("account", LStr (Address_String account));
                   ("reward", LBig (Some rv));
                   ("txHash", LHash (Transaction_Hash signed))]])
        | Panic why w2 evs2 => Panic why w2 (evs1 ++ evs2)
        | Spin w2 evs2 => Spin w2 (evs1 ++ evs2)
        end
    end.
Proof.
  intros Hn Hg Hk Hs Hq used rawTx.
  unfold sendRewardsTransaction.
  rewrite (bind_done _ _ _ _ _ _ Hq). cbv beta iota. simpl fst; simpl snd.
  assert (Hargs :
    (match nerr with
     | None =>
         match Nonce args with
         | None => panic nilDeref
         | Some cached =>
             if cached <? live then ret (set_Nonce args (Some live))
             else ret args
         end
     | Some _ => ret args
     end) w1 = Done (set_Nonce args (Some used)) w1 []).
  { subst used; unfold reconciled. destruct nerr as [e|].
    - rewrite <- Hn, set_Nonce_same; reflexivity.
    - rewrite Hn. destruct (n0 <? live); [reflexivity|].
      rewrite <- Hn, set_Nonce_same; reflexivity. }
  rewrite (bind_done _ _ _ _ _ _ Hargs). cbv beta iota.
  change (Nonce (set_Nonce args (Some used))) with (Some used).
  change (GasLimit (set_Nonce args (Some used))) with (GasLimit args).
  change (keyWrapper (set_Nonce args (Some used))) with (keyWrapper args).
  change (chainSigner (set_Nonce args (Some used))) with (chainSigner args).
  change (GasPrice (set_Nonce args (Some used))) with (GasPrice args).
  rewrite Hg, Hk, Hs. cbv beta iota. rewrite andb_false_r.
  fold rawTx. unfold SignTx.
  destruct (sign signer (key_PrivateKey key) rawTx) as [sig|e]; simpl.
  - rewrite prepend_nil. unfold bind at 1.
    destruct (SendTransaction capi (Some (WithSignature rawTx sig)) w1)
      as [[e|] w2 evs2|why w2 evs2|w2 evs2]; simpl; try reflexivity.
    rewrite app_nil_r; reflexivity.
  - rewrite app_nil_r; reflexivity.
Qed.

End TransferProofs.

Section NonceProofs.
Context {T : ChainTypes} {B : Backend}.
Variable capi : APICaller.

Lemma submitted_asked_nonce (account : Address) (cls : list Client) :
  submitted (asked (ReqPendingNonceAt account) cls) = [].
Proof. induction cls; simpl; auto. Qed.

Lemma submitted_asked_send (tx : option Transaction) (cls : list Client) :
  submitted (asked (ReqSendTransaction tx) cls) = map (fun _ => tx) cls.
Proof. induction cls; simpl; congruence. Qed.

Lemma SendTransaction_returns (tx : option Transaction) (w : World) :
  exists e w' n,
    SendTransaction capi tx w
    = Done e w' (asked (ReqSendTransaction tx) (firstn n (clients capi))).
Proof.
  destruct (perform_returns capi (ReqSendTransaction tx) w)
    as (r & w' & n & H).
  exists (snd r), w', n. unfold SendTransaction.
  rewrite (bind_done _ _ _ _ _ _ H); simpl. rewrite app_nil_r; reflexivity.
Qed.

Lemma reconciled_spec (cached live : Z) (nerr : error) :
  (nerr = None /\ cached < live -> reconciled cached live nerr = live)
  /\ (~ (nerr = None /\ cached < live) -> reconciled cached live nerr = cached).
Proof.
  unfold reconciled; destruct nerr as [e|].
  - split; [intros [H _]; discriminate|reflexivity].
  - destruct (Z.ltb_spec cached live); split; intros H'; try reflexivity.
    + exfalso; apply H'; auto.
    + destruct H' as [_ H']; lia.
Qed.

(** With arguments that hold a nonce, a gas limit, a key and a signer, a
    transfer that is not a dry run returns. *)
Lemma resolved_transfer_returns
    (args : BuildTxArgs) (account : Address) (rv : Z) (token : Address)
    (w : World) (n0 gl : Z) (key : Key) (signer : Signer) :
  Nonce args = Some n0 ->
  GasLimit args = Some gl ->
  keyWrapper args = Some key ->
  chainSigner args = Some signer ->
  exists live nerr w1 evs1 used r args' w' rest,
    GetAccountNonce capi (fromAddr args) w = Done (live, nerr) w1 evs1
    /\ sendRewardsTransaction capi args account (Some rv) token false w
       = Done (r, args') w' (evs1 ++ rest)
    /\ submitted evs1 = []
    /\ (nerr = None /\ n0 < live -> used = live)
    /\ (~ (nerr = None /\ n0 < live) -> used = n0)
    /\ (forall otx, In otx (submitted rest) ->
          exists tx, otx = Some tx /\ tx_nonce tx = used)
    /\ (snd r = None -> Nonce args' = Some (uint64_incr used))
    /\ (snd r = None -> 0 <= used < 2 ^ 64 - 1 -> Nonce args' = Some (used + 1))
    /\ (snd r <> None -> Nonce args' = Some used)
    /\ chainID args' = chainID args
    /\ chainSigner args' = chainSigner args
    /\ GasPrice args' = GasPrice args
    /\ GasLimit args' = GasLimit args.
Proof.
  intros Hn Hg Hk Hs.
  destruct (perform_returns capi (ReqPendingNonceAt (fromAddr args)) w)
    as ([live nerr] & w1 & n1 & Hq).
  fold (GetAccountNonce capi (fromAddr args)) in Hq.
  pose proof (sendRewardsTransaction_resolved capi args account rv token w
                n0 gl key signer live nerr w1 _ Hn Hg Hk Hs Hq) as Hrun.
  cbv zeta in Hrun.
  destruct (reconciled_spec n0 live nerr) as [Hgt Hle].
  set (used := reconciled n0 live nerr) in *.
  set (rawTx := NewTransaction used token (Some 0) gl (GasPrice args)
                  (transferData account rv)) in *.
  exists live, nerr, w1,
    (asked (ReqPendingNonceAt (fromAddr args)) (firstn n1 (clients capi))),
    used.
  destruct (sign signer (key_PrivateKey key) rawTx) as [sig|e].
  - destruct (SendTransaction_returns (Some (WithSignature rawTx sig)) w1)
      as (e & w2 & n2 & Hsend).
    rewrite Hsend in Hrun.
    assert (Hsub : forall extra otx,
              In otx (submitted
                        (asked (ReqSendTransaction (Some (WithSignature rawTx sig)))
                           (firstn n2 (clients capi)) ++ extra)) ->
              submitted extra = [] ->
              exists tx, otx = Some tx /\ tx_nonce tx = used).
    { intros extra otx Hin Hex.
      rewrite submitted_app, submitted_asked_send, Hex, app_nil_r in Hin.
      apply in_map_iff in Hin. destruct Hin as (x & Hx & _).
      exists (WithSignature rawTx sig); split; [auto|reflexivity]. }
    destruct e as [e|].
    + do 4 eexists. split; [exact Hq|]. split; [exact Hrun|].
      split; [apply submitted_asked_nonce|].
      split; [exact Hgt|]. split; [exact Hle|].
      split.
      { intros otx Hin. apply (Hsub [] otx); [|reflexivity].
        rewrite app_nil_r; exact Hin. }
      simpl; repeat split; intros; try reflexivity; try discriminate.
    + do 4 eexists. split; [exact Hq|]. split; [exact Hrun|].
      split; [apply submitted_asked_nonce|].
      split; [exact Hgt|]. split; [exact Hle|].
      split.
      { intros otx Hin. eapply Hsub; [exact Hin|reflexivity]. }
      simpl; repeat split; intros; try reflexivity; try congruence.
      rewrite uint64_incr_below by assumption; reflexivity.
  - do 4 eexists. split; [exact Hq|].
    split; [rewrite app_nil_r; exact Hrun|].
    split; [apply submitted_asked_nonce|].
    split; [exact Hgt|]. split; [exact Hle|].
    split; [intros otx []|].
    simpl; repeat split; intros; try reflexivity; try discriminate.
Qed.

(** With a nil nonce, gas limit, key or signer, a transfer that is not a
    dry run panics once the live nonce has been asked for. *)
Lemma unresolved_transfer_panics
    (args : BuildTxArgs) (account : Address) (rv : Z) (token : Address)
    (w : World) (live : Z) (nerr : error) (w1 : World) (evs1 : list Event) :
  GetAccountNonce capi (fromAddr args) w = Done (live, nerr) w1 evs1 ->
  Nonce args = None \/ GasLimit args = None \/ keyWrapper args = None
  \/ chainSigner args = None ->
  sendRewardsTransaction capi args account (Some rv) token false w
  = Panic nilDeref w1 evs1.
Proof.
  intros Hq Hnil. unfold sendRewardsTransaction.
  rewrite (bind_done _ _ _ _ _ _ Hq). cbv beta iota. simpl fst; simpl snd.
  destruct (Nonce args) as [n0|] eqn:Hn.
  - assert (Hargs :
      (match nerr with
       | None =>
           if n0 <? live then ret (set_Nonce args (Some live)) else ret args
       | Some _ => ret args
       end) w1
      = Done (set_Nonce args (Some (reconciled n0 live nerr))) w1 []).
    { unfold reconciled. destruct nerr as [e|].
      - rewrite <- Hn, set_Nonce_same; reflexivity.
      - destruct (n0 <? live); [reflexivity|].
        rewrite <- Hn, set_Nonce_same; reflexivity. }
    rewrite (bind_done _ _ _ _ _ _ Hargs). cbv beta iota.
    change (Nonce (set_Nonce args (Some (reconciled n0 live nerr))))
      with (Some (reconciled n0 live nerr)).
    change (GasLimit (set_Nonce args (Some (reconciled n0 live nerr))))
      with (GasLimit args).
    change (keyWrapper (set_Nonce args (Some (reconciled n0 live nerr))))
      with (keyWrapper args).
    change (chainSigner (set_Nonce args (Some (reconciled n0 live nerr))))
      with (chainSigner args).
    cbv beta iota. rewrite andb_false_r.
    destruct (GasLimit args) as [gl|];
      [|simpl; rewrite app_nil_r; reflexivity].
    destruct (keyWrapper args) as [key|];
      [|simpl; rewrite app_nil_r; reflexivity].
    destruct (chainSigner args) as [signer|];
      [|simpl; rewrite app_nil_r; reflexivity].
    destruct Hnil as [H|[H|[H|H]]]; discriminate.
  - destruct nerr as [e|]; rewrite ?bind_ret; cbv beta iota; rewrite ?Hn;
      simpl; rewrite app_nil_r; reflexivity.
Qed.

(** C2.  Every call of [sendRewardsTransaction] that is not a dry run first
    asks for the live nonce, and submits nothing while it does.  When the
    nonce, the gas limit, the key or the signer of the arguments is nil the
    call then panics, and nothing has been submitted.  Otherwise it
    returns.  The nonce [used] is the live one exactly when the query
    succeeded and the live one is strictly greater than the cached one,
    and the cached one otherwise; every transaction handed to an endpoint
    carries [used]; after a successful submission the cached nonce is
    [used] incremented as a [uint64], which is [used + 1] below the top of
    the range, and after a failed one it is [used]; the chain identifier,
    the signer, the gas price and the gas limit are as before the call. *)
Theorem nonce_reconciled_then_advanced
    (args : BuildTxArgs) (account : Address) (rv : Z) (token : Address)
    (w : World) :
  exists live nerr w1 evs1,
    GetAccountNonce capi (fromAddr args) w = Done (live, nerr) w1 evs1
    /\ submitted evs1 = []
    /\ match sendRewardsTransaction capi args account (Some rv) token false w
       with
       | Done (r, args') w' evs =>
           exists n0 used rest,
             Nonce args = Some n0
             /\ evs = evs1 ++ rest
             /\ (nerr = None /\ n0 < live -> used = live)
             /\ (~ (nerr = None /\ n0 < live) -> used = n0)
             /\ (forall otx, In otx (submitted rest) ->
                   exists tx, otx = Some tx /\ tx_nonce tx = used)
             /\ (snd r = None -> Nonce args' = Some (uint64_incr used))
             /\ (snd r = None -> 0 <= used < 2 ^ 64 - 1 ->
                 Nonce args' = Some (used + 1))
             /\ (snd r <> None -> Nonce args' = Some used)
             /\ chainID args' = chainID args
             /\ chainSigner args' = chainSigner args
             /\ GasPrice args' = GasPrice args
             /\ GasLimit args' = GasLimit args
       | Panic why w' evs =>
           evs = evs1 /\ w' = w1
           /\ (Nonce args = None \/ GasLimit args = None
               \/ keyWrapper args = None \/ chainSigner args = None)
       | Spin _ _ => False
       end.
Proof.
  destruct (perform_returns capi (ReqPendingNonceAt (fromAddr args)) w)
    as ([live nerr] & w1 & n1 & Hq).
  fold (GetAccountNonce capi (fromAddr args)) in Hq.
  exists live, nerr, w1,
    (asked (ReqPendingNonceAt (fromAddr args)) (firstn n1 (clients capi))).
  split; [exact Hq|].
  split; [apply submitted_asked_nonce|].
  destruct (Nonce args) as [n0|] eqn:Hn;
    [|rewrite (unresolved_transfer_panics _ _ _ _ _ _ _ _ _ Hq);
      repeat split; auto 6].
  destruct (GasLimit args) as [gl|] eqn:Hg;
    [|rewrite (unresolved_transfer_panics _ _ _ _ _ _ _ _ _ Hq);
      repeat split; auto 6].
  destruct (keyWrapper args) as [key|] eqn:Hk;
    [|rewrite (unresolved_transfer_panics _ _ _ _ _ _ _ _ _ Hq);
      repeat split; auto 6].
  destruct (chainSigner args) as [signer|] eqn:Hs;
    [|rewrite (unresolved_transfer_panics _ _ _ _ _ _ _ _ _ Hq);
      repeat split; auto 6].
  destruct (resolved_transfer_returns args account rv token w n0 gl key
              signer Hn Hg Hk Hs)
    as (live' & nerr' & w1' & evs1' & used & r & args' & w' & rest
        & Hq' & Hrun & _ & Hgt & Hle & Htx & Hok & Hok' & Hfail
        & Hc & Hsg & Hgp & Hgl).
  rewrite Hq in Hq'. inversion Hq'; subst live' nerr' w1' evs1'.
  rewrite Hrun. exists n0, used, rest.
  repeat split; auto; congruence.
Qed.

(** C10.  With an empty list of endpoints every single-pass operation
    returns the zero value and a nil error, and sends nothing:
    [SendTransaction] returns nil and [GetAccountNonce] returns 0 and nil.
    A transfer that is not a dry run and whose transaction the key signs
    then returns the hash of a transaction no endpoint has seen, with a
    nil error, and increments the cached nonce. *)
Theorem no_endpoint_reports_success :
  clients capi = [] ->
  (forall (V : Type) (req : Request V) (w : World),
     operation capi req w = Done (zero req, None) w [])
  /\ (forall tx w, SendTransaction capi tx w = Done None w [])
  /\ (forall account w, GetAccountNonce capi account w = Done (0, None) w [])
  /\ (forall args account rv token w n gl key signer sig,
        Nonce args = Some n ->
        0 <= n ->
        GasLimit args = Some gl ->
        keyWrapper args = Some key ->
        chainSigner args = Some signer ->
        sign signer (key_PrivateKey key)
          (NewTransaction n token (Some 0) gl (GasPrice args)
             (transferData account rv)) = inl sig ->
        let signed :=
          WithSignature
            (NewTransaction n token (Some 0) gl (GasPrice args)
               (transferData account rv)) sig in
        sendRewardsTransaction capi args account (Some rv) token false w
        = Done ((Some (Transaction_Hash signed), None),
                set_Nonce args (Some (uint64_incr n))) w
            [EvLog LvlInfo "sendRewards success"
               [("account", LStr (Address_String account));
                ("reward", LBig (Some rv));
                ("txHash", LHash (Transaction_Hash signed))]]).
Proof.
  intros Hc.
  assert (Hop : forall (V : Type) (req : Request V) (w : World),
            perform capi req w = Done (zero req, None) w []).
  { intros V req w. unfold perform. rewrite Hc. reflexivity. }
  assert (Hsend : forall tx w, SendTransaction capi tx w = Done None w []).
  { intros tx w. unfold SendTransaction.
    rewrite (bind_done _ _ _ _ _ _ (Hop _ _ w)). reflexivity. }
  split; [intros V req w; rewrite operation_perform; apply Hop|].
  split; [exact Hsend|].
  split; [intros account w; apply Hop|].
  intros args account rv token w n gl key signer sig Hn Hn0 Hg Hk Hs Hsig
    signed.
  pose proof (sendRewardsTransaction_resolved capi args account rv token w
                n gl key signer 0 None w [] Hn Hg Hk Hs (Hop _ _ w)) as Hrun.
  cbv zeta in Hrun.
  rewrite Hrun. clear Hrun.
  unfold reconciled.
  destruct (Z.ltb_spec n 0) as [Hneg|Hpos]; [lia|].
  rewrite Hsig. rewrite Hsend. reflexivity.
Qed.

End NonceProofs.

Section ResolutionProofs.
Context {T : ChainTypes} {B : Backend}.
Variable capi : APICaller.

(** [setDefaults] never sleeps, whatever the endpoints answer. *)
Lemma setDefaults_for_no_sleep (from : Address) (fuel : nat) :
  forall args, Only isNoSleep (setDefaults_for capi from fuel args).
Proof.
  induction fuel as [|fuel IH]; intros args; simpl.
  - apply only_spin.
  - unfold chainStep, nonceStep, gasStep, limitStep, GetChainID,
      GetAccountNonce, SuggestGasPrice.
    repeat (frame_step || apply IH).
Qed.

Lemma bind_log {C : Type} (lvl : Level) (msg : string)
    (ctx : list (string * LogVal)) (k : unit -> M C) (w : World) :
  bind (log lvl msg ctx) k w = prepend [EvLog lvl msg ctx] (k tt w).
Proof. reflexivity. Qed.

Lemma prepend_done_ex {A : Type} (e : list Event) (r : Res A) (a : A)
    (w : World) :
  (exists evs, r = Done a w evs) -> exists evs, prepend e r = Done a w evs.
Proof. intros [evs H]; subst r; eexists; reflexivity. Qed.

Lemma limitStep_run (args : BuildTxArgs) (w : World) :
  exists evs, limitStep args w = Done (withGasLimit args) w evs.
Proof.
  unfold limitStep, withGasLimit. rewrite bind_log; apply prepend_done_ex.
  destruct (GasLimit args) eqn:Hl; simpl; rewrite ?Hl; eexists; reflexivity.
Qed.

Lemma set_GasPrice_same (args : BuildTxArgs) (g : Z) :
  GasPrice args = Some g -> set_GasPrice args (Some g) = args.
Proof. destruct args; simpl; intros ->; reflexivity. Qed.

Lemma set_Nonce_some (args : BuildTxArgs) (n : Z) :
  Nonce args = Some n -> set_Nonce args (Some n) = args.
Proof. destruct args; simpl; intros ->; reflexivity. Qed.

Section OneRound.
Variable from : Address.
Variable fuel : nat.

(** What the rounds after this one do, by induction on the fuel. *)
Hypothesis later :
  forall args w k1 k2 k3 cid n g w1 w2 w3,
    Obtained (chainID args) (GetChainID capi) (fun v => v = None) Some
      k1 w cid w1 ->
    Obtained (Nonce args) (GetAccountNonce capi from) (fun _ => True)
      (fun x => x) k2 w1 n w2 ->
    Obtained (GasPrice args) (SuggestGasPrice capi) (fun v => v = None) Some
      k3 w2 g w3 ->
    (k1 + k2 + k3 < fuel)%nat ->
    exists evs,
      setDefaults_for capi from fuel args w
      = Done (finalArgs args cid n g) w3 evs.

Lemma gasStep_run (args : BuildTxArgs) (cid n g : Z) (k3 : nat)
    (w2 w3 : World) :
  chainID args = Some cid ->
  Nonce args = Some n ->
  Obtained (GasPrice args) (SuggestGasPrice capi) (fun v => v = None) Some
    k3 w2 g w3 ->
  (k3 <= fuel)%nat ->
  exists evs,
    gasStep capi (setDefaults_for capi from fuel) from args w2
    = Done (withGasLimit (set_GasPrice args (Some g))) w3 evs.
Proof.
  intros Hc Hn Hobt Hf. unfold gasStep. rewrite Hn.
  rewrite bind_log; apply prepend_done_ex.
  unfold Obtained in Hobt. destruct (GasPrice args) as [x|] eqn:Hg.
  - destruct Hobt as (_ & -> & ->).
    rewrite (set_GasPrice_same _ _ Hg). apply limitStep_run.
  - inversion Hobt as [w v w' evs Hq|w v0 e w1 evs k v w' Hq Hj Hrest];
      subst.
    + rewrite (bind_done _ _ _ _ _ _ Hq); simpl. apply prepend_done_ex.
      apply limitStep_run.
    + rewrite (bind_done _ _ _ _ _ _ Hq); simpl. apply prepend_done_ex.
      rewrite bind_log; apply prepend_done_ex.
      pose proof (later (set_GasPrice args None) w1 0%nat 0%nat k cid n g
                    w1 w1 w3) as H'.
      simpl in H'. rewrite Hc, Hn in H'. unfold Obtained in H'.
      destruct H' as [evs' H']; [repeat split|repeat split|exact Hrest|lia|].
      exists evs'. rewrite H'. unfold finalArgs, withChain. simpl.
      rewrite Hc. clear - Hn. destruct args; simpl in *; subst; reflexivity.
Qed.

Lemma nonceStep_run (args : BuildTxArgs) (cid n g : Z) (k2 k3 : nat)
    (w1 w2 w3 : World) :
  chainID args = Some cid ->
  Obtained (Nonce args) (GetAccountNonce capi from) (fun _ => True)
    (fun x => x) k2 w1 n w2 ->
  Obtained (GasPrice args) (SuggestGasPrice capi) (fun v => v = None) Some
    k3 w2 g w3 ->
  (k2 + k3 <= fuel)%nat ->
  exists evs,
    nonceStep capi (setDefaults_for capi from fuel) from args w1
    = Done (withGasLimit (set_GasPrice (set_Nonce args (Some n)) (Some g)))
        w3 evs.
Proof.
  intros Hc Hobt2 Hobt3 Hf. unfold nonceStep.
  rewrite bind_log; apply prepend_done_ex.
  unfold Obtained in Hobt2. destruct (Nonce args) as [x|] eqn:Hn.
  - destruct Hobt2 as (-> & -> & ->).
    rewrite (set_Nonce_some _ _ Hn).
    apply (gasStep_run args cid x g k3); auto.
  - inversion Hobt2 as [w v w' evs Hq|w v0 e w1' evs k v w' Hq Hj Hrest];
      subst.
    + rewrite (bind_done _ _ _ _ _ _ Hq); simpl. apply prepend_done_ex.
      apply (gasStep_run (set_Nonce args (Some n)) cid n g k3); auto.
    + rewrite (bind_done _ _ _ _ _ _ Hq); simpl. apply prepend_done_ex.
      rewrite bind_log; apply prepend_done_ex.
      pose proof (later args w1' 0%nat k k3 cid n g w1' w2 w3) as H'.
      rewrite Hc, Hn in H'. unfold Obtained at 1 2 in H'.
      destruct H' as [evs' H']; [repeat split|exact Hrest|exact Hobt3|lia|].
      exists evs'. rewrite H'. unfold finalArgs, withChain.
      rewrite Hc. reflexivity.
Qed.

Lemma chainStep_run (args : BuildTxArgs) (cid n g : Z) (k1 k2 k3 : nat)
    (w w1 w2 w3 : World) :
  Obtained (chainID args) (GetChainID capi) (fun v => v = None) Some
    k1 w cid w1 ->
  Obtained (Nonce args) (GetAccountNonce capi from) (fun _ => True)
    (fun x => x) k2 w1 n w2 ->
  Obtained (GasPrice args) (SuggestGasPrice capi) (fun v => v = None) Some
    k3 w2 g w3 ->
  (k1 + k2 + k3 <= fuel)%nat ->
  exists evs,
    chainStep capi (setDefaults_for capi from fuel) from args w
    = Done (finalArgs args cid n g) w3 evs.
Proof.
  intros Hobt1 Hobt2 Hobt3 Hf. unfold chainStep, finalArgs, withChain.
  unfold Obtained in Hobt1. destruct (chainID args) as [x|] eqn:Hc.
  - destruct Hobt1 as (-> & -> & ->).
    apply (nonceStep_run args x n g k2 k3 w w2 w3); auto.
  - inversion Hobt1 as [w0 v w' evs Hq|w0 v0 e w1' evs k v w' Hq Hj Hrest];
      subst.
    + rewrite (bind_done _ _ _ _ _ _ Hq); simpl. apply prepend_done_ex.
      apply (nonceStep_run
               (set_chainSigner (set_chainID args (Some cid))
                  (Some (NewEIP155Signer (Some cid))))
               cid n g k2 k3 w1 w2 w3); auto; lia.
    + rewrite (bind_done _ _ _ _ _ _ Hq); simpl. apply prepend_done_ex.
      rewrite bind_log; apply prepend_done_ex.
      pose proof (later (set_chainID args None) w1' k k2 k3 cid n g w1 w2 w3)
        as H'.
      simpl in H'.
      destruct H' as [evs' H']; [exact Hrest|exact Hobt2|exact Hobt3|lia|].
      exists evs'. rewrite H'. unfold finalArgs, withChain. reflexivity.
Qed.

End OneRound.

Lemma setDefaults_for_resolves (from : Address) (fuel : nat) :
  forall args w k1 k2 k3 cid n g w1 w2 w3,
    Obtained (chainID args) (GetChainID capi) (fun v => v = None) Some
      k1 w cid w1 ->
    Obtained (Nonce args) (GetAccountNonce capi from) (fun _ => True)
      (fun x => x) k2 w1 n w2 ->
    Obtained (GasPrice args) (SuggestGasPrice capi) (fun v => v = None) Some
      k3 w2 g w3 ->
    (k1 + k2 + k3 < fuel)%nat ->
    exists evs,
      setDefaults_for capi from fuel args w
      = Done (finalArgs args cid n g) w3 evs.
Proof.
  induction fuel as [|fuel IH]; intros args w k1 k2 k3 cid n g w1 w2 w3
    H1 H2 H3 Hf; [lia|].
  simpl. apply (chainStep_run from fuel IH args cid n g k1 k2 k3 w w1 w2 w3);
    auto; lia.
Qed.

Lemma finalArgs_resolvedWith (args : BuildTxArgs) (cid n g : Z) :
  chainID args = None ->
  finalArgs args cid n g = resolvedWith args cid n g.
Proof.
  intros Hc. unfold finalArgs, withChain, withGasLimit, resolvedWith.
  destruct args as [s kf pf no gl gp kw fa ci cs]; simpl in *; subst.
  destruct gl; reflexivity.
Qed.

(** [setDefaults] has no error to return.  Started with no
    chain identifier, when the chain identifier query fails [k1] times and
    then succeeds, and the nonce and the gas price are each either supplied
    or obtained after [k2] and [k3] failed queries, [k1 + k2 + k3 + 1] rounds
    of the loop are enough for it to return: the three parameters are set,
    the signer is the one of the chain identifier, the gas limit is the
    supplied one or else 90000, and nothing else in the arguments has
    changed.  It retries at once: whatever the number of failed queries,
    it does not sleep. *)
Theorem setDefaults_resolves_without_sleeping
    (args : BuildTxArgs) (w : World) (k1 k2 k3 : nat) (cid n g : Z)
    (w1 w2 w3 : World) (fuel : nat) :
  chainID args = None ->
  Retried (GetChainID capi) (fun v => v = None) k1 w (Some cid) w1 ->
  Obtained (Nonce args) (GetAccountNonce capi (fromAddr args))
    (fun _ => True) (fun x => x) k2 w1 n w2 ->
  Obtained (GasPrice args) (SuggestGasPrice capi) (fun v => v = None) Some
    k3 w2 g w3 ->
  (k1 + k2 + k3 < fuel)%nat ->
  exists args' evs,
    setDefaults capi fuel args w = Done args' w3 evs
    /\ sleeps evs = []
    /\ chainID args' = Some cid
    /\ chainSigner args' = Some (NewEIP155Signer (Some cid))
    /\ Nonce args' = Some n
    /\ GasPrice args' = Some g
    /\ GasLimit args'
       = Some match GasLimit args with Some l => l | None => 90000 end
    /\ args' = resolvedWith args cid n g.
Proof.
  intros Hc H1 H2 H3 Hf.
  destruct (setDefaults_for_resolves (fromAddr args) fuel args w k1 k2 k3
              cid n g w1 w2 w3) as [evs Hrun]; auto.
  { unfold Obtained; rewrite Hc; exact H1. }
  exists (resolvedWith args cid n g), evs.
  rewrite (finalArgs_resolvedWith _ _ _ _ Hc) in Hrun.
  split; [exact Hrun|]. split.
  - apply noSleep_sleeps.
    pose proof (setDefaults_for_no_sleep (fromAddr args) fuel args w) as Hs.
    unfold setDefaults in Hrun. rewrite Hrun in Hs. exact Hs.
  - repeat split; reflexivity.
Qed.

Lemma prepend_spin_ex {A : Type} (e : list Event) (r : Res A) :
  (exists w evs, r = Spin w evs) -> exists w evs, prepend e r = Spin w evs.
Proof. intros (w & evs & H); subst r; do 2 eexists; reflexivity. Qed.

Section OneRoundShort.
Variable from : Address.
Variable fuel : nat.

(** The rounds after this one, when the fuel is not above the number of
    failures still to come. *)
Hypothesis later :
  forall args w k1 k2 k3 cid n g w1 w2 w3,
    Obtained (chainID args) (GetChainID capi) (fun v => v = None) Some
      k1 w cid w1 ->
    Obtained (Nonce args) (GetAccountNonce capi from) (fun _ => True)
      (fun x => x) k2 w1 n w2 ->
    Obtained (GasPrice args) (SuggestGasPrice capi) (fun v => v = None) Some
      k3 w2 g w3 ->
    (fuel <= k1 + k2 + k3)%nat ->
    exists w' evs, setDefaults_for capi from fuel args w = Spin w' evs.

Lemma gasStep_spins (args : BuildTxArgs) (cid n g : Z) (k3 : nat)
    (w2 w3 : World) :
  chainID args = Some cid ->
  Nonce args = Some n ->
  Obtained (GasPrice args) (SuggestGasPrice capi) (fun v => v = None) Some
    k3 w2 g w3 ->
  (fuel < k3)%nat ->
  exists w' evs,
    gasStep capi (setDefaults_for capi from fuel) from args w2 = Spin w' evs.
Proof.
  intros Hc Hn Hobt Hf. unfold gasStep. rewrite Hn.
  rewrite bind_log; apply prepend_spin_ex.
  unfold Obtained in Hobt. destruct (GasPrice args) as [x|] eqn:Hg.
  - destruct Hobt as (-> & _); lia.
  - inversion Hobt as [w v w' evs Hq|w v0 e w1 evs k v w' Hq Hj Hrest];
      subst; [lia|].
    rewrite (bind_done _ _ _ _ _ _ Hq); simpl. apply prepend_spin_ex.
    rewrite bind_log; apply prepend_spin_ex.
    pose proof (later (set_GasPrice args None) w1 0%nat 0%nat k cid n g
                  w1 w1 w3) as H'.
    simpl in H'. rewrite Hc, Hn in H'. unfold Obtained in H'.
    apply H'; [repeat split|repeat split|exact Hrest|lia].
Qed.

Lemma nonceStep_spins (args : BuildTxArgs) (cid n g : Z) (k2 k3 : nat)
    (w1 w2 w3 : World) :
  chainID args = Some cid ->
  Obtained (Nonce args) (GetAccountNonce capi from) (fun _ => True)
    (fun x => x) k2 w1 n w2 ->
  Obtained (GasPrice args) (SuggestGasPrice capi) (fun v => v = None) Some
    k3 w2 g w3 ->
  (fuel < k2 + k3)%nat ->
  exists w' evs,
    nonceStep capi (setDefaults_for capi from fuel) from args w1
    = Spin w' evs.
Proof.
  intros Hc Hobt2 Hobt3 Hf. unfold nonceStep.
  rewrite bind_log; apply prepend_spin_ex.
  unfold Obtained in Hobt2. destruct (Nonce args) as [x|] eqn:Hn.
  - destruct Hobt2 as (-> & -> & ->).
    apply (gasStep_spins args cid x g k3 w1 w3); auto.
  - inversion Hobt2 as [w v w' evs Hq|w v0 e w1' evs k v w' Hq Hj Hrest];
      subst.
    + rewrite (bind_done _ _ _ _ _ _ Hq); simpl. apply prepend_spin_ex.
      apply (gasStep_spins (set_Nonce args (Some n)) cid n g k3 w2 w3); auto.
    + rewrite (bind_done _ _ _ _ _ _ Hq); simpl. apply prepend_spin_ex.
      rewrite bind_log; apply prepend_spin_ex.
      pose proof (later args w1' 0%nat k k3 cid n g w1' w2 w3) as H'.
      rewrite Hc, Hn in H'. unfold Obtained at 1 2 in H'.
      apply H'; [repeat split|exact Hrest|exact Hobt3|lia].
Qed.

Lemma chainStep_spins (args : BuildTxArgs) (cid n g : Z) (k1 k2 k3 : nat)
    (w w1 w2 w3 : World) :
  Obtained (chainID args) (GetChainID capi) (fun v => v = None) Some
    k1 w cid w1 ->
  Obtained (Nonce args) (GetAccountNonce capi from) (fun _ => True)
    (fun x => x) k2 w1 n w2 ->
  Obtained (GasPrice args) (SuggestGasPrice capi) (fun v => v = None) Some
    k3 w2 g w3 ->
  (fuel < k1 + k2 + k3)%nat ->
  exists w' evs,
    chainStep capi (setDefaults_for capi from fuel) from args w = Spin w' evs.
Proof.
  intros Hobt1 Hobt2 Hobt3 Hf. unfold chainStep.
  unfold Obtained in Hobt1. destruct (chainID args) as [x|] eqn:Hc.
  - destruct Hobt1 as (-> & -> & ->).
    apply (nonceStep_spins args x n g k2 k3 w w2 w3); auto.
  - inversion Hobt1 as [w0 v w' evs Hq|w0 v0 e w1' evs k v w' Hq Hj Hrest];
      subst.
    + rewrite (bind_done _ _ _ _ _ _ Hq); simpl. apply prepend_spin_ex.
      apply (nonceStep_spins
               (set_chainSigner (set_chainID args (Some cid))
                  (Some (NewEIP155Signer (Some cid))))
               cid n g k2 k3 w1 w2 w3); auto.
    + rewrite (bind_done _ _ _ _ _ _ Hq); simpl. apply prepend_spin_ex.
      rewrite bind_log; apply prepend_spin_ex.
      pose proof (later (set_chainID args None) w1' k k2 k3 cid n g w1 w2 w3)
        as H'.
      simpl in H'. apply H'; [exact Hrest|exact Hobt2|exact Hobt3|lia].
Qed.

End OneRoundShort.

Lemma setDefaults_for_spins (from : Address) (fuel : nat) :
  forall args w k1 k2 k3 cid n g w1 w2 w3,
    Obtained (chainID args) (GetChainID capi) (fun v => v = None) Some
      k1 w cid w1 ->
    Obtained (Nonce args) (GetAccountNonce capi from) (fun _ => True)
      (fun x => x) k2 w1 n w2 ->
    Obtained (GasPrice args) (SuggestGasPrice capi) (fun v => v = None) Some
      k3 w2 g w3 ->
    (fuel <= k1 + k2 + k3)%nat ->
    exists w' evs, setDefaults_for capi from fuel args w = Spin w' evs.
Proof.
  induction fuel as [|fuel IH]; intros args w k1 k2 k3 cid n g w1 w2 w3
    H1 H2 H3 Hf.
  - do 2 eexists; reflexivity.
  - simpl.
    apply (chainStep_spins from fuel IH args cid n g k1 k2 k3 w w1 w2 w3);
      auto.
Qed.

(** [setDefaults] does not give up: in the situation of the theorem above,
    as long as the rounds followed are not more than the failed queries
    ([k1 + k2 + k3]), the loop is still running. *)
Theorem setDefaults_keeps_retrying
    (args : BuildTxArgs) (w : World) (k1 k2 k3 : nat) (cid n g : Z)
    (w1 w2 w3 : World) (fuel : nat) :
  chainID args = None ->
  Retried (GetChainID capi) (fun v => v = None) k1 w (Some cid) w1 ->
  Obtained (Nonce args) (GetAccountNonce capi (fromAddr args))
    (fun _ => True) (fun x => x) k2 w1 n w2 ->
  Obtained (GasPrice args) (SuggestGasPrice capi) (fun v => v = None) Some
    k3 w2 g w3 ->
  (fuel <= k1 + k2 + k3)%nat ->
  exists w' evs,
    setDefaults capi fuel args w = Spin w' evs /\ sleeps evs = [].
Proof.
  intros Hc H1 H2 H3 Hf.
  destruct (setDefaults_for_spins (fromAddr args) fuel args w k1 k2 k3
              cid n g w1 w2 w3) as (w' & evs & Hrun); auto.
  { unfold Obtained; rewrite Hc; exact H1. }
  exists w', evs. split; [exact Hrun|].
  apply noSleep_sleeps.
  pose proof (setDefaults_for_no_sleep (fromAddr args) fuel args w) as Hs.
  unfold setDefaults in Hrun. rewrite Hrun in Hs. exact Hs.
Qed.

End ResolutionProofs.

Section EncodingProofs.
Context {T : ChainTypes} {B : Backend}.

Lemma LeftPadBytes_short (slice : bytes) (l : nat) :
  (List.length slice <= l)%nat ->
  LeftPadBytes slice (Z.of_nat l)
  = repeat 0 (l - List.length slice) ++ slice.
Proof.
  intros H. unfold LeftPadBytes.
  destruct (Z.leb_spec (Z.of_nat l) (Z.of_nat (List.length slice))) as [Hle|Hgt].
  - assert (l = List.length slice) by lia. subst l.
    rewrite Nat.sub_diag. reflexivity.
  - f_equal. f_equal. lia.
Qed.

Lemma LeftPadBytes_length (slice : bytes) (l : nat) :
  (List.length slice <= l)%nat ->
  List.length (LeftPadBytes slice (Z.of_nat l)) = l.
Proof.
  intros H. rewrite LeftPadBytes_short by exact H.
  rewrite length_app, repeat_length. lia.
Qed.

(** [copy] into the middle of a slice. *)
Lemma copy_at_middle (a old c src : bytes) (lo hi : nat) :
  List.length a = lo ->
  List.length old = (hi - lo)%nat ->
  List.length src = (hi - lo)%nat ->
  copy_at (a ++ old ++ c) lo hi src = a ++ src ++ c.
Proof.
  intros Ha Hold Hsrc. unfold copy_at. subst lo.
  assert (Hk : Nat.min (hi - List.length a) (List.length src)
               = List.length src) by lia.
  rewrite Hk, firstn_all.
  rewrite firstn_app, firstn_all, Nat.sub_diag, firstn_O, app_nil_r.
  rewrite skipn_app, skipn_all2 by lia.
  replace (List.length a + List.length src - List.length a)%nat
    with (List.length old) by lia.
  rewrite skipn_app, skipn_all, Nat.sub_diag. reflexivity.
Qed.

(** The call of a function of one address: the selector, then the address
    at the right of a 32 byte word. *)
Theorem packBytes_selector_and_address (selector addr : bytes) :
  List.length selector = 4%nat ->
  List.length addr = 20%nat ->
  packBytes [selector; addr] = selector ++ repeat 0 12 ++ addr
  /\ List.length (packBytes [selector; addr]) = 36%nat.
Proof.
  intros Hs Ha. unfold packBytes; simpl flat_map. rewrite app_nil_r.
  change 32 with (Z.of_nat 32).
  rewrite LeftPadBytes_short by lia. rewrite Ha. simpl Nat.sub.
  split; [reflexivity|].
  rewrite !length_app, repeat_length. lia.
Qed.

(** The call data of a transfer: 68 bytes, the selector of [transfer], the
    account at the right of a word, the reward at the right of a word. *)
Theorem transferData_layout (account : Address) (rewardValue : Z) :
  List.length (Address_Bytes account) = 20%nat ->
  (List.length (BigInt_Bytes rewardValue) <= 32)%nat ->
  transferData account rewardValue
  = transferFuncHash
    ++ (repeat 0 12 ++ Address_Bytes account)
    ++ (repeat 0 (32 - List.length (BigInt_Bytes rewardValue))
        ++ BigInt_Bytes rewardValue)
  /\ List.length (transferData account rewardValue) = 68%nat.
Proof.
  intros Ha Hr.
  assert (Heq :
    transferData account rewardValue
    = transferFuncHash
      ++ (repeat 0 12 ++ Address_Bytes account)
      ++ (repeat 0 (32 - List.length (BigInt_Bytes rewardValue))
          ++ BigInt_Bytes rewardValue)).
  { unfold transferData, Address_Hash_Bytes.
    change 32 with (Z.of_nat 32).
    rewrite (LeftPadBytes_short (Address_Bytes account) 32) by lia.
    rewrite (LeftPadBytes_short (BigInt_Bytes rewardValue) 32) by exact Hr.
    rewrite Ha. change (32 - 20)%nat with 12%nat.
    change (repeat 0 68) with ([] ++ repeat 0 4 ++ repeat 0 64).
    rewrite (copy_at_middle [] (repeat 0 4) (repeat 0 64) transferFuncHash
               0 4) by reflexivity.
    change ([] ++ transferFuncHash ++ repeat 0 64)
      with (transferFuncHash ++ repeat 0 32 ++ repeat 0 32).
    rewrite (copy_at_middle transferFuncHash (repeat 0 32) (repeat 0 32)
               (repeat 0 12 ++ Address_Bytes account) 4 36);
      [|reflexivity|reflexivity|rewrite length_app, repeat_length; lia].
    replace (transferFuncHash ++ (repeat 0 12 ++ Address_Bytes account)
             ++ repeat 0 32)
      with ((transferFuncHash ++ repeat 0 12 ++ Address_Bytes account)
            ++ repeat 0 32 ++ [])
      by (rewrite app_nil_r, <- app_assoc; reflexivity).
    rewrite copy_at_middle;
      [rewrite app_nil_r, <- app_assoc; reflexivity
      |rewrite !length_app, repeat_length; simpl; lia
      |reflexivity
      |rewrite length_app, repeat_length; lia]. }
  split; [exact Heq|].
  rewrite Heq, !length_app, !repeat_length, Ha.
  change (List.length transferFuncHash) with 4%nat. lia.
Qed.

End EncodingProofs.

Section CheckProofs.
Context {T : ChainTypes} {B : Backend}.
Variable capi : APICaller.

(** The keystore is read and opened. *)
Lemma loadKeyStore_opens (args : BuildTxArgs) (w : World)
    (keyjson passdata : string) (key : Key) :
  ReadFile (KeystoreFile args) w = (keyjson, None) ->
  ReadFile (PasswordFile args) w = (passdata, None) ->
  DecryptKey keyjson (TrimSpace passdata) = (Some key, None) ->
  loadKeyStore args w
  = Done (None,
          let args := set_fromAddr (set_keyWrapper args (Some key))
                        (key_Address key) in
          if isEmpty (Sender args)
          then set_Sender args (Address_String (fromAddr args))
          else args)
      w [EvLog LvlPrintln "decrypt keystore ......" []].
Proof.
  intros Hk Hp Hd. unfold loadKeyStore, bind, inspect.
  rewrite Hk; simpl. rewrite Hp; simpl. rewrite Hd; simpl. reflexivity.
Qed.

(** C7, as amended.  When the caller supplies a sender, the keystore is
    read and opened, and the sender is not the address of the key (the two
    strings differ, case apart), [Check] returns the sender-mismatch error
    in a normal run and in a dry run alike, before any parameter is
    resolved: the arguments hold the key and its address, and the only
    event is the log line of the decryption. *)
Theorem sender_mismatch_fails_in_both_modes
    (fuel : nat) (args : BuildTxArgs) (dryRun : bool) (w : World)
    (keyjson passdata : string) (key : Key) :
  isEmpty (Sender args) = false ->
  IsHexAddress (Sender args) = true ->
  ReadFile (KeystoreFile args) w = (keyjson, None) ->
  ReadFile (PasswordFile args) w = (passdata, None) ->
  DecryptKey keyjson (TrimSpace passdata) = (Some key, None) ->
  EqualFold (Sender args) (Address_String (key_Address key)) = false ->
  Check capi fuel args dryRun w
  = Done (Some ("sender mismatch. sender from args = '" +++ Sender args
                +++ "', sender from keystore = '"
                +++ Address_String (key_Address key) +++ "'"),
          set_fromAddr (set_keyWrapper args (Some key)) (key_Address key))
      w [EvLog LvlPrintln "decrypt keystore ......" []].
Proof.
  intros He Hh Hk Hp Hd Hm. unfold Check.
  rewrite He, Hh. simpl.
  rewrite (bind_done _ _ _ _ _ _ (loadKeyStore_opens args w _ _ _ Hk Hp Hd)).
  simpl. rewrite He. simpl. rewrite Hm. simpl. reflexivity.
Qed.

(** A keystore that cannot be read, with a sender supplied that is a hex
    address.  A normal run returns the error of the read.  A dry run logs
    it as ignored and takes the address read from the sender as the
    address of the sender; then the sender is compared, case apart, with
    the string of that address: when they agree the run goes on to resolve
    the parameters, and when they do not, as for a sender written without
    [0x], it returns the sender-mismatch error. *)
Theorem unreadable_keystore_tolerated_in_dry_run
    (fuel : nat) (args : BuildTxArgs) (w : World) (content e : string) :
  isEmpty (Sender args) = false ->
  IsHexAddress (Sender args) = true ->
  ReadFile (KeystoreFile args) w = (content, Some e) ->
  let from := HexToAddress (Sender args) in
  Check capi fuel args false w
  = Done (Some e, args) w
      [EvLog LvlPrintln "read keystore fail" [("", LErr (Some e))]]
  /\ Check capi fuel args true w
     = prepend
         [EvLog LvlPrintln "read keystore fail" [("", LErr (Some e))];
          EvLog LvlWarn "check build tx args failed, but ignore in dry run"
            [("err", LErr (Some e))]]
         (if EqualFold (Sender args) (Address_String from)
          then
            prepend
              [EvLog LvlInfo "get build transaction's sender"
                 [("sender", LStr (Sender args))]]
              ((resolved <- setDefaults capi fuel (set_fromAddr args from) ;;
                ret (None, resolved)) w)
          else
            Done (Some ("sender mismatch. sender from args = '"
                        +++ Sender args
                        +++ "', sender from keystore = '"
                        +++ Address_String from +++ "'"),
                  set_fromAddr args from) w []).
Proof.
  intros He Hh Hk from. subst from.
  assert (Hload :
    loadKeyStore args w
    = Done (Some e, args) w
        [EvLog LvlPrintln "read keystore fail" [("", LErr (Some e))]]).
  { unfold loadKeyStore, bind, inspect. rewrite Hk. reflexivity. }
  split; unfold Check; rewrite He, Hh; simpl;
    rewrite (bind_done _ _ _ _ _ _ Hload); simpl.
  - reflexivity.
  - rewrite He. simpl.
    destruct (EqualFold (Sender args)
                (Address_String (HexToAddress (Sender args)))); simpl.
    + rewrite !bind_log, !prepend_prepend. reflexivity.
    + reflexivity.
Qed.

End CheckProofs.

Section HelperProofs.
Context {T : ChainTypes} {B : Backend}.
Variable c : APICaller.

(** C8, as amended.  When the retried gateway call under it ends with an
    error, each of the coin balance, token balance, total supply, name,
    symbol and decimals queries returns that error as it is, beside the
    zero value; the token-address and factory-address queries have no
    error to return and return the zero address. *)
Theorem helper_errors_propagate_except_address_queries :
  (forall account bn w b e w' evs,
     GetCoinBalance_for c account bn (Z.to_nat (rpcRetryCount c))
       (None, None) w = Done (b, Some e) w' evs ->
     GetCoinBalance c account bn w
     = Done (None, Some e) w'
         (evs ++ [EvLog LvlWarn "[callapi] GetCoinBalance error"
                    [("account", LStr (Address_String account));
                     ("blockNumber", LBig bn); ("err", LErr (Some e))]]))
  /\ (forall token account bn w res e w' evs,
        CallContract c token
          (packBytes [balanceOfFuncHash; Address_Bytes account]) bn w
        = Done (res, Some e) w' evs ->
        GetTokenBalance c token account bn w
        = Done (None, Some e) w'
            (evs ++ [EvLog LvlWarn "[callapi] GetTokenBalance error"
                       [("token", LStr (Address_String token));
                        ("account", LStr (Address_String account));
                        ("blockNumber", LBig bn); ("err", LErr (Some e))]]))
  /\ (forall token bn w res e w' evs,
        CallContract c token totalSupplyFuncHash bn w
        = Done (res, Some e) w' evs ->
        GetTokenTotalSupply c token bn w
        = Done (None, Some e) w'
            (evs ++ [EvLog LvlWarn "[callapi] GetTokenTotalSupply error"
                       [("token", LStr (Address_String token));
                        ("blockNumber", LBig bn); ("err", LErr (Some e))]])
        /\ GetErc20TotalSupply c token bn w = Done (None, Some e) w' evs)
  /\ (forall erc20 w res e w' evs,
        CallContract c erc20 nameFuncHash None w = Done (res, Some e) w' evs ->
        GetErc20Name c erc20 w = Done ("", Some e) w' evs)
  /\ (forall erc20 w res e w' evs,
        CallContract c erc20 symbolFuncHash None w
        = Done (res, Some e) w' evs ->
        GetErc20Symbol c erc20 w = Done ("", Some e) w' evs)
  /\ (forall erc20 w res e w' evs,
        CallContract c erc20 decimalsFuncHash None w
        = Done (res, Some e) w' evs ->
        GetErc20Decimals c erc20 w = Done (0, Some e) w' evs)
  /\ (forall exchange w res e w' evs,
        CallContract c exchange tokenAddressFuncHash None w
        = Done (res, Some e) w' evs ->
        GetExchangeTokenAddress c exchange w = Done zeroAddress w' evs)
  /\ (forall exchange w res e w' evs,
        CallContract c exchange factoryAddressFuncHash None w
        = Done (res, Some e) w' evs ->
        GetExchangeFactoryAddress c exchange w = Done zeroAddress w' evs).
Proof.
  repeat split; intros;
    match goal with
    | H : _ = Done _ _ _ |- ?f _ = _ =>
        unfold GetCoinBalance, GetTokenBalance, GetTokenTotalSupply,
          GetErc20TotalSupply, GetErc20Name, GetErc20Symbol,
          GetErc20Decimals, GetExchangeTokenAddress,
          GetExchangeFactoryAddress;
        rewrite (bind_done _ _ _ _ _ _ H); simpl;
        rewrite ?app_nil_r; reflexivity
    end.
Qed.

(** A pass over the endpoints does not sleep. *)
Lemma perform_no_sleep {V : Type} (req : Request V) (w : World)
    (r : V * error) (w' : World) (evs : list Event) :
  perform c req w = Done r w' evs -> sleeps evs = [].
Proof.
  intros H. apply requestOrLog_sleeps.
  assert (Ho : Only isRequestOrLog (perform c req))
    by (apply only_perform; intros; exact I).
  specialize (Ho w). rewrite H in Ho. exact Ho.
Qed.

(** [CallContract]: [k] failed passes and then a successful one, within
    the retry count, give the value of the successful pass, after [k]
    sleeps of the retry interval. *)
Lemma CallContract_for_retried (contract : Address) (msg : CallMsg)
    (bn : option Z) (k : nat) (w : World) (v : bytes) (w' : World) :
  Retried (DoCall c msg bn) (fun _ => True) k w v w' ->
  forall n cur,
    (k < n)%nat ->
    exists evs,
      CallContract_for c contract msg bn n cur w = Done (v, None) w' evs
      /\ sleeps evs = repeat (rpcRetryInterval c) k.
Proof.
  induction 1 as [w v w' evs Hq|w v0 e w1 evs k v w' Hq _ _ IH];
    intros n cur Hn; (destruct n as [|n]; [lia|]); simpl.
  - rewrite (bind_done _ _ _ _ _ _ Hq); simpl.
    eexists; split; [reflexivity|].
    rewrite app_nil_r. apply (perform_no_sleep _ _ _ _ _ Hq).
  - rewrite (bind_done _ _ _ _ _ _ Hq); simpl.
    destruct (IH n (v0, Some e)) as (evs' & Hrun & Hs); [lia|].
    unfold log, Sleep. eexists; split.
    { rewrite !bind_emit, Hrun. simpl. reflexivity. }
    rewrite sleeps_app, (perform_no_sleep _ _ _ _ _ Hq). simpl.
    rewrite Hs. reflexivity.
Qed.

(** [GetCoinBalance]: in the same situation the value is the same, and
    there is no sleep at all. *)
Lemma GetCoinBalance_for_retried (account : Address) (bn : option Z)
    (k : nat) (w : World) (v : option Z) (w' : World) :
  Retried (BalanceAt c account bn) (fun _ => True) k w v w' ->
  forall n cur,
    (k < n)%nat ->
    exists evs,
      GetCoinBalance_for c account bn n cur w = Done (v, None) w' evs
      /\ sleeps evs = [].
Proof.
  induction 1 as [w v w' evs Hq|w v0 e w1 evs k v w' Hq _ _ IH];
    intros n cur Hn; (destruct n as [|n]; [lia|]); simpl.
  - rewrite (bind_done _ _ _ _ _ _ Hq); simpl.
    eexists; split; [reflexivity|].
    rewrite app_nil_r. apply (perform_no_sleep _ _ _ _ _ Hq).
  - rewrite (bind_done _ _ _ _ _ _ Hq); simpl.
    destruct (IH n (v0, Some e)) as (evs' & Hrun & Hs); [lia|].
    eexists; split.
    { rewrite Hrun. simpl. reflexivity. }
    rewrite sleeps_app, (perform_no_sleep _ _ _ _ _ Hq), Hs. reflexivity.
Qed.

(** [CallContract] with a retry count above [k]: when its pass over the
    endpoints fails [k] times and then succeeds, it returns the value of
    the successful pass with a nil error, after exactly [k] sleeps, each of
    the retry interval. *)
Theorem contract_call_sleeps_between_attempts (contract : Address)
    (data : bytes) (bn : option Z) (k : nat) (w : World) (v : bytes)
    (w' : World) :
  Retried (DoCall c {| msg_To := Some contract; msg_Data := data |} bn)
    (fun _ => True) k w v w' ->
  (k < Z.to_nat (rpcRetryCount c))%nat ->
  exists evs,
    CallContract c contract data bn w = Done (v, None) w' evs
    /\ sleeps evs = repeat (rpcRetryInterval c) k.
Proof.
  intros Hr Hk. unfold CallContract.
  apply (CallContract_for_retried contract _ bn k w v w' Hr); exact Hk.
Qed.

(** [GetCoinBalance] with a retry count above [k]: when its pass over the
    endpoints fails [k] times and then succeeds, it returns the balance of
    the successful pass with a nil error, and it has not slept. *)
Theorem coin_balance_never_sleeps (account : Address) (bn : option Z)
    (k : nat) (w : World) (v : option Z) (w' : World) :
  Retried (BalanceAt c account bn) (fun _ => True) k w v w' ->
  (k < Z.to_nat (rpcRetryCount c))%nat ->
  exists evs,
    GetCoinBalance c account bn w = Done (v, None) w' evs
    /\ sleeps evs = [].
Proof.
  intros Hr Hk. unfold GetCoinBalance.
  destruct (GetCoinBalance_for_retried account bn k w v w' Hr
              (Z.to_nat (rpcRetryCount c)) (None, None) Hk)
    as (evs & Hrun & Hs).
  rewrite (bind_done _ _ _ _ _ _ Hrun). simpl.
  eexists; split; [reflexivity|]. rewrite app_nil_r; exact Hs.
Qed.

(** [CallContract] gives up after [rpcRetryCount] failed passes: when
    every pass fails, it returns the value and the error of the last pass
    as they came, and it has slept after each pass, the last included. *)
Theorem contract_call_gives_up_with_last_error (contract : Address)
    (data : bytes) (bn : option Z) (w : World) (r : bytes * error)
    (w' : World) :
  Exhausted (DoCall c {| msg_To := Some contract; msg_Data := data |} bn)
    (Z.to_nat (rpcRetryCount c)) w ([], None) r w' ->
  exists evs,
    CallContract c contract data bn w = Done r w' evs
    /\ sleeps evs
       = repeat (rpcRetryInterval c) (Z.to_nat (rpcRetryCount c)).
Proof.
  unfold CallContract.
  generalize (Z.to_nat (rpcRetryCount c)) as n.
  generalize (@nil Z, @None string) as cur.
  intros cur n H.
  induction H as [w cur|w cur v e w1 evs k r w' Hq _ IH]; simpl.
  - eexists; split; reflexivity.
  - rewrite (bind_done _ _ _ _ _ _ Hq); simpl.
    destruct IH as (evs' & Hrun & Hs).
    unfold log, Sleep. eexists; split.
    { rewrite !bind_emit, Hrun. simpl. reflexivity. }
    rewrite sleeps_app, (perform_no_sleep _ _ _ _ _ Hq). simpl.
    rewrite Hs. reflexivity.
Qed.

End HelperProofs.

Section BatchProofs.
Context {T : ChainTypes} {B : Backend}.
Variable capi : APICaller.

Lemma prepend_done_inv {A : Type} (e : list Event) (r : Res A) (a : A)
    (w : World) (evs : list Event) :
  prepend e r = Done a w evs -> exists evs', r = Done a w evs' /\ evs = e ++ evs'.
Proof.
  destruct r; simpl; intros H; inversion H; subst; eexists; split; reflexivity.
Qed.

Lemma set_TxArgs_same (opt : Option) : set_TxArgs opt (TxArgs opt) = opt.
Proof. destruct opt; reflexivity. Qed.

Lemma SendRewardsTransaction_frame (opt : Option) (account : Address)
    (reward : option Z) :
  Only isRequestOrLog (SendRewardsTransaction capi opt account reward).
Proof.
  unfold SendRewardsTransaction. apply only_bind.
  - apply sendRewardsTransaction_frame.
  - intros r; apply only_ret.
Qed.

Lemma SendRewardsTransaction_quiet (opt : Option) (account : Address)
    (reward : option Z) (w : World) r (w' : World) (evs : list Event) :
  SendRewardsTransaction capi opt account reward w = Done r w' evs ->
  bodyLines evs = [].
Proof.
  intros H. apply requestOrLog_bodyLines.
  pose proof (SendRewardsTransaction_frame opt account reward w) as Ho.
  rewrite H in Ho. exact Ho.
Qed.

(** The transfer leaves every field of the option but the transaction
    arguments. *)
Lemma SendRewardsTransaction_option (opt : Option) (account : Address)
    (reward : option Z) (w : World) r (opt' : Option) (w' : World)
    (evs : list Event) :
  SendRewardsTransaction capi opt account reward w = Done (r, opt') w' evs ->
  TotalValue opt' = TotalValue opt /\ DryRun opt' = DryRun opt.
Proof.
  unfold SendRewardsTransaction, bind. intros H.
  destruct (sendRewardsTransaction capi (TxArgs opt) account reward
              (RewardToken opt) (DryRun opt) w) as [[r0 a0] w0 e0| |];
    simpl in H; inversion H; subst; split; reflexivity.
Qed.

Lemma rewarded_skip (stat : AccountStat) (rest : list AccountStat) :
  noReward (stat_Reward stat) = true ->
  rewarded (stat :: rest) = rewarded rest.
Proof. intros H; unfold rewarded; simpl; rewrite H; reflexivity. Qed.

Lemma rewarded_keep (stat : AccountStat) (rest : list AccountStat) :
  noReward (stat_Reward stat) = false ->
  rewarded (stat :: rest) = stat :: rewarded rest.
Proof. intros H; unfold rewarded; simpl; rewrite H; reflexivity. Qed.

Lemma rewardSum_skip (stat : AccountStat) (rest : list AccountStat) :
  noReward (stat_Reward stat) = true ->
  rewardSum (stat :: rest) = rewardSum rest.
Proof. intros H; unfold rewardSum; rewrite rewarded_skip; auto. Qed.

Lemma rewardSum_keep (stat : AccountStat) (rest : list AccountStat) :
  noReward (stat_Reward stat) = false ->
  rewardSum (stat :: rest)
  = match stat_Reward stat with Some v => v | None => 0 end + rewardSum rest.
Proof.
  intros H; unfold rewardSum; rewrite rewarded_keep; auto; simpl.
  destruct (stat_Reward stat); reflexivity.
Qed.

(** The report of a failed transfer never ends the range without error. *)
Lemma failure_report_is_an_error (opt : Option) (sent : Z)
    (ctx : list (string * LogVal)) (w : World) x (w' : World)
    (evs : list Event) :
  (logRewardsSended opt sent ;;;
   log LvlError "[sendRewards] send tx failed" ctx ;;;
   ret ((Some "[sendRewards] send tx failed", sent), opt)) w
  = Done x w' evs ->
  fst (fst x) <> None.
Proof.
  unfold logRewardsSended, allRewardsSended, bind.
  destruct (TotalValue opt); simpl; intros H; inversion H; subst;
    simpl; discriminate.
Qed.

(** A range that is exhausted without error: the sum of the rewards sent,
    one body line for each entry with a reward, and what a longer range
    does after it. *)
Lemma range_completed (canSaveDB : bool) (stats : list AccountStat) :
  forall opt sent w sent1 opt1 w1 evs1,
    SendRewardsFromFile_range capi canSaveDB stats opt sent w
    = Done ((None, sent1), opt1) w1 evs1 ->
    sent1 = sent + rewardSum stats
    /\ List.length (bodyLines evs1) = List.length (rewarded stats)
    /\ TotalValue opt1 = TotalValue opt
    /\ DryRun opt1 = DryRun opt
    /\ forall rest,
         SendRewardsFromFile_range capi canSaveDB (stats ++ rest) opt sent w
         = prepend evs1
             (SendRewardsFromFile_range capi canSaveDB rest opt1 sent1 w1).
Proof.
  induction stats as [|stat stats IH]; intros opt sent w sent1 opt1 w1 evs1 H.
  - simpl in H. inversion H; subst. unfold rewardSum; simpl.
    repeat split; try lia. intros rest; simpl. rewrite prepend_nil; reflexivity.
  - simpl in H. simpl app. cbn [SendRewardsFromFile_range].
    destruct (noReward (stat_Reward stat)) eqn:Hr.
    + rewrite bind_log in H. apply prepend_done_inv in H.
      destruct H as (evs' & H & ->).
      apply IH in H. destruct H as (Hs & Hb & Ht & Hd & Happ).
      rewrite rewardSum_skip, rewarded_skip by exact Hr.
      repeat split; auto.
      intros rest. rewrite bind_log, Happ, prepend_prepend. reflexivity.
    + unfold bind at 1 in H. unfold bind at 1.
      destruct (SendRewardsTransaction capi opt (stat_Account stat)
                  (stat_Reward stat) w)
        as [[[h err] opt'] w' e'|why w' e'|w' e'] eqn:Hsend;
        try discriminate.
      apply prepend_done_inv in H. destruct H as (evs' & H & ->).
      destruct err as [e|].
      * apply failure_report_is_an_error in H. simpl in H. congruence.
      * destruct (SendRewardsTransaction_option _ _ _ _ _ _ _ _ Hsend)
          as [Ht' Hd'].
        unfold bind at 1 in H.
        destruct ((if DryRun opt' || canSaveDB
                   then WriteSendRewardResult opt' stat h
                   else WriteSendRewardFromFileResult opt' (stat_Account stat)
                          (stat_Reward stat) h) w')
          as [werr w'' ew|why w'' ew|w'' ew] eqn:Hw; try discriminate.
        apply prepend_done_inv in H. destruct H as (evs'' & H & ->).
        apply IH in H. destruct H as (Hs & Hb & Ht & Hd & Happ).
        assert (Hline : List.length (bodyLines ew) = 1%nat).
        { destruct (DryRun opt' || canSaveDB);
            unfold WriteSendRewardResult, WriteSendRewardFromFileResult,
              external in Hw;
            destruct (output_write _ _ w'); inversion Hw; reflexivity. }
        rewrite rewardSum_keep, rewarded_keep by exact Hr.
        rewrite !bodyLines_app, !length_app,
          (SendRewardsTransaction_quiet _ _ _ _ _ _ _ Hsend), Hline, Hb.
        repeat split; try congruence; try (simpl; lia).
        intros rest. unfold bind at 1. rewrite Hw, Happ.
        rewrite !prepend_prepend, app_assoc. reflexivity.
Qed.

Lemma range_stops (canSaveDB : bool) (pre : list AccountStat)
    (stat : AccountStat) (post : list AccountStat) (opt : Option) (w : World)
    (sent0 sent1 : Z) (opt1 : Option) (w1 : World) (evs1 : list Event)
    (h : option Hash) (e : string) (opt2 : Option) (w2 : World)
    (evs2 : list Event) (total : Z) :
  TotalValue opt = Some total ->
  SendRewardsFromFile_range capi canSaveDB pre opt sent0 w
  = Done ((None, sent1), opt1) w1 evs1 ->
  noReward (stat_Reward stat) = false ->
  SendRewardsTransaction capi opt1 (stat_Account stat) (stat_Reward stat) w1
  = Done ((h, Some e), opt2) w2 evs2 ->
  SendRewardsFromFile_range capi canSaveDB (pre ++ stat :: post) opt sent0 w
  = Done ((Some "[sendRewards] send tx failed", sent1), opt2) w2
      (evs1 ++ evs2 ++ failureReport opt stat total sent1 e).
Proof.
  intros Ht Hpre Hr Hsend.
  destruct (range_completed canSaveDB pre _ _ _ _ _ _ _ Hpre)
    as (_ & _ & Ht1 & Hd1 & Happ).
  destruct (SendRewardsTransaction_option _ _ _ _ _ _ _ _ Hsend)
    as [Ht2 Hd2].
  rewrite Happ. cbn [SendRewardsFromFile_range]. rewrite Hr.
  rewrite (bind_done _ _ _ _ _ _ Hsend). cbv beta iota.
  unfold logRewardsSended, allRewardsSended.
  rewrite Ht2, Ht1, Ht. unfold bind, log, emit, ret; simpl.
  unfold failureReport. rewrite Hd2, Hd1. reflexivity.
Qed.

(** C1.  The batch is [pre ++ stat :: post]; the entries of [pre] are
    processed without error, and the transfer for [stat], which has a
    reward, ends with an error.  Then [SendRewardsFromFile] returns its
    error, and after the events of [pre] and of the failed transfer there
    is only the report and the deferred [deinit]: nothing is done for
    [post].  The report gives the total value of the option, which the
    check has set from the batch, and the sum of the rewards sent, which
    is the sum over [pre]; the body lines written are as many as the
    entries of [pre] with a reward, one for each transfer that
    succeeded. *)
Theorem batch_stops_at_first_failure
    (opt0 : Option) (w0 : World) (canSaveDB : bool)
    (pre : list AccountStat) (stat : AccountStat) (post : list AccountStat)
    (opt : Option) (w : World) (evs0 : list Event)
    (sent1 : Z) (opt1 : Option) (w1 : World) (evs1 : list Event)
    (h : option Hash) (e : string) (opt2 : Option) (w2 : World)
    (evs2 : list Event) (total : Z) :
  checkSendRewardsFromFile opt0 w0
  = Done ((pre ++ stat :: post, canSaveDB, None), opt) w evs0 ->
  TotalValue opt = Some total ->
  SendRewardsFromFile_range capi canSaveDB pre opt 0 w
  = Done ((None, sent1), opt1) w1 evs1 ->
  noReward (stat_Reward stat) = false ->
  SendRewardsTransaction capi opt1 (stat_Account stat) (stat_Reward stat) w1
  = Done ((h, Some e), opt2) w2 evs2 ->
  let run := evs1 ++ evs2 ++ failureReport opt stat total sent1 e in
  SendRewardsFromFile capi opt0 w0
  = Done (Some "[sendRewards] send tx failed", opt2)
      (snd (deinit_effect w2))
      (evs0
       ++ [EvLog LvlInfo "call SendRewardsFromFile" [("option", LOption opt)]]
       ++ run ++ [EvDeinit])
  /\ sent1 = rewardSum pre
  /\ List.length (bodyLines run) = List.length (rewarded pre)
  /\ bodyLines (evs2 ++ failureReport opt stat total sent1 e) = []
  /\ submitted (failureReport opt stat total sent1 e) = [].
Proof.
  intros Hcheck Ht Hpre Hr Hsend run.
  pose proof (range_stops canSaveDB pre stat post opt w 0 sent1 opt1 w1 evs1
                h e opt2 w2 evs2 total Ht Hpre Hr Hsend) as Hrange.
  destruct (range_completed canSaveDB pre _ _ _ _ _ _ _ Hpre)
    as (Hsum & Hlines & _).
  assert (Hquiet : bodyLines (evs2 ++ failureReport opt stat total sent1 e) = []).
  { rewrite bodyLines_app, (SendRewardsTransaction_quiet _ _ _ _ _ _ _ Hsend).
    reflexivity. }
  split.
  - unfold SendRewardsFromFile.
    rewrite (bind_done _ _ _ _ _ _ Hcheck). cbv beta iota.
    rewrite bind_log. unfold defer.
    rewrite (bind_done _ _ _ _ _ _ Hrange). cbv beta iota.
    unfold ret, deinit, external; simpl.
    destruct (deinit_effect w2) as [[] w3]; simpl.
    subst run. rewrite app_nil_r. reflexivity.
  - split; [lia|]. split; [|split; [exact Hquiet|reflexivity]].
    subst run. rewrite bodyLines_app, length_app, Hquiet, Hlines. simpl; lia.
Qed.

(** C5.  Whatever the batch, the run over it is the run over its entries
    with a reward: the same result, the same world, and the same events
    but for the log lines "ignore zero reward line".  An entry whose reward
    is nil, zero or negative adds that one log line and nothing else, and
    is not among the entries with a reward; of three entries with rewards
    0, 5 and -1 the second is the only one a transfer is attempted for. *)
Theorem skipped_entries_leave_no_trace (canSaveDB : bool) :
  (forall stats opt sent w,
     mapEvents withoutIgnored
       (SendRewardsFromFile_range capi canSaveDB stats opt sent w)
     = mapEvents withoutIgnored
         (SendRewardsFromFile_range capi canSaveDB (rewarded stats) opt sent w))
  /\ (forall stat rest opt sent w,
        stat_Reward stat = None
        \/ (exists v, stat_Reward stat = Some v /\ v <= 0) ->
        SendRewardsFromFile_range capi canSaveDB (stat :: rest) opt sent w
        = prepend
            [EvLog LvlInfo "ignore zero reward line"
               [("account", LAddr (stat_Account stat))]]
            (SendRewardsFromFile_range capi canSaveDB rest opt sent w)
        /\ rewarded (stat :: rest) = rewarded rest)
  /\ (forall sA sB sC,
        stat_Reward sA = Some 0 ->
        stat_Reward sB = Some 5 ->
        stat_Reward sC = Some (-1) ->
        rewarded [sA; sB; sC] = [sB]).
Proof.
  split; [|split].
  - induction stats as [|stat stats IH]; intros opt sent w; [reflexivity|].
    destruct (noReward (stat_Reward stat)) eqn:Hr.
    + rewrite (rewarded_skip _ _ Hr), <- IH.
      cbn [SendRewardsFromFile_range]. rewrite Hr, bind_log.
      rewrite mapEvents_prepend by apply withoutIgnored_app.
      simpl. apply prepend_nil.
    + rewrite (rewarded_keep _ _ Hr).
      cbn [SendRewardsFromFile_range]. rewrite Hr.
      apply mapEvents_bind_ext; [apply withoutIgnored_app|].
      intros [[h err] opt'] w'. destruct err as [e|]; [reflexivity|].
      apply mapEvents_bind_ext; [apply withoutIgnored_app|].
      intros _ w''. apply IH.
  - intros stat rest opt sent w Hno.
    assert (Hr : noReward (stat_Reward stat) = true).
    { destruct Hno as [->|(v & -> & Hv)]; simpl; [reflexivity|].
      apply Z.leb_le; exact Hv. }
    split; [|apply rewarded_skip; exact Hr].
    cbn [SendRewardsFromFile_range]. rewrite Hr, bind_log. reflexivity.
  - intros sA sB sC HA HB HC. unfold rewarded; simpl.
    rewrite HA, HB, HC. reflexivity.
Qed.

Lemma sendRewardsTransaction_dry_run (args : BuildTxArgs) (account : Address)
    (reward : option Z) (token : Address) (w : World) :
  sendRewardsTransaction capi args account reward token true w
  = Done ((None, None), args) w
      [EvLog LvlInfo "sendRewards dry run"
         [("account", LStr (Address_String account));
          ("reward", LBig reward)]].
Proof. reflexivity. Qed.

Lemma SendRewardsTransaction_dry_run (opt : Option) (account : Address)
    (reward : option Z) (w : World) :
  DryRun opt = true ->
  SendRewardsTransaction capi opt account reward w
  = Done ((None, None), opt) w
      [EvLog LvlInfo "sendRewards dry run"
         [("account", LStr (Address_String account));
          ("reward", LBig reward)]].
Proof.
  intros Hd. unfold SendRewardsTransaction. rewrite Hd.
  rewrite (bind_done _ _ _ _ _ _
             (sendRewardsTransaction_dry_run _ _ _ _ _)).
  simpl. rewrite set_TxArgs_same. reflexivity.
Qed.

(** A dry run over a range: no request, one body line without hash for
    each entry with a reward. *)
Lemma range_dry_run (canSaveDB : bool) (opt : Option) :
  DryRun opt = true ->
  forall stats sent w,
    exists w' evs,
      SendRewardsFromFile_range capi canSaveDB stats opt sent w
      = Done ((None, sent + rewardSum stats), opt) w' evs
      /\ consulted evs = []
      /\ submitted evs = []
      /\ bodyLines evs
         = map (fun stat => EvWriteSendRewardResult stat None) (rewarded stats).
Proof.
  intros Hd. induction stats as [|stat stats IH]; intros sent w.
  - exists w, []. unfold rewardSum; simpl. rewrite Z.add_0_r.
    repeat split; reflexivity.
  - cbn [SendRewardsFromFile_range].
    destruct (noReward (stat_Reward stat)) eqn:Hr.
    + destruct (IH sent w) as (w' & evs & Hrun & Hc & Hs & Hb).
      rewrite bind_log, Hrun, rewardSum_skip, rewarded_skip by exact Hr.
      simpl. do 2 eexists. split; [reflexivity|]. simpl. auto.
    + rewrite (bind_done _ _ _ _ _ _
                 (SendRewardsTransaction_dry_run opt (stat_Account stat)
                    (stat_Reward stat) w Hd)).
      cbv beta iota. rewrite Hd. simpl orb. cbv beta iota.
      unfold WriteSendRewardResult, external, bind.
      destruct (output_write opt (EvWriteSendRewardResult stat None) w)
        as [werr w1].
      destruct (IH (sent + match stat_Reward stat with
                            | Some v => v
                            | None => 0
                            end) w1) as (w' & evs & Hrun & Hc & Hs & Hb).
      rewrite Hrun, rewardSum_keep, rewarded_keep by exact Hr.
      simpl. do 2 eexists. split; [rewrite Z.add_assoc; reflexivity|].
      simpl. rewrite Hc, Hs, Hb. auto.
Qed.

(** C6.  In a dry run [sendRewardsTransaction] returns a nil hash and a
    nil error at once: the arguments and the world are as before, and the
    only event is a log line.  When the check of the batch has passed and
    the dry-run flag is set, [SendRewardsFromFile] returns nil; after the
    check no request is sent to any endpoint, so no transaction is
    submitted, and the body lines written are one for each entry with a
    reward, in the order of the batch, each without a hash. *)
Theorem dry_run_sends_nothing
    (opt0 : Option) (w0 : World) (stats : list AccountStat)
    (canSaveDB : bool) (opt : Option) (w : World) (evs0 : list Event)
    (total : Z) :
  checkSendRewardsFromFile opt0 w0
  = Done ((stats, canSaveDB, None), opt) w evs0 ->
  DryRun opt = true ->
  TotalValue opt = Some total ->
  (forall args account reward token w,
     sendRewardsTransaction capi args account reward token true w
     = Done ((None, None), args) w
         [EvLog LvlInfo "sendRewards dry run"
            [("account", LStr (Address_String account));
             ("reward", LBig reward)]])
  /\ exists w' evs,
       SendRewardsFromFile capi opt0 w0 = Done (None, opt) w' (evs0 ++ evs)
       /\ consulted evs = []
       /\ submitted evs = []
       /\ bodyLines evs
          = map (fun stat => EvWriteSendRewardResult stat None)
              (rewarded stats)
       /\ Forall (fun line => lineHash line = None) (bodyLines evs).
Proof.
  intros Hcheck Hd Ht. split; [apply sendRewardsTransaction_dry_run|].
  destruct (range_dry_run canSaveDB opt Hd stats 0 w)
    as (w1 & evs & Hrun & Hc & Hs & Hb).
  destruct (deinit_effect w1) as [[] w2] eqn:Hdeinit.
  exists w2.
  exists ([EvLog LvlInfo "call SendRewardsFromFile" [("option", LOption opt)]]
          ++ evs
          ++ [EvLog LvlInfo "[sendRewards] rewards sended"
                [("totalRewards", LBig (Some total));
                 ("rewardsSended", LBig (Some (0 + rewardSum stats)));
                 ("allRewardsSended", LBool (0 + rewardSum stats =? total))]]
          ++ [EvDeinit]).
  split.
  - unfold SendRewardsFromFile.
    rewrite (bind_done _ _ _ _ _ _ Hcheck). cbv beta iota.
    rewrite bind_log. unfold defer.
    rewrite (bind_done _ _ _ _ _ _ Hrun). cbv beta iota.
    unfold logRewardsSended, allRewardsSended. rewrite Ht.
    unfold bind, log, emit, ret, deinit, external; simpl prepend.
    rewrite Hdeinit. simpl prepend. rewrite <- !app_assoc. reflexivity.
  - rewrite !consulted_app, !submitted_app, !bodyLines_app, Hc, Hs, Hb.
    simpl. rewrite !app_nil_r. repeat split; try reflexivity.
    apply Forall_forall. intros line Hin. apply in_map_iff in Hin.
    destruct Hin as (stat & <- & _). reflexivity.
Qed.

End BatchProofs.

Section SyncProofs.
Context {T : ChainTypes} {B : Backend}.
Variable c : APICaller.

Lemma GetSyncProgress_retried (k : nat) (w : World)
    (p : option SyncProgress) (w' : World) :
  Retried (SyncProgress_ c) (fun _ => True) k w p w' ->
  forall fuel,
    (k < fuel)%nat ->
    exists evs,
      GetSyncProgress fuel c w = Done p w' evs
      /\ sleeps evs = repeat (rpcRetryInterval c) k.
Proof.
  induction 1 as [w v w' evs Hq|w v0 e w1 evs k v w' Hq _ _ IH];
    intros fuel Hf; (destruct fuel as [|fuel]; [lia|]); simpl.
  - rewrite (bind_done _ _ _ _ _ _ Hq); simpl.
    eexists; split; [reflexivity|].
    rewrite sleeps_app. simpl. rewrite app_nil_r.
    apply (perform_no_sleep _ _ _ _ _ _ Hq).
  - rewrite (bind_done _ _ _ _ _ _ Hq); simpl.
    destruct (IH fuel) as (evs' & Hrun & Hs); [lia|].
    unfold log, Sleep. eexists; split.
    { rewrite !bind_emit, Hrun. simpl. reflexivity. }
    rewrite sleeps_app, (perform_no_sleep _ _ _ _ _ _ Hq). simpl.
    rewrite Hs. reflexivity.
Qed.

Lemma GetSyncProgress_spins (k : nat) (w : World)
    (p : option SyncProgress) (w' : World) :
  Retried (SyncProgress_ c) (fun _ => True) k w p w' ->
  forall fuel,
    (fuel <= k)%nat ->
    exists w1 evs,
      GetSyncProgress fuel c w = Spin w1 evs
      /\ sleeps evs = repeat (rpcRetryInterval c) fuel.
Proof.
  induction 1 as [w v w' evs Hq|w v0 e w1 evs k v w' Hq _ _ IH];
    intros fuel Hf; (destruct fuel as [|fuel];
                     [do 2 eexists; split; reflexivity|]); [lia|].
  simpl. rewrite (bind_done _ _ _ _ _ _ Hq); simpl.
  destruct (IH fuel) as (w2 & evs' & Hrun & Hs); [lia|].
  unfold log, Sleep. do 2 eexists; split.
  { rewrite !bind_emit, Hrun. simpl. reflexivity. }
  rewrite sleeps_app, (perform_no_sleep _ _ _ _ _ _ Hq). simpl.
  rewrite Hs. reflexivity.
Qed.

(** [GetSyncProgress] waits for an answer, whatever the retry count: when
    its pass over the endpoints fails [k] times and then succeeds, more
    than [k] rounds give the progress of the successful pass after exactly
    [k] sleeps of the retry interval, and after any smaller number of
    rounds the loop is still running, having slept after every round. *)
Theorem sync_progress_waits_until_answered (k : nat) (w : World)
    (p : option SyncProgress) (w' : World) (fuel : nat) :
  Retried (SyncProgress_ c) (fun _ => True) k w p w' ->
  ((k < fuel)%nat ->
   exists evs,
     GetSyncProgress fuel c w = Done p w' evs
     /\ sleeps evs = repeat (rpcRetryInterval c) k)
  /\ ((fuel <= k)%nat ->
      exists w1 evs,
        GetSyncProgress fuel c w = Spin w1 evs
        /\ sleeps evs = repeat (rpcRetryInterval c) fuel).
Proof.
  intros H. split; intros Hf.
  - apply (GetSyncProgress_retried k w p w' H fuel Hf).
  - apply (GetSyncProgress_spins k w p w' H fuel Hf).
Qed.

End SyncProofs.

Section HelperEdgeProofs.
Context {T : ChainTypes} {B : Backend}.
Variable c : APICaller.

Lemma GetCoinBalance_for_exhausted (account : Address) (bn : option Z)
    (n : nat) (w : World) (cur r : option Z * error) (w' : World) :
  Exhausted (BalanceAt c account bn) n w cur r w' ->
  exists evs,
    GetCoinBalance_for c account bn n cur w = Done r w' evs
    /\ sleeps evs = [].
Proof.
  induction 1 as [w cur|w cur v e w1 evs k r w' Hq _ IH]; simpl.
  - eexists; split; reflexivity.
  - rewrite (bind_done _ _ _ _ _ _ Hq); simpl.
    destruct IH as (evs' & Hrun & Hs).
    eexists; split; [rewrite Hrun; reflexivity|].
    rewrite sleeps_app, (perform_no_sleep _ _ _ _ _ _ Hq), Hs. reflexivity.
Qed.

(** Until it gives up, [GetCoinBalance] only sends requests. *)
Lemma GetCoinBalance_for_requests (account : Address) (bn : option Z)
    (n : nat) :
  forall cur, Only isRequest (GetCoinBalance_for c account bn n cur).
Proof.
  induction n as [|n IH]; intros cur; simpl.
  - apply only_ret.
  - apply only_bind.
    + apply only_perform. intros; exact I.
    + intros [v [e'|]]; simpl; [apply IH|apply only_ret].
Qed.

(** [GetCoinBalance] gives up after [rpcRetryCount] failed passes: it
    returns the error of the last pass with a nil balance, whatever balance
    came with that error, and logs one warning; before the warning it has
    only sent requests: no sleep, no log line. *)
Theorem coin_balance_gives_up_without_balance (account : Address)
    (bn : option Z) (w : World) (b : option Z) (e : string) (w' : World) :
  Exhausted (BalanceAt c account bn) (Z.to_nat (rpcRetryCount c)) w
    (None, None) (b, Some e) w' ->
  exists evs,
    GetCoinBalance c account bn w
    = Done (None, Some e) w'
        (evs ++ [EvLog LvlWarn "[callapi] GetCoinBalance error"
                   [("account", LStr (Address_String account));
                    ("blockNumber", LBig bn); ("err", LErr (Some e))]])
    /\ Forall isRequest evs.
Proof.
  intros H.
  destruct (GetCoinBalance_for_exhausted _ _ _ _ _ _ _ H) as (evs & Hrun & Hs).
  exists evs. split.
  - unfold GetCoinBalance. rewrite (bind_done _ _ _ _ _ _ Hrun). simpl.
    rewrite ?app_nil_r. reflexivity.
  - pose proof (GetCoinBalance_for_requests account bn
                  (Z.to_nat (rpcRetryCount c)) (None, None) w) as Ho.
    rewrite Hrun in Ho. exact Ho.
Qed.

Lemma perform_nobody {V : Type} (req : Request V) (w : World) :
  clients c = [] -> perform c req w = Done (zero req, None) w [].
Proof. intros Hc; unfold perform; rewrite Hc; reflexivity. Qed.

Lemma CallContract_unasked (contract : Address) (data : bytes)
    (bn : option Z) (w : World) :
  clients c = [] \/ rpcRetryCount c <= 0 ->
  CallContract c contract data bn w = Done ([], None) w [].
Proof.
  intros [Hc|Hn]; unfold CallContract.
  - destruct (Z.to_nat (rpcRetryCount c)) as [|n]; [reflexivity|].
    simpl. unfold DoCall. rewrite (bind_done _ _ _ _ _ _ (perform_nobody _ w Hc)).
    reflexivity.
  - replace (Z.to_nat (rpcRetryCount c)) with 0%nat by lia. reflexivity.
Qed.

Lemma GetCoinBalance_unasked (account : Address) (bn : option Z) (w : World) :
  clients c = [] \/ rpcRetryCount c <= 0 ->
  GetCoinBalance c account bn w = Done (None, None) w [].
Proof.
  intros H.
  assert (Hloop :
    GetCoinBalance_for c account bn (Z.to_nat (rpcRetryCount c)) (None, None) w
    = Done (None, None) w []).
  { destruct H as [Hc|Hn].
    - destruct (Z.to_nat (rpcRetryCount c)) as [|n]; [reflexivity|].
      simpl. unfold BalanceAt.
      rewrite (bind_done _ _ _ _ _ _
                 (perform_nobody (ReqBalanceAt account bn) w Hc)).
      reflexivity.
    - replace (Z.to_nat (rpcRetryCount c)) with 0%nat by lia. reflexivity. }
  unfold GetCoinBalance. rewrite (bind_done _ _ _ _ _ _ Hloop). reflexivity.
Qed.

(** With no endpoint, or with a retry count that is not positive, nothing
    is asked and nothing fails: [CallContract] returns a nil answer and a
    nil error at once, [GetCoinBalance] a nil balance and a nil error, and
    every helper over [CallContract] returns what decoding the nil answer
    gives, with a nil error. *)
Theorem helpers_succeed_when_nothing_is_asked :
  clients c = [] \/ rpcRetryCount c <= 0 ->
  (forall contract data bn w,
     CallContract c contract data bn w = Done ([], None) w [])
  /\ (forall account bn w,
        GetCoinBalance c account bn w = Done (None, None) w [])
  /\ (forall token account bn w,
        GetTokenBalance c token account bn w
        = Done (Some (GetBigInt [] 0 32), None) w [])
  /\ (forall token bn w,
        GetTokenTotalSupply c token bn w
        = Done (Some (GetBigInt [] 0 32), None) w []
        /\ GetErc20TotalSupply c token bn w
           = Done (Some (GetBigInt [] 0 32), None) w [])
  /\ (forall exchange w,
        GetExchangeTokenAddress c exchange w
        = Done (BytesToAddress (GetData [] 0 32)) w []
        /\ GetExchangeFactoryAddress c exchange w
           = Done (BytesToAddress (GetData [] 0 32)) w [])
  /\ (forall erc20 w,
        GetErc20Name c erc20 w
        = Done (UnpackABIEncodedStringInIndex [] 0) w []
        /\ GetErc20Symbol c erc20 w
           = Done (UnpackABIEncodedStringInIndex [] 0) w []
        /\ GetErc20Decimals c erc20 w
           = Done ((GetBigInt [] 0 32 mod 2 ^ 64) mod 2 ^ 8, None) w []).
Proof.
  intros H.
  pose proof (fun contract data bn w =>
                CallContract_unasked contract data bn w H) as Hcall.
  split; [exact Hcall|].
  split; [intros; apply GetCoinBalance_unasked; exact H|].
  repeat split; intros;
    unfold GetTokenBalance, GetTokenTotalSupply, GetErc20TotalSupply,
      GetExchangeTokenAddress, GetExchangeFactoryAddress, GetErc20Name,
      GetErc20Symbol, GetErc20Decimals;
    rewrite (bind_done _ _ _ _ _ _ (Hcall _ _ _ _)); reflexivity.
Qed.

Lemma CallContract_for_calls (contract : Address) (msg : CallMsg)
    (bn : option Z) (n : nat) :
  forall cur, Only (isCallOf msg bn) (CallContract_for c contract msg bn n cur).
Proof.
  induction n as [|n IH]; intros cur; simpl.
  - apply only_ret.
  - apply only_bind.
    + apply only_perform. intros cl; simpl; auto.
    + intros [v [e|]]; simpl; [|apply only_ret].
      apply only_bind; [apply only_emit; exact I|intros _].
      apply only_bind; [apply only_emit; exact I|intros _].
      apply IH.
Qed.

Lemma CallContract_calls (contract : Address) (data : bytes) (bn : option Z) :
  Only (isCallOf {| msg_To := Some contract; msg_Data := data |} bn)
    (CallContract c contract data bn).
Proof. apply CallContract_for_calls. Qed.

Lemma GetTokenBalance_calls (token account : Address) (bn : option Z) :
  List.length (Address_Bytes account) = 20%nat ->
  Only (isCallOf (balanceOfCall token account) bn)
    (GetTokenBalance c token account bn).
Proof.
  intros Ha. unfold GetTokenBalance, balanceOfCall.
  unfold packBytes; simpl flat_map. rewrite app_nil_r.
  change 32 with (Z.of_nat 32).
  rewrite LeftPadBytes_short by lia. rewrite Ha.
  change (32 - 20)%nat with 12%nat.
  apply only_bind; [apply CallContract_calls|].
  intros [res [e|]]; simpl.
  - apply only_bind; [apply only_emit; exact I|intros _; apply only_ret].
  - apply only_ret.
Qed.

(** The three token balance queries send one and the same request,
    however often it is retried: [balanceOf] of the account, called on the
    token.  [GetExchangeTokenBalance] asks the token for the balance of the
    exchange, [GetLiquidityBalance] asks the exchange, as a token, for the
    balance of the account.  The balance returned is the first word of the
    answer. *)
Theorem token_balance_queries_ask_balanceOf (bn : option Z) :
  (forall token account,
     List.length (Address_Bytes account) = 20%nat ->
     Only (isCallOf (balanceOfCall token account) bn)
       (GetTokenBalance c token account bn))
  /\ (forall exchange token,
        List.length (Address_Bytes exchange) = 20%nat ->
        Only (isCallOf (balanceOfCall token exchange) bn)
          (GetExchangeTokenBalance c exchange token bn))
  /\ (forall exchange account,
        List.length (Address_Bytes account) = 20%nat ->
        Only (isCallOf (balanceOfCall exchange account) bn)
          (GetLiquidityBalance c exchange account bn))
  /\ (forall token account w res w' evs,
        CallContract c token
          (packBytes [balanceOfFuncHash; Address_Bytes account]) bn w
        = Done (res, None) w' evs ->
        GetTokenBalance c token account bn w
        = Done (Some (GetBigInt res 0 32), None) w' evs).
Proof.
  split; [intros; apply GetTokenBalance_calls; assumption|].
  split; [intros; apply GetTokenBalance_calls; assumption|].
  split; [intros; apply GetTokenBalance_calls; assumption|].
  intros token account w res w' evs H. unfold GetTokenBalance.
  rewrite (bind_done _ _ _ _ _ _ H). simpl. rewrite app_nil_r. reflexivity.
Qed.
Lemma LeftPadBytes_32_length (slice : bytes) :
  List.length (LeftPadBytes slice 32) = Nat.max 32 (List.length slice).
Proof.
  unfold LeftPadBytes.
  destruct (Z.leb_spec 32 (Z.of_nat (List.length slice))) as [Hle|Hgt].
  - lia.
  - rewrite length_app, repeat_length. lia.
Qed.

(** [packBytes] of nothing is nil.  Otherwise the first piece is taken as
    it is and each other piece fills a word of 32 bytes, or its own length
    when it is longer: a piece of more than 32 bytes is not cut.  With
    pieces of at most 32 bytes the length is that of the first piece plus
    32 for each other piece. *)
Theorem packBytes_length :
  packBytes [] = []
  /\ (forall first others,
        List.length (packBytes (first :: others))
        = (List.length first
           + list_sum (map (fun bs => Nat.max 32 (List.length bs)) others))%nat)
  /\ (forall first others,
        Forall (fun bs => (List.length bs <= 32)%nat) others ->
        List.length (packBytes (first :: others))
        = (List.length first + 32 * List.length others)%nat).
Proof.
  assert (Hlen : forall first others,
            List.length (packBytes (first :: others))
            = (List.length first
               + list_sum (map (fun bs => Nat.max 32 (List.length bs)) others))%nat).
  { intros first others. unfold packBytes. rewrite length_app. f_equal.
    induction others as [|bs others IH]; [reflexivity|].
    cbn [flat_map map].
    change (list_sum (?x :: ?l)) with (x + list_sum l)%nat.
    rewrite length_app, LeftPadBytes_32_length, IH. reflexivity. }
  split; [reflexivity|]. split; [exact Hlen|].
  intros first others Hall. rewrite Hlen. f_equal.
  induction Hall as [|bs others Hbs _ IH]; [reflexivity|].
  cbn [map List.length].
  change (list_sum (?x :: ?l)) with (x + list_sum l)%nat. rewrite IH. lia.
Qed.

(** [GetErc20Decimals] returns a [uint8]: whatever the contract answers,
    the decimals are between 0 and 255, the first word of the answer modulo
    256 when the call succeeded, and 0 beside the error when it failed. *)
Theorem decimals_are_the_low_byte (erc20 : Address) (w : World) :
  match GetErc20Decimals c erc20 w with
  | Done (d, err) w' evs =>
      0 <= d < 256
      /\ exists res,
           CallContract c erc20 decimalsFuncHash None w = Done (res, err) w' evs
           /\ (err = None -> d = GetBigInt res 0 32 mod 256)
           /\ (err <> None -> d = 0)
  | _ => True
  end.
Proof.
  unfold GetErc20Decimals, bind.
  destruct (CallContract c erc20 decimalsFuncHash None w)
    as [[res [e|]] w1 evs1|why w1 evs1|w1 evs1];
    cbn [fst snd prepend ret]; auto.
  - split; [lia|]. exists res. rewrite app_nil_r.
    repeat split; intros; congruence.
  - assert (Hm : (GetBigInt res 0 32 mod 2 ^ 64) mod 2 ^ 8
                 = GetBigInt res 0 32 mod 256).
    { apply Z.mod_mod_divide. exists (2 ^ 56). reflexivity. }
    rewrite Hm. split; [apply Z.mod_pos_bound; lia|].
    exists res. rewrite app_nil_r. repeat split; intros; congruence.
Qed.
End HelperEdgeProofs.

Section DialProofs.
Context {T : ChainTypes} {B : Backend}.
Variable Dial : string -> World -> (Client + string) * World.
Variable LoopGetLatestBlockHeader : APICaller -> M unit.

Lemma dialEach_connected (pkg : string) (urls : list string) (w : World)
    (news : list Client) (w1 : World) :
  Connected Dial urls w news w1 ->
  forall rest cls,
    dialEach Dial pkg (urls ++ rest) cls w
    = prepend (connectedLog pkg urls)
        (dialEach Dial pkg rest (cls ++ news) w1).
Proof.
  induction 1 as [w|url urls client w w1 news w' Hd _ IH]; intros rest cls.
  - simpl. rewrite app_nil_r, prepend_nil. reflexivity.
  - simpl. unfold bind at 1, dial. rewrite Hd. simpl.
    rewrite bind_log, IH, !prepend_prepend. simpl.
    rewrite <- (app_assoc cls [client] news). reflexivity.
Qed.

(** The endpoints of [pre] connect and the next one does not.  Then
    [DialServer] and [dialServer] return the error of that endpoint, logged
    with its address; the endpoints after it are not dialed, and
    [LoopGetLatestBlockHeader] is not called.  The clients connected so far
    stay in the list, after the ones it held before. *)
Theorem dial_stops_at_first_failure
    (pre : list string) (url : string) (post : list string) (w : World)
    (news : list Client) (w1 : World) (e : string) (w2 : World) :
  Connected Dial pre w news w1 ->
  Dial url w1 = (inr e, w2) ->
  (forall c,
     DialServer Dial LoopGetLatestBlockHeader c (pre ++ url :: post) w
     = Done (Some e, set_clients c (clients c ++ news)) w2
         (connectedLog "[callapi]" pre
          ++ [EvLog LvlError "[callapi] client connection error"
                [("server", LStr url); ("err", LErr (Some e))]]))
  /\ (forall cls,
        dialServer Dial (pre ++ url :: post) cls w
        = Done (Some e, cls ++ news) w2
            (connectedLog "[syncer]" pre
             ++ [EvLog LvlError "[syncer] client connection error"
                   [("server", LStr url); ("err", LErr (Some e))]])).
Proof.
  intros Hpre Hd.
  assert (Hloop : forall pkg cls,
            dialEach Dial pkg (pre ++ url :: post) cls w
            = Done (Some e, cls ++ news) w2
                (connectedLog pkg pre
                 ++ [EvLog LvlError (pkg +++ " client connection error")
                       [("server", LStr url); ("err", LErr (Some e))]])).
  { intros pkg cls. rewrite (dialEach_connected pkg pre w news w1 Hpre).
    simpl. unfold bind at 1, dial. rewrite Hd. simpl. reflexivity. }
  split.
  - intros c. unfold DialServer.
    rewrite (bind_done _ _ _ _ _ _ (Hloop "[callapi]" (clients c))). simpl.
    rewrite app_nil_r. reflexivity.
  - intros cls. apply Hloop.
Qed.

(** When every endpoint connects, the new clients are appended, in the
    order of the addresses, to the clients the list held before, so that a
    second call adds to the first; [DialServer] then calls
    [LoopGetLatestBlockHeader] on the gateway with the longer list, and
    returns nil when that call returns. *)
Theorem dial_appends_in_order
    (urls : list string) (w : World) (news : list Client) (w1 : World) :
  Connected Dial urls w news w1 ->
  (forall cls,
     dialServer Dial urls cls w
     = Done (None, cls ++ news) w1 (connectedLog "[syncer]" urls))
  /\ (forall c,
        DialServer Dial LoopGetLatestBlockHeader c urls w
        = prepend (connectedLog "[callapi]" urls)
            ((LoopGetLatestBlockHeader (set_clients c (clients c ++ news)) ;;;
              ret (None, set_clients c (clients c ++ news))) w1)).
Proof.
  intros Hc.
  assert (Hloop : forall pkg cls,
            dialEach Dial pkg urls cls w
            = Done (None, cls ++ news) w1 (connectedLog pkg urls)).
  { intros pkg cls.
    pose proof (dialEach_connected pkg urls w news w1 Hc [] cls) as H.
    rewrite app_nil_r in H. rewrite H. simpl. rewrite app_nil_r. reflexivity. }
  split; [intros cls; apply Hloop|].
  intros c. unfold DialServer.
  rewrite (bind_done _ _ _ _ _ _ (Hloop "[callapi]" (clients c))). reflexivity.
Qed.

End DialProofs.

Section KeepProofs.
Context {T : ChainTypes} {B : Backend}.
Variable capi : APICaller.

Lemma keeps_refl (args : BuildTxArgs) : keeps args args.
Proof. unfold keeps; repeat split; auto. Qed.

Ltac keeps_field :=
  unfold keeps; simpl;
  repeat match goal with
         | |- _ /\ _ => split
         | |- _ = _ => reflexivity || congruence
         | |- forall _, _ => intros
         | |- _ \/ _ => (left; reflexivity) || (right; split; congruence)
         end.


Lemma keeps_trans (a b c : BuildTxArgs) : keeps a b -> keeps b c -> keeps a c.
Proof.
  unfold keeps.
  intros (H1 & H2 & H3 & H4 & H5 & H6 & H7 & H8 & H9)
         (K1 & K2 & K3 & K4 & K5 & K6 & K7 & K8 & K9).
  split; [congruence|]. split; [congruence|]. split; [congruence|].
  split; [congruence|]. split; [congruence|].
  split; [intros n Hn; apply K6, H6, Hn|].
  split.
  { destruct H7 as [H7|[H7 H7']], K7 as [K7|[K7 K7']];
      try (left; congruence); try (right; split; congruence). }
  split; [intros g Hg; apply K8, H8, Hg|].
  intros cid Hc. destruct (H9 cid Hc) as [Hb Hs].
  destruct (K9 cid Hb) as [Hc' Hs']. split; congruence.
Qed.

Lemma settled_prepend (args : BuildTxArgs) (e : list Event)
    (r : Res BuildTxArgs) :
  settled args r -> settled args (prepend e r).
Proof. destruct r; simpl; auto. Qed.

Lemma settled_after (a b : BuildTxArgs) (r : Res BuildTxArgs) :
  keeps a b -> settled b r -> settled a r.
Proof.
  destruct r; simpl; auto. intros Hab [Hk Hr]. split; [|exact Hr].
  eapply keeps_trans; eassumption.
Qed.

Section OneRoundKeeps.
Variable from : Address.
Variable continue : BuildTxArgs -> M BuildTxArgs.
Hypothesis later : forall args w, settled args (continue args w).

Lemma limitStep_settled (args : BuildTxArgs) (w : World) :
  Nonce args <> None -> settled args (limitStep args w).
Proof.
  intros Hn. unfold limitStep. rewrite bind_log. apply settled_prepend.
  destruct (GasLimit args) as [l|] eqn:Hl; simpl; rewrite ?Hl; simpl.
  - split; [apply keeps_refl|]. split; [exact Hn|congruence].
  - split; [|split; [exact Hn|discriminate]]. keeps_field.
Qed.

Lemma gasStep_settled (args : BuildTxArgs) (w : World) :
  settled args (gasStep capi continue from args w).
Proof.
  unfold gasStep. destruct (Nonce args) as [n|] eqn:Hn; [|exact I].
  rewrite bind_log. apply settled_prepend.
  assert (Hnn : Nonce args <> None) by congruence.
  destruct (GasPrice args) as [g|] eqn:Hg; [apply limitStep_settled; exact Hnn|].
  unfold bind at 1.
  destruct (SuggestGasPrice capi w) as [[v err] w1 evs1|why w1 evs1|w1 evs1];
    try exact I.
  apply settled_prepend. simpl fst; simpl snd.
  assert (Hk : keeps args (set_GasPrice args v)).
  { keeps_field. }
  apply (settled_after _ _ _ Hk).
  destruct err as [e|]; cbn [fst snd].
  - rewrite bind_log. apply settled_prepend. apply later.
  - apply limitStep_settled. simpl. exact Hnn.
Qed.

Lemma nonceStep_settled (args : BuildTxArgs) (w : World) :
  settled args (nonceStep capi continue from args w).
Proof.
  unfold nonceStep. rewrite bind_log. apply settled_prepend.
  destruct (Nonce args) as [n|] eqn:Hn; [apply gasStep_settled|].
  unfold bind at 1.
  destruct (GetAccountNonce capi from w)
    as [[v err] w1 evs1|why w1 evs1|w1 evs1]; try exact I.
  apply settled_prepend. simpl fst; simpl snd.
  destruct err as [e|]; cbn [fst snd].
  - rewrite bind_log. apply settled_prepend. apply later.
  - assert (Hk : keeps args (set_Nonce args (Some v))).
    { keeps_field. }
    apply (settled_after _ _ _ Hk). apply gasStep_settled.
Qed.

Lemma chainStep_settled (args : BuildTxArgs) (w : World) :
  settled args (chainStep capi continue from args w).
Proof.
  unfold chainStep.
  destruct (chainID args) as [cid|] eqn:Hc; [apply nonceStep_settled|].
  unfold bind at 1.
  destruct (GetChainID capi w) as [[v err] w1 evs1|why w1 evs1|w1 evs1];
    try exact I.
  apply settled_prepend. simpl fst; simpl snd.
  assert (Hk : forall s, keeps args (set_chainSigner (set_chainID args v) s)).
  { intros s. keeps_field. }
  destruct err as [e|]; cbn [fst snd].
  - rewrite bind_log. apply settled_prepend.
    assert (Hk' : keeps args (set_chainID args v)).
    { keeps_field. }
    apply (settled_after _ _ _ Hk'). apply later.
  - eapply settled_after; [apply Hk|]. apply nonceStep_settled.
Qed.

End OneRoundKeeps.

Lemma setDefaults_for_settled (from : Address) (fuel : nat) :
  forall args w, settled args (setDefaults_for capi from fuel args w).
Proof.
  induction fuel as [|fuel IH]; intros args w; simpl; [exact I|].
  apply chainStep_settled. exact IH.
Qed.

(** Whatever the endpoints answer, when [setDefaults] returns it has set
    the nonce and the gas limit, and it has changed nothing that was
    supplied: the sender, the files, the key and the address are as before;
    a nonce, a gas limit, a gas price or a chain identifier that was set is
    the same, and with a chain identifier that was set the signer is as it
    was; a nil gas limit has become 90000. *)
Theorem setDefaults_keeps_what_was_supplied
    (fuel : nat) (args : BuildTxArgs) (w : World) :
  match setDefaults capi fuel args w with
  | Done args' _ _ =>
      Sender args' = Sender args
      /\ KeystoreFile args' = KeystoreFile args
      /\ PasswordFile args' = PasswordFile args
      /\ keyWrapper args' = keyWrapper args
      /\ fromAddr args' = fromAddr args
      /\ (forall n, Nonce args = Some n -> Nonce args' = Some n)
      /\ (forall l, GasLimit args = Some l -> GasLimit args' = Some l)
      /\ (forall g, GasPrice args = Some g -> GasPrice args' = Some g)
      /\ (forall cid, chainID args = Some cid ->
            chainID args' = Some cid /\ chainSigner args' = chainSigner args)
      /\ Nonce args' <> None
      /\ (GasLimit args = None -> GasLimit args' = Some 90000)
  | _ => True
  end.
Proof.
  pose proof (setDefaults_for_settled (fromAddr args) fuel args w) as H.
  unfold setDefaults.
  destruct (setDefaults_for capi (fromAddr args) fuel args w) as [args' w' evs| |];
    auto.
  destruct H as [(H1 & H2 & H3 & H4 & H5 & H6 & H7 & H8 & H9) [Hn Hl]].
  repeat (split; [assumption|]).
  split; [intros l Hs; destruct H7 as [H7|[H7 _]]; congruence|].
  split; [assumption|]. split; [assumption|]. split; [assumption|].
  intros Hnone. destruct H7 as [H7|[_ H7]]; congruence.
Qed.
End KeepProofs.

Section ReadyProofs.
Context {T : ChainTypes} {B : Backend}.
Variable capi : APICaller.
Hypothesis Hnil : nilOnError capi.

Lemma signed_prepend (e : list Event) (r : Res BuildTxArgs) :
  signed r -> signed (prepend e r).
Proof. destruct r; simpl; auto. Qed.

Section OneRoundSigned.
Variable from : Address.
Variable continue : BuildTxArgs -> M BuildTxArgs.
Hypothesis later :
  forall args w,
    chainID args = None \/ chainSigner args <> None ->
    signed (continue args w).

Lemma limitStep_signed (args : BuildTxArgs) (w : World) :
  chainSigner args <> None -> signed (limitStep args w).
Proof.
  intros Hs. unfold limitStep. rewrite bind_log. apply signed_prepend.
  destruct (GasLimit args) as [l|] eqn:Hl; simpl; rewrite ?Hl; simpl; exact Hs.
Qed.

Lemma gasStep_signed (args : BuildTxArgs) (w : World) :
  chainSigner args <> None ->
  signed (gasStep capi continue from args w).
Proof.
  intros Hs. unfold gasStep. destruct (Nonce args) as [n|]; [|exact I].
  rewrite bind_log. apply signed_prepend.
  destruct (GasPrice args) as [g|]; [apply limitStep_signed; exact Hs|].
  unfold bind at 1.
  destruct (SuggestGasPrice capi w) as [[v err] w1 evs1|why w1 evs1|w1 evs1];
    try exact I.
  apply signed_prepend. destruct err as [e|]; cbn [fst snd].
  - rewrite bind_log. apply signed_prepend. apply later. right; exact Hs.
  - apply limitStep_signed. exact Hs.
Qed.

Lemma nonceStep_signed (args : BuildTxArgs) (w : World) :
  chainSigner args <> None ->
  signed (nonceStep capi continue from args w).
Proof.
  intros Hs. unfold nonceStep. rewrite bind_log. apply signed_prepend.
  destruct (Nonce args) as [n|]; [apply gasStep_signed; exact Hs|].
  unfold bind at 1.
  destruct (GetAccountNonce capi from w)
    as [[v err] w1 evs1|why w1 evs1|w1 evs1]; try exact I.
  apply signed_prepend. destruct err as [e|]; cbn [fst snd].
  - rewrite bind_log. apply signed_prepend. apply later. right; exact Hs.
  - apply gasStep_signed. exact Hs.
Qed.

Lemma chainStep_signed (args : BuildTxArgs) (w : World) :
  chainID args = None \/ chainSigner args <> None ->
  signed (chainStep capi continue from args w).
Proof.
  intros Hb. unfold chainStep.
  destruct (chainID args) as [cid|] eqn:Hc.
  - apply nonceStep_signed. destruct Hb as [Hb|Hb]; [discriminate|exact Hb].
  - unfold bind at 1.
    destruct (GetChainID capi w) as [[v err] w1 evs1|why w1 evs1|w1 evs1]
      eqn:Hq; try exact I.
    apply signed_prepend. destruct err as [e|]; cbn [fst snd].
    + rewrite bind_log. apply signed_prepend. apply later.
      left. simpl. exact (Hnil _ _ _ _ _ Hq).
    + apply nonceStep_signed. simpl. discriminate.
Qed.

End OneRoundSigned.

Lemma setDefaults_for_signed (from : Address) (fuel : nat) :
  forall args w,
    chainID args = None \/ chainSigner args <> None ->
    signed (setDefaults_for capi from fuel args w).
Proof.
  induction fuel as [|fuel IH]; intros args w Hb; simpl; [exact I|].
  apply chainStep_signed; [exact IH|exact Hb].
Qed.

End ReadyProofs.

Section CheckedProofs.
Context {T : ChainTypes} {B : Backend}.
Variable capi : APICaller.

Lemma loadKeyStore_success (args : BuildTxArgs) (w : World)
    (args1 : BuildTxArgs) (w1 : World) (evs1 : list Event) :
  loadKeyStore args w = Done (None, args1) w1 evs1 ->
  keyWrapper args1 <> None
  /\ chainID args1 = chainID args
  /\ chainSigner args1 = chainSigner args.
Proof.
  unfold loadKeyStore, bind, inspect.
  destruct (ReadFile (KeystoreFile args) w) as [keyjson [e|]]; simpl;
    [intros H; inversion H|].
  destruct (ReadFile (PasswordFile args) w) as [passdata [e|]]; simpl;
    [intros H; inversion H|].
  destruct (DecryptKey keyjson (TrimSpace passdata)) as [[key|] [e|]]; simpl;
    intros H; inversion H; subst.
  destruct (isEmpty (Sender args)); simpl; repeat split; discriminate.
Qed.

Lemma Check_success (fuel : nat) (args : BuildTxArgs) (w : World)
    (args' : BuildTxArgs) (w' : World) (evs : list Event) :
  Check capi fuel args false w = Done (None, args') w' evs ->
  exists args1 w1 evs1 evs2,
    loadKeyStore args w = Done (None, args1) w1 evs1
    /\ setDefaults capi fuel args1 w1 = Done args' w' evs2.
Proof.
  unfold Check.
  destruct (negb (isEmpty (Sender args)) && negb (IsHexAddress (Sender args)));
    [intros H; inversion H|].
  unfold bind at 1.
  destruct (loadKeyStore args w) as [[[e|] args1] w1 evs1|why w1 evs1|w1 evs1]
    eqn:Hload; cbn [fst snd negb]; try (intros H; inversion H; fail).
  destruct (negb (EqualFold (Sender args1) (Address_String (fromAddr args1))));
    [intros H; inversion H|].
  rewrite bind_log. unfold bind.
  destruct (setDefaults capi fuel args1 w1) as [a2 w2 evs2|why w2 evs2|w2 evs2]
    eqn:Hset; simpl; intros H; inversion H; subst.
  do 4 eexists. split; [reflexivity|exact Hset].
Qed.

(** With the fields set, a transfer returns, and leaves them set. *)
Lemma ready_transfer_returns (args : BuildTxArgs) (account : Address)
    (rv : Z) (token : Address) (w : World) :
  ready args ->
  exists r args' w' evs,
    sendRewardsTransaction capi args account (Some rv) token false w
    = Done (r, args') w' evs
    /\ ready args'.
Proof.
  intros (Hn & Hg & Hk & Hs).
  destruct (Nonce args) as [n0|] eqn:En; [|congruence].
  destruct (GasLimit args) as [gl|] eqn:Eg; [|congruence].
  destruct (keyWrapper args) as [key|] eqn:Ek; [|congruence].
  destruct (chainSigner args) as [signer|] eqn:Es; [|congruence].
  destruct (perform_returns capi (ReqPendingNonceAt (fromAddr args)) w)
    as ([live nerr] & w1 & n1 & Hq).
  fold (GetAccountNonce capi (fromAddr args)) in Hq.
  pose proof (sendRewardsTransaction_resolved capi args account rv token w
                n0 gl key signer live nerr w1 _ En Eg Ek Es Hq) as Hrun.
  cbv zeta in Hrun.
  assert (Hready : forall n, ready (set_Nonce args (Some n))).
  { intros n. unfold ready; simpl. rewrite Eg, Ek, Es.
    repeat split; discriminate. }
  destruct (sign signer (key_PrivateKey key) _) as [sig|e].
  - match type of Hrun with
    | context [SendTransaction capi ?tx w1] =>
        destruct (SendTransaction_returns capi tx w1) as (e & w2 & n2 & Hsend)
    end.
    rewrite Hsend in Hrun. destruct e as [e|];
      do 4 eexists; (split; [exact Hrun|apply Hready]).
  - do 4 eexists. split; [exact Hrun|apply Hready].
Qed.

(** When [Check] has returned nil in a normal run, started without a chain
    identifier, the arguments it leaves hold a nonce, a gas limit, the key
    and a signer, so that a transfer with them does not end on a nil
    pointer: whatever the endpoints answer it returns, and the arguments
    it leaves are fit for the next transfer.  The endpoints are supposed to
    give a nil chain identifier when they fail to give one. *)
Theorem checked_arguments_never_panic
    (fuel : nat) (args : BuildTxArgs) (w : World) (args' : BuildTxArgs)
    (w' : World) (evs : list Event) :
  nilOnError capi ->
  chainID args = None ->
  Check capi fuel args false w = Done (None, args') w' evs ->
  ready args'
  /\ forall account rv token w2,
       exists r args2 w3 evs2,
         sendRewardsTransaction capi args' account (Some rv) token false w2
         = Done (r, args2) w3 evs2
         /\ ready args2.
Proof.
  intros Hnil Hc Hcheck.
  destruct (Check_success _ _ _ _ _ _ Hcheck)
    as (args1 & w1 & evs1 & evs2 & Hload & Hset).
  destruct (loadKeyStore_success _ _ _ _ _ Hload) as (Hk & Hc1 & _).
  assert (Hready : ready args').
  { pose proof (setDefaults_for_settled capi (fromAddr args1) fuel args1 w1)
      as Hsettled.
    pose proof (setDefaults_for_signed capi Hnil (fromAddr args1) fuel args1 w1)
      as Hsigned.
    unfold setDefaults in Hset. rewrite Hset in Hsettled, Hsigned.
    simpl in Hsettled, Hsigned.
    destruct Hsettled as [(_ & _ & _ & Hkw & _) [Hn Hl]].
    unfold ready. repeat split; auto.
    - rewrite Hkw; exact Hk.
    - apply Hsigned. left. rewrite Hc1; exact Hc. }
  split; [exact Hready|].
  intros account rv token w2. apply ready_transfer_returns. exact Hready.
Qed.
(** [Check] on the holder of the key, in a normal run and in a dry run
    alike.  The keystore opens; the sender is empty, or it is a hex address
    that is the address of the key, case apart.  When the chain identifier,
    the nonce of the key's address and the gas price are supplied or
    obtained as in the resolution above, [Check] returns nil without
    sleeping: [GetSender] is the address of the key, [GetChainID] the chain
    identifier obtained, an empty sender has become the address of the key
    and a supplied one is as it was. *)
Theorem check_accepts_the_key_holder
    (fuel : nat) (args : BuildTxArgs) (dryRun : bool) (w : World)
    (keyjson passdata : string) (key : Key)
    (k1 k2 k3 : nat) (cid n g : Z) (w1 w2 w3 : World) :
  (if isEmpty (Sender args)
   then EqualFold (Address_String (key_Address key))
          (Address_String (key_Address key)) = true
   else IsHexAddress (Sender args) = true
        /\ EqualFold (Sender args) (Address_String (key_Address key)) = true) ->
  ReadFile (KeystoreFile args) w = (keyjson, None) ->
  ReadFile (PasswordFile args) w = (passdata, None) ->
  DecryptKey keyjson (TrimSpace passdata) = (Some key, None) ->
  chainID args = None ->
  Retried (GetChainID capi) (fun v => v = None) k1 w (Some cid) w1 ->
  Obtained (Nonce args) (GetAccountNonce capi (key_Address key))
    (fun _ => True) (fun x => x) k2 w1 n w2 ->
  Obtained (GasPrice args) (SuggestGasPrice capi) (fun v => v = None) Some
    k3 w2 g w3 ->
  (k1 + k2 + k3 < fuel)%nat ->
  exists args' evs,
    Check capi fuel args dryRun w = Done (None, args') w3 evs
    /\ args' = resolvedWith (withKey args key) cid n g
    /\ GetSender args' = key_Address key
    /\ BuildTxArgs_GetChainID args' = Some cid
    /\ Sender args'
       = (if isEmpty (Sender args)
          then Address_String (key_Address key) else Sender args)
    /\ keyWrapper args' = Some key
    /\ sleeps evs = [].
Proof.
  intros Hsender Hk Hp Hd Hc H1 H2 H3 Hf.
  assert (Hload :
    loadKeyStore args w
    = Done (None, withKey args key) w
        [EvLog LvlPrintln "decrypt keystore ......" []])
    by exact (loadKeyStore_opens args w _ _ _ Hk Hp Hd).
  remember (withKey args key) as args1 eqn:Eargs1.
  assert (Hs1 : Sender args1
                = if isEmpty (Sender args)
                  then Address_String (key_Address key) else Sender args).
  { subst args1; unfold withKey; simpl.
    destruct (isEmpty (Sender args)); reflexivity. }
  assert (Hfrom : fromAddr args1 = key_Address key).
  { subst args1; unfold withKey; simpl.
    destruct (isEmpty (Sender args)); reflexivity. }
  assert (Hkey : keyWrapper args1 = Some key).
  { subst args1; unfold withKey; simpl.
    destruct (isEmpty (Sender args)); reflexivity. }
  assert (Hn1 : Nonce args1 = Nonce args /\ GasPrice args1 = GasPrice args
                /\ chainID args1 = chainID args).
  { subst args1; unfold withKey; simpl.
    destruct (isEmpty (Sender args)); repeat split; reflexivity. }
  destruct Hn1 as (Hn1 & Hg1 & Hc1).
  destruct (setDefaults_for_resolves capi (fromAddr args1) fuel args1 w
              k1 k2 k3 cid n g w1 w2 w3) as [evs Hrun]; auto.
  { unfold Obtained; rewrite Hc1, Hc; exact H1. }
  { rewrite Hn1, Hfrom; exact H2. }
  { rewrite Hg1; exact H3. }
  rewrite (finalArgs_resolvedWith _ _ _ _ (eq_trans Hc1 Hc)) in Hrun.
  assert (Hmatch : EqualFold (Sender args1) (Address_String (fromAddr args1))
                   = true).
  { rewrite Hs1, Hfrom. destruct (isEmpty (Sender args)); [exact Hsender|].
    apply Hsender. }
  assert (Hvalid : negb (isEmpty (Sender args))
                   && negb (IsHexAddress (Sender args)) = false).
  { destruct (isEmpty (Sender args)); [reflexivity|].
    destruct Hsender as [-> _]. reflexivity. }
  exists (resolvedWith args1 cid n g).
  exists ([EvLog LvlPrintln "decrypt keystore ......" []]
          ++ [EvLog LvlInfo "get build transaction's sender"
                [("sender", LStr (Sender args1))]] ++ evs).
  split; [|split; [reflexivity|]].
  - unfold Check. rewrite Hvalid.
    rewrite (bind_done _ _ _ _ _ _ Hload). cbv beta zeta. cbn [fst snd].
    cbv beta iota. rewrite Hmatch. cbn [negb]. rewrite bind_log.
    unfold setDefaults. rewrite (bind_done _ _ _ _ _ _ Hrun).
    simpl. rewrite app_nil_r. reflexivity.
  - simpl. rewrite Hfrom, Hs1, Hkey. repeat split; try reflexivity.
    apply noSleep_sleeps.
    pose proof (setDefaults_for_no_sleep capi (fromAddr args1) fuel args1 w)
      as Hs. rewrite Hrun in Hs. exact Hs.
Qed.
Lemma loadKeyStore_failure (args : BuildTxArgs) (w : World) (e : string)
    (args1 : BuildTxArgs) (w1 : World) (evs1 : list Event) :
  loadKeyStore args w = Done (Some e, args1) w1 evs1 ->
  Sender args1 = Sender args /\ fromAddr args1 = fromAddr args /\ w1 = w.
Proof.
  unfold loadKeyStore, bind, inspect.
  destruct (ReadFile (KeystoreFile args) w) as [keyjson [e1|]]; simpl;
    [intros H; inversion H; subst; auto|].
  destruct (ReadFile (PasswordFile args) w) as [passdata [e2|]]; simpl;
    [intros H; inversion H; subst; auto|].
  destruct (DecryptKey keyjson (TrimSpace passdata)) as [[key|] [e3|]]; simpl;
    intros H; inversion H; subst; auto.
Qed.

(** No sender is supplied and the keystore cannot be loaded, for whatever
    reason.  A normal run returns the error.  A dry run takes the address
    the arguments hold, the zero address when nothing has set it, writes
    it into the sender, and goes on to resolve the parameters for it. *)
Theorem dry_run_without_sender_or_key
    (fuel : nat) (args : BuildTxArgs) (w : World) (e : string)
    (args1 : BuildTxArgs) (w1 : World) (evs1 : list Event) :
  isEmpty (Sender args) = true ->
  loadKeyStore args w = Done (Some e, args1) w1 evs1 ->
  EqualFold (Address_String (fromAddr args)) (Address_String (fromAddr args))
  = true ->
  let sender := Address_String (fromAddr args) in
  Check capi fuel args false w = Done (Some e, args1) w1 evs1
  /\ fromAddr args1 = fromAddr args
  /\ Check capi fuel args true w
     = prepend
         (evs1
          ++ [EvLog LvlWarn "check build tx args failed, but ignore in dry run"
                [("err", LErr (Some e))];
              EvLog LvlInfo "get build transaction's sender"
                [("sender", LStr sender)]])
         ((resolved <- setDefaults capi fuel (set_Sender args1 sender) ;;
           ret (None, resolved)) w1).
Proof.
  intros He Hload Hm sender. subst sender.
  destruct (loadKeyStore_failure _ _ _ _ _ _ Hload) as (Hs & Hf & ->).
  assert (He1 : isEmpty (Sender args1) = true) by (rewrite Hs; exact He).
  split; [|split; [exact Hf|]]; unfold Check; rewrite He; cbn [negb andb];
    rewrite (bind_done _ _ _ _ _ _ Hload); cbv beta zeta; cbn [fst snd];
    cbv beta iota; cbn [negb].
  - simpl. rewrite app_nil_r. reflexivity.
  - rewrite He1. cbn [negb]. rewrite bind_log. cbn [Sender fromAddr set_Sender].
    rewrite Hf. rewrite Hm. cbn [negb].
    rewrite bind_log, !prepend_prepend, <- app_assoc. reflexivity.
Qed.

End CheckedProofs.

Section TransferContentProofs.
Context {T : ChainTypes} {B : Backend}.
Variable capi : APICaller.

(** Every transaction a transfer hands to an endpoint is a call of the
    token: it is addressed to the reward token, not to the account, it
    carries no coin, its data are the transfer of the reward to the
    account, its gas limit and price are those of the arguments, and it is
    signed with the key of the arguments by their signer. *)
Theorem submitted_transaction_is_a_token_transfer
    (args : BuildTxArgs) (account : Address) (rv : Z) (token : Address)
    (w : World) (otx : option Transaction) :
  In otx (submitted
            (events_of
               (sendRewardsTransaction capi args account (Some rv) token
                  false w))) ->
  exists tx gl key signer sig,
    otx = Some tx
    /\ GasLimit args = Some gl
    /\ keyWrapper args = Some key
    /\ chainSigner args = Some signer
    /\ tx_to tx = token
    /\ tx_amount tx = Some 0
    /\ tx_data tx = transferData account rv
    /\ tx_gasLimit tx = gl
    /\ tx_gasPrice tx = GasPrice args
    /\ tx_sig tx = Some sig
    /\ sign signer (key_PrivateKey key)
         (NewTransaction (tx_nonce tx) token (Some 0) gl (GasPrice args)
            (transferData account rv))
       = inl sig.
Proof.
  destruct (perform_returns capi (ReqPendingNonceAt (fromAddr args)) w)
    as ([live nerr] & w1 & n1 & Hq).
  fold (GetAccountNonce capi (fromAddr args)) in Hq.
  assert (Hpanic :
    Nonce args = None \/ GasLimit args = None \/ keyWrapper args = None
    \/ chainSigner args = None ->
    In otx (submitted
              (events_of
                 (sendRewardsTransaction capi args account (Some rv) token
                    false w))) -> False).
  { intros Hnil.
    rewrite (unresolved_transfer_panics capi _ _ _ _ _ _ _ _ _ Hq Hnil).
    simpl. rewrite submitted_asked_nonce. intros []. }
  destruct (Nonce args) as [n0|] eqn:Hn;
    [|intros Hin; exfalso; apply Hpanic; auto].
  destruct (GasLimit args) as [gl|] eqn:Hg;
    [|intros Hin; exfalso; apply Hpanic; auto].
  destruct (keyWrapper args) as [key|] eqn:Hk;
    [|intros Hin; exfalso; apply Hpanic; auto].
  destruct (chainSigner args) as [signer|] eqn:Hs;
    [|intros Hin; exfalso; apply Hpanic; auto 6].
  clear Hpanic.
  pose proof (sendRewardsTransaction_resolved capi args account rv token w
                n0 gl key signer live nerr w1 _ Hn Hg Hk Hs Hq) as Hrun.
  cbv zeta in Hrun. rewrite Hrun. clear Hrun.
  set (rawTx := NewTransaction (reconciled n0 live nerr) token (Some 0) gl
                  (GasPrice args) (transferData account rv)).
  destruct (sign signer (key_PrivateKey key) rawTx) as [sig|e] eqn:Hsig.
  - destruct (SendTransaction_returns capi (Some (WithSignature rawTx sig)) w1)
      as (e & w2 & n2 & Hsend).
    rewrite Hsend.
    intros Hin.
    assert (Hin' : In otx (map (fun _ => Some (WithSignature rawTx sig))
                             (firstn n2 (clients capi)))).
    { destruct e as [e|]; simpl in Hin;
        rewrite !submitted_app, submitted_asked_nonce, submitted_asked_send
          in Hin; simpl in Hin; rewrite ?app_nil_r in Hin; exact Hin. }
    apply in_map_iff in Hin'. destruct Hin' as (cl & <- & _).
    exists (WithSignature rawTx sig), gl, key, signer, sig.
    repeat split; auto.
  - simpl. rewrite submitted_asked_nonce. intros [].
Qed.

(** A transfer that returns started with the fields set. *)
Lemma returned_transfer_was_ready (args : BuildTxArgs) (account : Address)
    (rv : Z) (token : Address) (w : World) r (args' : BuildTxArgs)
    (w' : World) (evs : list Event) :
  sendRewardsTransaction capi args account (Some rv) token false w
  = Done (r, args') w' evs ->
  ready args.
Proof.
  intros Hrun.
  destruct (perform_returns capi (ReqPendingNonceAt (fromAddr args)) w)
    as ([live nerr] & w1 & n1 & Hq).
  fold (GetAccountNonce capi (fromAddr args)) in Hq.
  assert (Hpanic :
    Nonce args = None \/ GasLimit args = None \/ keyWrapper args = None
    \/ chainSigner args = None -> False).
  { intros Hnil.
    rewrite (unresolved_transfer_panics capi _ _ _ _ _ _ _ _ _ Hq Hnil) in Hrun.
    discriminate. }
  unfold ready. repeat split; intros H; apply Hpanic; auto 6.
Qed.

(** No nonce is used twice: when a transfer has succeeded, every
    transaction of a later transfer with the arguments it left carries a
    nonce above that of every transaction of the first, as long as the
    nonce is below the top of the [uint64] range. *)
Theorem consecutive_transfers_use_increasing_nonces
    (args : BuildTxArgs) (account1 account2 : Address) (rv1 rv2 : Z)
    (token1 token2 : Address) (w : World)
    (h1 : option Hash) (args1 : BuildTxArgs) (w1 : World) (evs1 : list Event)
    (wb : World) r2 (args2 : BuildTxArgs) (w2 : World) (evs2 : list Event)
    (tx1 tx2 : Transaction) :
  sendRewardsTransaction capi args account1 (Some rv1) token1 false w
  = Done ((h1, None), args1) w1 evs1 ->
  sendRewardsTransaction capi args1 account2 (Some rv2) token2 false wb
  = Done (r2, args2) w2 evs2 ->
  In (Some tx1) (submitted evs1) ->
  In (Some tx2) (submitted evs2) ->
  0 <= tx_nonce tx1 < 2 ^ 64 - 1 ->
  tx_nonce tx1 < tx_nonce tx2.
Proof.
  intros Hrun1 Hrun2 Hin1 Hin2 Hrange.
  pose proof (returned_transfer_was_ready _ _ _ _ _ _ _ _ _ Hrun1) as Hr.
  destruct Hr as (Hn & Hg & Hk & Hs).
  destruct (Nonce args) as [n0|] eqn:En; [|congruence].
  destruct (GasLimit args) as [gl|] eqn:Eg; [|congruence].
  destruct (keyWrapper args) as [key|] eqn:Ek; [|congruence].
  destruct (chainSigner args) as [signer|] eqn:Es; [|congruence].
  destruct (resolved_transfer_returns capi args account1 rv1 token1 w n0 gl key
              signer En Eg Ek Es)
    as (live & nerr & wq & evsq & used & r & args' & w' & rest
        & Hq & Hrun & Hsub0 & _ & _ & Htx & _ & Hok & _ & _ & Hsg & _ & Hgl).
  rewrite Hrun1 in Hrun. inversion Hrun; subst r args' w' evs1. clear Hrun.
  rewrite submitted_app, Hsub0 in Hin1. simpl in Hin1.
  destruct (Htx _ Hin1) as (tx & Htx1 & Hused). inversion Htx1; subst tx.
  rewrite Hused in Hrange.
  specialize (Hok eq_refl Hrange).
  pose proof (returned_transfer_was_ready _ _ _ _ _ _ _ _ _ Hrun2) as Hr2.
  destruct Hr2 as (_ & Hg2 & Hk2 & Hs2).
  destruct (GasLimit args1) as [gl2|] eqn:Eg2; [|congruence].
  destruct (keyWrapper args1) as [key2|] eqn:Ek2; [|congruence].
  destruct (chainSigner args1) as [signer2|] eqn:Es2; [|congruence].
  destruct (resolved_transfer_returns capi args1 account2 rv2 token2 wb
              (used + 1) gl2 key2 signer2 Hok Eg2 Ek2 Es2)
    as (live2 & nerr2 & wq2 & evsq2 & used2 & r & args' & w' & rest2
        & Hq2 & Hrun & Hsub2 & Hgt2 & Hle2 & Htx2 & _).
  rewrite Hrun2 in Hrun. inversion Hrun; subst r args' w' evs2. clear Hrun.
  rewrite submitted_app, Hsub2 in Hin2. simpl in Hin2.
  destruct (Htx2 _ Hin2) as (tx & Htx2' & Hused2). inversion Htx2'; subst tx.
  rewrite Hused, Hused2.
  destruct (Z_lt_dec (used + 1) live2) as [Hlt|Hge].
  - destruct nerr2 as [e|].
    + rewrite Hle2; [lia|]. intros [Hcontra _]; discriminate.
    + rewrite Hgt2; [lia|]. split; [reflexivity|exact Hlt].
  - rewrite Hle2; [lia|]. intros [_ Hcontra]; lia.
Qed.

End TransferContentProofs.

Section WholeBatchProofs.
Context {T : ChainTypes} {B : Backend}.
Variable capi : APICaller.

(** An input file without entries: the check returns no error and writes
    no title line, and [SendRewardsFromFile] goes on with the empty batch.
    Nothing has set the total value by then: when the option holds one,
    the run logs that nothing was sent and returns nil; when it holds
    none, the comparison for the final log line dereferences nil and the
    run panics, after the deferred [deinit]. *)
Theorem empty_batch_needs_a_total
    (opt : Option) (w : World) (title : string) (opt1 : Option) (w1 : World)
    (evs1 : list Event) :
  isEmpty (InputFile opt) = false ->
  GetAccountsAndRewardsFromFile opt w = Done (([], title, None), opt1) w1 evs1 ->
  let before :=
    evs1
    ++ [EvLog LvlWarn "empty account list, no need to send reward" [];
        EvLog LvlInfo "call SendRewardsFromFile" [("option", LOption opt1)]] in
  SendRewardsFromFile capi opt w
  = match TotalValue opt1 with
    | None =>
        Panic nilDeref (snd (deinit_effect w1)) (before ++ [EvDeinit])
    | Some total =>
        Done (None, opt1) (snd (deinit_effect w1))
          (before
           ++ [EvLog LvlInfo "[sendRewards] rewards sended"
                 [("totalRewards", LBig (Some total));
                  ("rewardsSended", LBig (Some 0));
                  ("allRewardsSended", LBool (0 =? total))];
               EvDeinit])
    end.
Proof.
  intros Hf Hload before.
  assert (Hcheck :
    checkSendRewardsFromFile opt w
    = Done (([], false, None), opt1) w1
        (evs1 ++ [EvLog LvlWarn "empty account list, no need to send reward" []])).
  { unfold checkSendRewardsFromFile. rewrite Hf.
    rewrite (bind_done _ _ _ _ _ _ Hload). reflexivity. }
  unfold SendRewardsFromFile.
  rewrite (bind_done _ _ _ _ _ _ Hcheck). cbv beta iota.
  rewrite bind_log. unfold defer. cbn [SendRewardsFromFile_range].
  rewrite bind_ret. cbv beta iota.
  unfold logRewardsSended, allRewardsSended.
  subst before.
  destruct (deinit_effect w1) as [[] w2] eqn:Hde.
  destruct (TotalValue opt1) as [total|]; unfold bind, panic, log, emit, ret,
    deinit, external; simpl; rewrite Hde; simpl;
    rewrite <- !app_assoc; reflexivity.
Qed.

(** With an empty list of endpoints every query of [setDefaults] comes
    back at once with the zero value and no error: the first round
    returns, the chain identifier and the gas price are still nil, the
    nonce is 0, the signer is the one of a nil chain identifier, and the
    gas limit is the supplied one or 90000. *)
Theorem setDefaults_without_endpoint
    (fuel : nat) (args : BuildTxArgs) (w : World) :
  clients capi = [] ->
  chainID args = None ->
  Nonce args = None ->
  GasPrice args = None ->
  let gasLimit := match GasLimit args with Some l => l | None => 90000 end in
  setDefaults capi (S fuel) args w
  = Done
      {| Sender := Sender args;
         KeystoreFile := KeystoreFile args;
         PasswordFile := PasswordFile args;
         Nonce := Some 0;
         GasLimit := Some gasLimit;
         GasPrice := None;
         keyWrapper := keyWrapper args;
         fromAddr := fromAddr args;
         chainID := None;
         chainSigner := Some (NewEIP155Signer None) |}
      w
      [EvLog LvlInfo "get chain ID succeed" [("chainID", LBig None)];
       EvLog LvlInfo "get nonce succeed"
         [("from", LStr (Address_String (fromAddr args))); ("nonce", LUint 0)];
       EvLog LvlInfo "get gas price succeed" [("gasPrice", LBig None)];
       EvLog LvlInfo "get gas limit succeed" [("gasLimit", LUint gasLimit)]].
Proof.
  intros Hcl Hc Hn Hg gasLimit. subst gasLimit.
  assert (Hop : forall (V : Type) (req : Request V) (w : World),
            perform capi req w = Done (zero req, None) w []).
  { intros V req w0. unfold perform. rewrite Hcl. reflexivity. }
  destruct args as [s kf pf no gl gp kw fa ci cs]. simpl in Hc, Hn, Hg.
  subst ci no gp.
  unfold setDefaults. cbn [setDefaults_for fromAddr].
  unfold chainStep. cbn [chainID].
  unfold GetChainID. rewrite (bind_done _ _ _ _ _ _ (Hop _ ReqNetworkID w)).
  cbn [fst snd zero]. unfold nonceStep. rewrite bind_log.
  unfold set_chainID, set_chainSigner; simpl.
  unfold GetAccountNonce.
  rewrite (bind_done _ _ _ _ _ _ (Hop _ (ReqPendingNonceAt fa) w)).
  cbn [fst snd zero]. unfold gasStep, set_Nonce; simpl.
  rewrite bind_log. unfold SuggestGasPrice.
  rewrite (bind_done _ _ _ _ _ _ (Hop _ ReqSuggestGasPrice w)).
  cbn [fst snd zero]. unfold limitStep, set_GasPrice; simpl.
  rewrite bind_log.
  destruct gl as [l|]; simpl; reflexivity.
Qed.

End WholeBatchProofs.

Section TitleProofs.
Context {T : ChainTypes} {B : Backend}.

Lemma append_cons (a : ascii) (s t : string) :
  String a s +++ t = String a (s +++ t).
Proof. reflexivity. Qed.

Lemma string_append_assoc (a b c : string) : (a +++ b) +++ c = a +++ b +++ c.
Proof.
  induction a as [|x a IH]; [reflexivity|].
  rewrite !append_cons, IH. reflexivity.
Qed.

Lemma concat_snoc2 (sep : string) (l : list string) (x y : string) :
  l <> [] ->
  String.concat sep (l ++ [x; y])
  = String.concat sep l +++ sep +++ x +++ sep +++ y.
Proof.
  induction l as [|a l IH]; [congruence|]. intros _.
  destruct l as [|b l].
  - reflexivity.
  - change (String.concat sep ((a :: b :: l) ++ [x; y]))
      with (a +++ sep +++ String.concat sep ((b :: l) ++ [x; y])).
    rewrite IH by discriminate.
    change (String.concat sep (a :: b :: l))
      with (a +++ sep +++ String.concat sep (b :: l)).
    rewrite !string_append_assoc. reflexivity.
Qed.

(** [addTxHashFieldToTitleLine]: a title of at most one field gets
    [,txhash] at its end; a title of more fields is its fields joined by
    commas, with [txhash] put in before the last, so that the separators
    become commas, there is one field more, and the fields before the last
    stay where they are, the third, which [checkTitleLine] reads, among
    them when there are four or more. *)
Theorem txhash_goes_before_the_last_field (titleLine : string) :
  let parts := blankOrCommaSepRegexp_Split titleLine in
  ((List.length parts <= 1)%nat ->
   addTxHashFieldToTitleLine titleLine = titleLine +++ ",txhash")
  /\ ((2 <= List.length parts)%nat ->
      addTxHashFieldToTitleLine titleLine
      = String.concat "," (withTxHashField parts)
      /\ List.length (withTxHashField parts) = S (List.length parts)
      /\ forall i,
           (i < List.length parts - 1)%nat ->
           nth i (withTxHashField parts) "" = nth i parts "").
Proof.
  intros parts. unfold addTxHashFieldToTitleLine. fold parts. split.
  - intros Hle. apply Nat.leb_le in Hle. rewrite Hle. reflexivity.
  - intros Hge.
    assert (Hgt : (List.length parts <=? 1)%nat = false)
      by (apply Nat.leb_gt; lia).
    rewrite Hgt.
    assert (Hne : removelast parts <> []).
    { destruct parts as [|a [|b l]]; simpl in Hge; try lia. discriminate. }
    assert (Hlen : List.length (removelast parts) = (List.length parts - 1)%nat).
    { destruct parts as [|a l]; [simpl in Hge; lia|].
      rewrite (app_removelast_last "" (l := a :: l)) at 2 by discriminate.
      rewrite length_app. simpl. lia. }
    unfold withTxHashField. split; [|split].
    + rewrite (concat_snoc2 "," _ _ _ Hne), !string_append_assoc. reflexivity.
    + rewrite length_app, Hlen. simpl. lia.
    + intros i Hi. rewrite app_nth1 by lia.
      rewrite (app_removelast_last "" (l := parts)) at 2
        by (intros ->; simpl in Hge; lia).
      rewrite app_nth1 by lia. reflexivity.
Qed.
End TitleProofs.

Section CheckBatchProofs.
Context {T : ChainTypes} {B : Backend}.

(** The end of [checkSendRewardsFromFile], once the file is read, the batch
    is not empty, the title line is accepted and the balance suffices.  A
    failure of [CheckBasic] is an error only when the results are to be
    saved to the database; otherwise it decides the title: in a dry run
    the title of the input, else with [CheckBasic] passed the title with
    the [txhash] field, else the three-column title.  One title line is
    written, and the check succeeds whether or not the write does. *)
Theorem title_is_written_when_the_checks_pass
    (opt : Option) (w : World) (stats : list AccountStat) (title : string)
    (opt1 : Option) (w1 : World) (evs1 : list Event) (opt2 opt3 : Option)
    (w3 : World) (evs3 : list Event) (berr : error) (opt4 : Option)
    (w4 : World) (evs4 : list Event) :
  isEmpty (InputFile opt) = false ->
  GetAccountsAndRewardsFromFile opt w
  = Done ((stats, title, None), opt1) w1 evs1 ->
  stats <> [] ->
  checkTitleLine opt1 title = (None, opt2) ->
  CheckSenderRewardTokenBalance (set_TotalValue opt2 (CalcTotalReward stats)) w1
  = Done (None, opt3) w3 evs3 ->
  CheckBasic opt3 w3 = Done (berr, opt4) w4 evs4 ->
  let written (line : string) (canSaveDB : bool) :=
    Done ((stats, canSaveDB, None), opt4)
      (snd (output_write opt4 (EvWriteOutput line) w4))
      (evs1 ++ evs3 ++ evs4 ++ [EvWriteOutput line]) in
  checkSendRewardsFromFile opt w
  = match berr with
    | None =>
        written (if DryRun opt4 then title
                 else addTxHashFieldToTitleLine title) true
    | Some e =>
        if SaveDB opt4
        then Done (([], false, Some ("can not savedb as error " +++ e)), opt4)
               w4 (evs1 ++ evs3 ++ evs4)
        else written (if DryRun opt4 then title
                      else "#account,reward,txhash") false
    end.
Proof.
  intros Hf Hload Hne Htitle Hbal Hbasic written. subst written.
  unfold checkSendRewardsFromFile. rewrite Hf.
  rewrite (bind_done _ _ _ _ _ _ Hload). cbv beta iota.
  assert (Hlen : (List.length stats =? 0)%nat = false).
  { destruct stats; [congruence|reflexivity]. }
  rewrite Hlen, Htitle. cbv beta iota.
  rewrite (bind_done _ _ _ _ _ _ Hbal). cbv beta iota.
  rewrite (bind_done _ _ _ _ _ _ Hbasic). cbv beta iota.
  destruct berr as [e|]; cbn [negb andb].
  - destruct (SaveDB opt4).
    + simpl. rewrite app_nil_r. reflexivity.
    + unfold WriteOutput, external, bind.
      destruct (DryRun opt4);
        destruct (output_write opt4 _ w4) as [werr w5]; simpl;
        rewrite ?app_nil_r; reflexivity.
  - unfold WriteOutput, external, bind.
    destruct (DryRun opt4);
      destruct (output_write opt4 _ w4) as [werr w5]; simpl;
      rewrite ?app_nil_r; reflexivity.
Qed.
End CheckBatchProofs.

Section HelperCallProofs.
Context {T : ChainTypes} {B : Backend}.
Variable c : APICaller.

Lemma only_after_call {A : Type} (contract : Address) (data : bytes)
    (bn : option Z) (k : bytes * error -> M A) :
  (forall r, Only (isCallOf {| msg_To := Some contract; msg_Data := data |} bn)
               (k r)) ->
  Only (isCallOf {| msg_To := Some contract; msg_Data := data |} bn)
    (bind (CallContract c contract data bn) k).
Proof. intros Hk. apply only_bind; [apply CallContract_calls|exact Hk]. Qed.

(** Each helper sends one request only, however often it is retried: the
    call of its own function on the contract it is given.  The total
    supply is asked at the block of the caller, and [GetExchangeLiquidity]
    is the total supply of the exchange; the token address, the factory
    address, the name, the symbol and the decimals are always asked at
    the latest block. *)
Theorem helpers_send_their_own_call :
  (forall token bn,
     Only (isCallOf (plainCall token totalSupplyFuncHash) bn)
       (GetTokenTotalSupply c token bn)
     /\ Only (isCallOf (plainCall token totalSupplyFuncHash) bn)
          (GetErc20TotalSupply c token bn))
  /\ (forall exchange bn,
        GetExchangeLiquidity c exchange bn = GetTokenTotalSupply c exchange bn)
  /\ (forall exchange,
        Only (isCallOf (plainCall exchange tokenAddressFuncHash) None)
          (GetExchangeTokenAddress c exchange)
        /\ Only (isCallOf (plainCall exchange factoryAddressFuncHash) None)
             (GetExchangeFactoryAddress c exchange))
  /\ (forall erc20,
        Only (isCallOf (plainCall erc20 nameFuncHash) None)
          (GetErc20Name c erc20)
        /\ Only (isCallOf (plainCall erc20 symbolFuncHash) None)
             (GetErc20Symbol c erc20)
        /\ Only (isCallOf (plainCall erc20 decimalsFuncHash) None)
             (GetErc20Decimals c erc20)).
Proof.
  repeat split; try reflexivity;
    unfold GetTokenTotalSupply, GetErc20TotalSupply, GetExchangeTokenAddress,
      GetExchangeFactoryAddress, GetErc20Name, GetErc20Symbol,
      GetErc20Decimals, plainCall;
    apply only_after_call; intros [res [e|]]; cbn [fst snd];
    repeat (apply only_ret
            || (apply only_bind; [apply only_emit; exact I|intros _])).
Qed.
End HelperCallProofs.

Section TitleCheckProofs.
Context {T : ChainTypes} {B : Backend}.

(** [checkTitleLine] with a classification configured: the option is
    never changed, and the title is accepted exactly when it is a comment
    line of five fields or more whose third field, in its standard form,
    is the classification. *)
Theorem title_is_checked_against_the_classification
    (opt : Option) (titleLine : string) :
  isEmpty (byWhat opt) = false ->
  let parts := blankOrCommaSepRegexp_Split titleLine in
  snd (checkTitleLine opt titleLine) = opt
  /\ (fst (checkTitleLine opt titleLine) = None
      <-> isCommentedLine titleLine = true
          /\ (5 <= List.length parts)%nat
          /\ byWhat opt = GetStandardByWhat (nth 2 parts "")).
Proof.
  intros Hb parts. unfold checkTitleLine. fold parts. rewrite Hb.
  destruct (isCommentedLine titleLine); cbn [negb].
  - destruct (Nat.ltb_spec (List.length parts) 5) as [Hlt|Hge].
    + split; [reflexivity|]. split; [discriminate|]. intros (_ & H & _); lia.
    + destruct (String.eqb_spec (byWhat opt)
                  (GetStandardByWhat (nth 2 parts ""))) as [Heq|Hne];
        cbn [negb fst snd].
      * split; [reflexivity|]. split; auto.
      * split; [reflexivity|]. split; [discriminate|].
        intros (_ & _ & H); contradiction.
  - split; [reflexivity|]. split; [discriminate|]. intros (H & _); discriminate.
Qed.
End TitleCheckProofs.

(* ================================================================== *)
(** * The statements on the simulated network *)

Section Examples.

#[local] Existing Instance Sim.types.
#[local] Existing Instance Sim.backend.

(** Three endpoints; the first is down, the others are up. *)
Lemma single_pass_second_endpoint_answers :
  let gw := Sim.gateway [(5, 9); (0, 9); (0, 9)]%nat 3 in
  let req := @ReqBalanceAt Sim.types Sim.accountA None in
  operation gw req 0%nat
  = Done (Some 1000, None) 2%nat (asked req [(5, 9); (0, 9)]%nat)
  /\ consulted (asked req [(5, 9); (0, 9)]%nat) = [(5, 9); (0, 9)]%nat.
Proof.
  intros gw req.
  destruct (@single_pass_first_success_or_last_error Sim.types Sim.backend
              gw _ req 0%nat ltac:(discriminate)) as [_ H].
  apply (H [(5, 9)%nat] (0, 9)%nat [(0, 9)%nat] 1%nat (Some 1000, None) 2%nat).
  - reflexivity.
  - apply (@Refused_cons Sim.types Sim.backend) with
      (v := @None Z) (e := "connection refused") (w1 := 1%nat);
      [reflexivity|exact (@Refused_nil Sim.types Sim.backend _ _ _)].
  - reflexivity.
  - left; reflexivity.
Defined.

(** A cached nonce of 7 and a live nonce of 9: the transaction carries 9
    and the cached nonce becomes 10. *)
Lemma cached_7_live_9_uses_9 :
  let gw := Sim.gateway [(0, 100)%nat] 3 in
  exists r args' w' evs,
    sendRewardsTransaction gw (Sim.resolvedArgs 7) Sim.accountB (Some 5)
      Sim.tokenAddress false 0%nat
    = Done (r, args') w' evs
    /\ snd r = None
    /\ map (option_map tx_nonce) (submitted evs) = [Some 9]
    /\ Nonce args' = Some 10
    /\ chainID args' = Some 32659
    /\ GasLimit args' = Some 90000.
Proof.
  intros gw.
  destruct (@nonce_reconciled_then_advanced Sim.types Sim.backend gw
              (Sim.resolvedArgs 7) Sim.accountB 5 Sim.tokenAddress 0%nat)
    as (live & nerr & w1 & evs1 & Hq & Hsub & Hcall).
  vm_compute in Hq. inversion Hq; subst live nerr w1 evs1.
  destruct (sendRewardsTransaction gw (Sim.resolvedArgs 7) Sim.accountB
              (Some 5) Sim.tokenAddress false 0%nat)
    as [[r args'] w' evs|why w' evs|w' evs] eqn:Hrun; [|discriminate Hrun..].
  destruct Hcall as (n0 & used & rest & Hn & Hevs & Hgt & _ & _ & _ & Hok
                     & _ & Hc & _ & _ & Hl).
  inversion Hn; subst n0.
  assert (Hused : used = 9) by (apply Hgt; split; [reflexivity|lia]).
  subst used.
  vm_compute in Hrun. inversion Hrun; subst r args' w' evs.
  exists (Some 1009, None), (set_Nonce (Sim.resolvedArgs 7) (Some 10)).
  do 2 eexists. split; [reflexivity|]. repeat split; reflexivity.
Defined.

(** A gateway as [NewDefaultAPICaller] makes it, before any endpoint is
    dialled: the transfer is reported as sent. *)
Lemma transfer_without_endpoint_succeeds :
  let gw := @NewDefaultAPICaller Sim.types in
  SendTransaction gw None 0%nat = Done None 0%nat []
  /\ GetAccountNonce gw Sim.keyAddress 0%nat = Done (0, None) 0%nat []
  /\ exists evs,
       sendRewardsTransaction gw (Sim.resolvedArgs 7) Sim.accountB (Some 5)
         Sim.tokenAddress false 0%nat
       = Done ((Some 1007, None), set_Nonce (Sim.resolvedArgs 7) (Some 8))
           0%nat evs
       /\ consulted evs = [].
Proof.
  intros gw.
  destruct (@no_endpoint_reports_success Sim.types Sim.backend gw eq_refl)
    as (_ & Hsend & Hnonce & Htransfer).
  split; [apply Hsend|]. split; [apply Hnonce|].
  eexists. split.
  - apply (Htransfer (Sim.resolvedArgs 7) Sim.accountB 5 Sim.tokenAddress
             0%nat 7 90000 Sim.key (Some 32659) 7);
      try reflexivity. lia.
  - reflexivity.
Defined.

(** Five entries of reward 1; the endpoint answers five requests, so the
    submission of the third transfer is refused: two body lines, and a
    report of 2 sent out of 5. *)
Lemma batch_of_five_stops_at_third :
  let gw := Sim.gateway [(0, 5)%nat] 3 in
  let opt0 := Sim.option_ "five.txt" false (Sim.resolvedArgs 9) in
  let pre := [(Sim.accountA, Some 1); (Sim.accountB, Some 1)] in
  let stat := (Sim.accountC, Some 1) in
  exists opt sent1 e opt2 w2 evs0 evs1 evs2,
    let run := evs1 ++ evs2 ++ failureReport opt stat 5 sent1 e in
    SendRewardsFromFile gw opt0 0%nat
    = Done (Some "[sendRewards] send tx failed", opt2)
        (snd (deinit_effect w2))
        (evs0
         ++ [EvLog LvlInfo "call SendRewardsFromFile"
               [("option", LOption opt)]]
         ++ run ++ [EvDeinit])
    /\ sent1 = 2
    /\ List.length (bodyLines run) = 2%nat
    /\ List.length (submitted run) = 3%nat.
Proof.
  intros gw opt0 pre stat.
  do 8 eexists.
  pose proof (@batch_stops_at_first_failure Sim.types Sim.backend gw opt0
                0%nat true pre stat
                [(Sim.accountD, Some 1); (Sim.accountE, Some 1)]) as H.
  specialize (H _ _ _ _ _ _ _ _ _ _ _ _ 5 eq_refl eq_refl eq_refl eq_refl
                eq_refl).
  cbv zeta in H. destruct H as (Hrun & Hsent & Hlines & _).
  split; [exact Hrun|]. split; [exact Hsent|]. split; [exact Hlines|].
  reflexivity.
Defined.

(** The batch [(A, 0); (B, 5); (C, -1)]: the run is the run over [(B, 5)],
    and B is the only recipient of a transaction. *)
Lemma mixed_batch_pays_only_B :
  let gw := Sim.gateway [(0, 100)%nat] 3 in
  let opt := Sim.option_ "mixed.txt" false (Sim.resolvedArgs 9) in
  let batch := [(Sim.accountA, Some 0); (Sim.accountB, Some 5);
                (Sim.accountC, Some (-1))] in
  rewarded batch = [(Sim.accountB, Some 5)]
  /\ mapEvents withoutIgnored
       (SendRewardsFromFile_range gw true batch opt 0 0%nat)
     = mapEvents withoutIgnored
         (SendRewardsFromFile_range gw true [(Sim.accountB, Some 5)] opt 0
            0%nat)
  /\ map (option_map tx_data)
       (submitted
          (events_of (SendRewardsFromFile_range gw true batch opt 0 0%nat)))
     = [Some (transferData Sim.accountB 5)].
Proof.
  intros gw opt batch.
  destruct (@skipped_entries_leave_no_trace Sim.types Sim.backend gw true)
    as (Hsame & _ & Hthree).
  split; [|split].
  - apply (Hthree (Sim.accountA, Some 0) (Sim.accountB, Some 5)
             (Sim.accountC, Some (-1))); reflexivity.
  - apply (Hsame batch opt 0 0%nat).
  - reflexivity.
Defined.

(** A dry run over the same batch, without a key: nothing is sent, one
    body line, without a hash. *)
Lemma dry_run_of_mixed_batch :
  let gw := Sim.gateway [(0, 100)%nat] 3 in
  let opt0 := Sim.option_ "mixed.txt" true (Sim.freshArgs "") in
  exists opt w' evs0 evs,
    SendRewardsFromFile gw opt0 0%nat = Done (None, opt) w' (evs0 ++ evs)
    /\ consulted evs = []
    /\ submitted evs = []
    /\ bodyLines evs = [EvWriteSendRewardResult (Sim.accountB, Some 5) None].
Proof.
  intros gw opt0.
  pose proof (@dry_run_sends_nothing Sim.types Sim.backend gw opt0 0%nat)
    as H.
  specialize (H _ _ _ _ _ 4 eq_refl eq_refl eq_refl).
  destruct H as (_ & w' & evs & Hrun & Hc & Hs & Hb & _).
  do 2 eexists. exists [EvWriteOutput Sim.titleLine], evs.
  split; [exact Hrun|]. split; [exact Hc|]. split; [exact Hs|exact Hb].
Defined.

(** A sender that is not the address of the key, in a normal run. *)
Lemma foreign_sender_is_refused :
  let gw := Sim.gateway [(0, 100)%nat] 3 in
  let args := Sim.freshArgs "0x3333333333333333333333333333333333333333" in
  Check gw 3 args false 0%nat
  = Done (Some ("sender mismatch. sender from args = "
                +++ "'0x3333333333333333333333333333333333333333'"
                +++ ", sender from keystore = "
                +++ "'0x2222222222222222222222222222222222222222'"),
          set_fromAddr (set_keyWrapper args (Some Sim.key)) Sim.keyAddress)
      0%nat [EvLog LvlPrintln "decrypt keystore ......" []].
Proof.
  intros gw args.
  apply (@sender_mismatch_fails_in_both_modes Sim.types Sim.backend gw 3
           args false 0%nat "{sealed}" ("secret" +++ Sim.newline) Sim.key);
    reflexivity.
Defined.

(** C7, the claim as it stands: the same arguments in a dry run.  The
    check does not succeed; it returns the sender-mismatch error, and no
    warning about it is logged. *)
Lemma dry_run_sender_mismatch_is_not_tolerated :
  let gw := Sim.gateway [(0, 100)%nat] 3 in
  let args := Sim.freshArgs "0x3333333333333333333333333333333333333333" in
  Check gw 3 args true 0%nat
  = Done (Some ("sender mismatch. sender from args = "
                +++ "'0x3333333333333333333333333333333333333333'"
                +++ ", sender from keystore = "
                +++ "'0x2222222222222222222222222222222222222222'"),
          set_fromAddr (set_keyWrapper args (Some Sim.key)) Sim.keyAddress)
      0%nat [EvLog LvlPrintln "decrypt keystore ......" []].
Proof. reflexivity. Qed.

(** An endpoint that is down, two attempts: the token balance query
    returns the error of the gateway. *)
Lemma token_balance_error_comes_back :
  let gw := Sim.gateway [(5, 5)%nat] 2 in
  exists evs,
    GetTokenBalance gw Sim.tokenAddress Sim.accountA None 0%nat
    = Done (None, Some "connection refused") 2%nat evs
    /\ sleeps evs = [1000000000; 1000000000].
Proof.
  intros gw.
  destruct (@helper_errors_propagate_except_address_queries Sim.types
              Sim.backend gw) as (_ & Hbalance & _).
  eexists. split.
  - apply (Hbalance Sim.tokenAddress Sim.accountA None 0%nat []
             "connection refused" 2%nat).
    reflexivity.
  - reflexivity.
Defined.

(** C8, the claim as it stands: with the same endpoint the call under the
    token-address query ends with an error, and the query returns the zero
    address; its result has no place for the error. *)
Lemma token_address_query_swallows_the_error :
  let gw := Sim.gateway [(5, 5)%nat] 2 in
  exists evs,
    CallContract gw Sim.tokenAddress tokenAddressFuncHash None 0%nat
    = Done ([], Some "connection refused") 2%nat evs
    /\ GetExchangeTokenAddress gw Sim.tokenAddress 0%nat
       = Done "0x0000000000000000000000000000000000000000" 2%nat evs
    /\ GetExchangeFactoryAddress gw Sim.tokenAddress 0%nat
       = Done "0x0000000000000000000000000000000000000000" 2%nat
           (events_of
              (CallContract gw Sim.tokenAddress factoryAddressFuncHash None
                 0%nat)).
Proof. intros gw. eexists. repeat split; reflexivity. Qed.

(** The endpoint comes up after two requests: the chain identifier query
    fails twice, and three rounds resolve everything. *)
Lemma defaults_resolved_after_two_failures :
  let gw := Sim.gateway [(2, 100)%nat] 3 in
  exists evs,
    setDefaults gw 3 (Sim.freshArgs "") 0%nat
    = Done (resolvedWith (Sim.freshArgs "") 32659 9 1000000000) 5%nat evs
    /\ sleeps evs = [].
Proof.
  intros gw.
  destruct (@setDefaults_resolves_without_sleeping Sim.types Sim.backend gw
              (Sim.freshArgs "") 0%nat 2 0 0 32659 9 1000000000
              3%nat 4%nat 5%nat 3 eq_refl)
    as (args' & evs & Hrun & Hs & _ & _ & _ & _ & _ & Hargs).
  - apply (@Retried_failure Sim.types _ _ _ 0%nat None "connection refused"
             1%nat _ _ _ _ eq_refl eq_refl).
    apply (@Retried_failure Sim.types _ _ _ 1%nat None "connection refused"
             2%nat _ _ _ _ eq_refl eq_refl).
    apply (@Retried_success Sim.types _ _ _ 2%nat (Some 32659) 3%nat _
             eq_refl).
  - apply (@Retried_success Sim.types _ _ _ 3%nat 9 4%nat _ eq_refl).
  - apply (@Retried_success Sim.types _ _ _ 4%nat (Some 1000000000) 5%nat _
             eq_refl).
  - lia.
  - exists evs. subst args'. split; [exact Hrun|exact Hs].
Defined.

(** C9: three rounds on an endpoint that comes up after two requests.
    [setDefaults] resolves the parameters and returns: the chain identifier
    query fails twice, each failure is logged, the five requests follow
    one another, and the trace holds no sleep, where the claim asks for a
    sleep of the retry interval after each failed attempt.  The retry
    loops of the gateway, [GetSyncProgress] and [CallContract], sleep the
    retry interval after each of their two failures on the same
    endpoint. *)
Lemma setDefaults_retries_without_sleeping :
  let gw := Sim.gateway [(2, 100)%nat] 3 in
  let outcome := setDefaults gw 3 (Sim.freshArgs "") 0%nat in
  outcome
  = Done (resolvedWith (Sim.freshArgs "") 32659 9 1000000000) 5%nat
      (events_of outcome)
  /\ List.length
       (filter
          (fun e =>
             match e with
             | EvLog LvlWarn msg _ => String.eqb msg "get chain ID error"
             | _ => false
             end) (events_of outcome)) = 2%nat
  /\ sleeps (events_of outcome) = []
  /\ consulted (events_of outcome)
     = [(2, 100); (2, 100); (2, 100); (2, 100); (2, 100)]%nat
  /\ sleeps (events_of (GetSyncProgress 3 gw 0%nat))
     = [1000000000; 1000000000]
  /\ sleeps
       (events_of
          (CallContract gw Sim.tokenAddress balanceOfFuncHash None 0%nat))
     = [1000000000; 1000000000].
Proof. repeat split; reflexivity. Qed.

(** C4: a retry count of 3 and an endpoint that comes up after two
    requests.  The coin balance query makes three attempts and returns
    the balance, and its trace holds the three requests and no sleep;
    the contract call, in the same situation, sleeps twice. *)
Lemma coin_balance_retries_without_sleeping :
  let gw := Sim.gateway [(2, 100)%nat] 3 in
  let req := @ReqBalanceAt Sim.types Sim.accountA None in
  GetCoinBalance gw Sim.accountA None 0%nat
  = Done (Some 1000, None) 3%nat
      [EvRPC (2, 100)%nat req; EvRPC (2, 100)%nat req; EvRPC (2, 100)%nat req]
  /\ sleeps (events_of (GetCoinBalance gw Sim.accountA None 0%nat)) = []
  /\ sleeps
       (events_of
          (CallContract gw Sim.tokenAddress balanceOfFuncHash None 0%nat))
     = [1000000000; 1000000000].
Proof. repeat split; reflexivity. Qed.

(** The contract call on the endpoint that comes up after two requests. *)
Lemma contract_call_sleeps_twice :
  let gw := Sim.gateway [(2, 100)%nat] 3 in
  exists evs,
    CallContract gw Sim.tokenAddress balanceOfFuncHash None 0%nat
    = Done (repeat 0 31%nat ++ [18], None) 3%nat evs
    /\ sleeps evs = [1000000000; 1000000000].
Proof.
  intros gw.
  apply (@contract_call_sleeps_between_attempts Sim.types Sim.backend gw
           Sim.tokenAddress balanceOfFuncHash None 2 0%nat
           (repeat 0 31%nat ++ [18]) 3%nat); [|simpl; lia].
  apply (@Retried_failure Sim.types _ _ _ 0%nat [] "connection refused"
           1%nat _ _ _ _ eq_refl I).
  apply (@Retried_failure Sim.types _ _ _ 1%nat [] "connection refused"
           2%nat _ _ _ _ eq_refl I).
  apply (@Retried_success Sim.types _ _ _ 2%nat _ 3%nat _ eq_refl).
Defined.

(** The coin balance query on the same endpoint. *)
Lemma coin_balance_does_not_sleep :
  let gw := Sim.gateway [(2, 100)%nat] 3 in
  exists evs,
    GetCoinBalance gw Sim.accountA None 0%nat
    = Done (Some 1000, None) 3%nat evs
    /\ sleeps evs = [].
Proof.
  intros gw.
  apply (@coin_balance_never_sleeps Sim.types Sim.backend gw Sim.accountA
           None 2 0%nat (Some 1000) 3%nat); [|simpl; lia].
  apply (@Retried_failure Sim.types _ _ _ 0%nat None "connection refused"
           1%nat _ _ _ _ eq_refl I).
  apply (@Retried_failure Sim.types _ _ _ 1%nat None "connection refused"
           2%nat _ _ _ _ eq_refl I).
  apply (@Retried_success Sim.types _ _ _ 2%nat _ 3%nat _ eq_refl).
Defined.

(** Two rounds are not enough when the chain identifier query fails
    twice: the loop is still running. *)
Lemma defaults_unresolved_after_two_rounds :
  let gw := Sim.gateway [(2, 100)%nat] 3 in
  exists w' evs,
    setDefaults gw 2 (Sim.freshArgs "") 0%nat = Spin w' evs
    /\ sleeps evs = [].
Proof.
  intros gw.
  apply (@setDefaults_keeps_retrying Sim.types Sim.backend gw
           (Sim.freshArgs "") 0%nat 2 0 0 32659 9 1000000000
           3%nat 4%nat 5%nat 2 eq_refl).
  - apply (@Retried_failure Sim.types _ _ _ 0%nat None "connection refused"
             1%nat _ _ _ _ eq_refl eq_refl).
    apply (@Retried_failure Sim.types _ _ _ 1%nat None "connection refused"
             2%nat _ _ _ _ eq_refl eq_refl).
    apply (@Retried_success Sim.types _ _ _ 2%nat (Some 32659) 3%nat _
             eq_refl).
  - apply (@Retried_success Sim.types _ _ _ 3%nat 9 4%nat _ eq_refl).
  - apply (@Retried_success Sim.types _ _ _ 4%nat (Some 1000000000) 5%nat _
             eq_refl).
  - lia.
Defined.

(** The call data of a transfer of 5 to B. *)
Lemma transfer_of_5_to_B :
  transferData Sim.accountB 5
  = transferFuncHash
    ++ (repeat 0 12 ++ repeat 0 19 ++ [11])
    ++ (repeat 0 31 ++ [5])
  /\ List.length (transferData Sim.accountB 5) = 68%nat.
Proof.
  apply (@transferData_layout Sim.types Sim.backend Sim.accountB 5).
  - reflexivity.
  - simpl; lia.
Defined.

(** The call of [balanceOf] for B. *)
Lemma balanceOf_B :
  packBytes [balanceOfFuncHash; Address_Bytes Sim.accountB]
  = balanceOfFuncHash ++ repeat 0 12 ++ Address_Bytes Sim.accountB
  /\ List.length (packBytes [balanceOfFuncHash; Address_Bytes Sim.accountB])
     = 36%nat.
Proof.
  apply (packBytes_selector_and_address balanceOfFuncHash
           (@Address_Bytes Sim.types Sim.backend Sim.accountB)); reflexivity.
Defined.

(** The contract call on an endpoint that stays down, two attempts. *)
Lemma contract_call_gives_up_after_two :
  let gw := Sim.gateway [(5, 5)%nat] 2 in
  exists evs,
    CallContract gw Sim.tokenAddress balanceOfFuncHash None 0%nat
    = Done ([], Some "connection refused") 2%nat evs
    /\ sleeps evs = [1000000000; 1000000000].
Proof.
  intros gw.
  apply (@contract_call_gives_up_with_last_error Sim.types Sim.backend gw
           Sim.tokenAddress balanceOfFuncHash None 0%nat
           ([], Some "connection refused") 2%nat).
  apply (@Exhausted_again Sim.types _ _ 0%nat _ [] "connection refused"
           1%nat _ _ _ _ eq_refl).
  apply (@Exhausted_again Sim.types _ _ 1%nat _ [] "connection refused"
           2%nat _ _ _ _ eq_refl).
  apply (@Exhausted_done Sim.types).
Defined.

(** A dry run without a keystore goes on with the sender it was given,
    when the sender is written with [0x]; the same sender without [0x]
    is a hex address too, and is refused as a mismatch. *)
Lemma dry_run_without_keystore_goes_on :
  let gw := Sim.gateway [(0, 100)%nat] 3 in
  let args :=
    Sim.argsWithoutKeystore "0x3333333333333333333333333333333333333333" in
  let bare :=
    Sim.argsWithoutKeystore "3333333333333333333333333333333333333333" in
  let e := "open missing.json: no such file or directory" in
  Check gw 1 args false 0%nat
  = Done (Some e, args) 0%nat
      [EvLog LvlPrintln "read keystore fail" [("", LErr (Some e))]]
  /\ (exists resolved evs,
        Check gw 1 args true 0%nat = Done (None, resolved) 3%nat evs
        /\ fromAddr resolved = "0x3333333333333333333333333333333333333333"
        /\ keyWrapper resolved = None
        /\ Nonce resolved = Some 9)
  /\ Check gw 1 bare true 0%nat
     = Done (Some ("sender mismatch. sender from args = "
                   +++ "'3333333333333333333333333333333333333333'"
                   +++ ", sender from keystore = "
                   +++ "'0x3333333333333333333333333333333333333333'"),
             set_fromAddr bare "0x3333333333333333333333333333333333333333")
         0%nat
         [EvLog LvlPrintln "read keystore fail" [("", LErr (Some e))];
          EvLog LvlWarn "check build tx args failed, but ignore in dry run"
            [("err", LErr (Some e))]].
Proof.
  intros gw args bare e.
  destruct (@unreadable_keystore_tolerated_in_dry_run Sim.types Sim.backend
              gw 1 args 0%nat "" e eq_refl eq_refl eq_refl)
    as [Hnormal Hdry].
  destruct (@unreadable_keystore_tolerated_in_dry_run Sim.types Sim.backend
              gw 1 bare 0%nat "" e eq_refl eq_refl eq_refl)
    as [_ Hbare].
  split; [exact Hnormal|]. split.
  - do 2 eexists. split; [rewrite Hdry; reflexivity|].
    repeat split; reflexivity.
  - rewrite Hbare. reflexivity.
Defined.

End Examples.

Section MoreExamples.

#[local] Existing Instance Sim.types.
#[local] Existing Instance Sim.backend.

(** The endpoint is down for the first two requests. *)
Lemma sync_progress_after_two_sleeps :
  let gw := Sim.gateway [(2, 100)%nat] 3 in
  (exists evs,
     GetSyncProgress 3 gw 0%nat = Done None 3%nat evs
     /\ sleeps evs = [1000000000; 1000000000])
  /\ (exists w1 evs,
        GetSyncProgress 2 gw 0%nat = Spin w1 evs
        /\ sleeps evs = [1000000000; 1000000000]).
Proof.
  intros gw.
  assert (H : Retried (SyncProgress_ gw) (fun _ => True) 2 0%nat None 3%nat).
  { apply (@Retried_failure Sim.types _ _ _ 0%nat None "connection refused"
             1%nat _ _ _ _ eq_refl I).
    apply (@Retried_failure Sim.types _ _ _ 1%nat None "connection refused"
             2%nat _ _ _ _ eq_refl I).
    apply (@Retried_success Sim.types _ _ _ 2%nat None 3%nat _ eq_refl). }
  split.
  - apply (@sync_progress_waits_until_answered Sim.types Sim.backend gw
             2 0%nat None 3%nat 3 H). lia.
  - apply (@sync_progress_waits_until_answered Sim.types Sim.backend gw
             2 0%nat None 3%nat 2 H). lia.
Defined.

(** The endpoint is down for the three passes of the retry count. *)
Lemma coin_balance_given_up_after_three :
  let gw := Sim.gateway [(5, 100)%nat] 3 in
  exists evs,
    GetCoinBalance gw Sim.accountA None 0%nat
    = Done (None, Some "connection refused") 3%nat
        (evs ++ [EvLog LvlWarn "[callapi] GetCoinBalance error"
                   [("account", LStr Sim.accountA);
                    ("blockNumber", LBig None);
                    ("err", LErr (Some "connection refused"))]])
    /\ Forall isRequest evs.
Proof.
  intros gw.
  apply (@coin_balance_gives_up_without_balance Sim.types Sim.backend gw
           Sim.accountA None 0%nat None "connection refused" 3%nat).
  change (Z.to_nat (rpcRetryCount gw)) with 3%nat.
  apply (@Exhausted_again Sim.types _ _ 0%nat _ None "connection refused"
           1%nat _ _ _ _ eq_refl).
  apply (@Exhausted_again Sim.types _ _ 1%nat _ None "connection refused"
           2%nat _ _ _ _ eq_refl).
  apply (@Exhausted_again Sim.types _ _ 2%nat _ None "connection refused"
           3%nat _ _ _ _ eq_refl).
  apply (@Exhausted_done Sim.types).
Defined.

(** A gateway as [NewDefaultAPICaller] makes it, before any dialing. *)
Lemma token_balance_of_nobody :
  let gw := @NewDefaultAPICaller Sim.types in
  GetTokenBalance gw Sim.tokenAddress Sim.accountA None 7%nat
  = Done (Some 0, None) 7%nat []
  /\ GetCoinBalance gw Sim.accountA None 7%nat = Done (None, None) 7%nat [].
Proof.
  intros gw.
  destruct (@helpers_succeed_when_nothing_is_asked Sim.types Sim.backend gw
              (or_introl eq_refl))
    as (_ & Hcoin & Htoken & _).
  split; [apply Htoken|apply Hcoin].
Defined.

(** The balance of the exchange in the token, on one endpoint. *)
Lemma exchange_token_balance_asks_the_token :
  let gw := Sim.gateway [(1, 100)%nat] 3 in
  Forall (isCallOf (balanceOfCall Sim.tokenAddress Sim.accountA) (Some 5))
    (events_of
       (GetExchangeTokenBalance gw Sim.accountA Sim.tokenAddress (Some 5)
          0%nat)).
Proof.
  intros gw.
  destruct (@token_balance_queries_ask_balanceOf Sim.types Sim.backend gw
              (Some 5)) as (_ & Hex & _).
  apply (Hex Sim.accountA Sim.tokenAddress eq_refl 0%nat).
Defined.

(** Three addresses, the second of which cannot be dialed. *)
Lemma second_address_is_refused :
  let gw := @NewDefaultAPICaller Sim.types in
  let urls := ["http://a"; "ws://b"; "http://c"] in
  DialServer Sim.dial (fun _ => ret tt) gw urls 0%nat
  = Done (Some "dial ws://b: unsupported scheme",
          set_clients gw [(0, 8)%nat]) 0%nat
      [EvLog LvlInfo "[callapi] client connection succeed"
         [("server", LStr "http://a")];
       EvLog LvlError "[callapi] client connection error"
         [("server", LStr "ws://b");
          ("err", LErr (Some "dial ws://b: unsupported scheme"))]]
  /\ dialServer Sim.dial urls [(0, 5)%nat] 0%nat
     = Done (Some "dial ws://b: unsupported scheme", [(0, 5); (0, 8)]%nat)
         0%nat
         [EvLog LvlInfo "[syncer] client connection succeed"
            [("server", LStr "http://a")];
          EvLog LvlError "[syncer] client connection error"
            [("server", LStr "ws://b");
             ("err", LErr (Some "dial ws://b: unsupported scheme"))]].
Proof.
  intros gw urls.
  destruct (@dial_stops_at_first_failure Sim.types Sim.dial
              (fun _ => ret tt) ["http://a"] "ws://b" ["http://c"] 0%nat
              [(0, 8)%nat] 0%nat "dial ws://b: unsupported scheme" 0%nat)
    as [Hcall Hsync].
  - apply (@Connected_cons Sim.types Sim.dial "http://a" [] (0, 8)%nat 0%nat
             0%nat [] 0%nat eq_refl).
    apply (@Connected_nil Sim.types Sim.dial).
  - reflexivity.
  - split; [apply (Hcall gw)|apply (Hsync [(0, 5)%nat])].
Defined.

(** Two addresses that connect, dialed twice. *)
Lemma dialing_twice_doubles_the_list :
  let urls := ["http://a"; "http://bb"] in
  exists evs1 evs2,
    dialServer Sim.dial urls [] 0%nat
    = Done (None, [(0, 8); (0, 9)]%nat) 0%nat evs1
    /\ dialServer Sim.dial urls [(0, 8); (0, 9)]%nat 0%nat
       = Done (None, [(0, 8); (0, 9); (0, 8); (0, 9)]%nat) 0%nat evs2.
Proof.
  intros urls.
  destruct (@dial_appends_in_order Sim.types Sim.dial
              (fun _ => ret tt) urls 0%nat [(0, 8); (0, 9)]%nat 0%nat)
    as [Hsync _].
  - apply (@Connected_cons Sim.types Sim.dial "http://a" _ (0, 8)%nat 0%nat
             0%nat _ 0%nat eq_refl).
    apply (@Connected_cons Sim.types Sim.dial "http://bb" _ (0, 9)%nat 0%nat
             0%nat _ 0%nat eq_refl).
    apply (@Connected_nil Sim.types Sim.dial).
  - do 2 eexists. split; [apply (Hsync [])|apply (Hsync [(0, 8); (0, 9)]%nat)].
Defined.

(** An endpoint of the simulated network gives nil with its error. *)
Lemma one_endpoint_nilOnError (up down : nat) :
  nilOnError (Sim.gateway [(up, down)] 3).
Proof.
  intros w v e w1 evs. unfold GetChainID, perform. simpl.
  unfold bind, ask, external. simpl. unfold Sim.respond. simpl.
  destruct ((up <=? w)%nat && (w <? down)%nat); simpl; intros H;
    inversion H; reflexivity.
Qed.

(** The key holder checks in, on an endpoint that is down at first, and
    then sends two rewards. *)
Lemma checked_holder_sends_rewards :
  let gw := Sim.gateway [(2, 100)%nat] 3 in
  exists args' w' evs,
    Check gw 3 (Sim.freshArgs "") false 0%nat = Done (None, args') w' evs
    /\ ready args'
    /\ exists r args2 w3 evs2,
         sendRewardsTransaction gw args' Sim.accountB (Some 5)
           Sim.tokenAddress false w'
         = Done (r, args2) w3 evs2
         /\ ready args2.
Proof.
  intros gw. do 3 eexists.
  assert (Hrun : Check gw 3 (Sim.freshArgs "") false 0%nat
                 = Done (None, _) _ _) by (vm_compute; reflexivity).
  split; [exact Hrun|].
  destruct (@checked_arguments_never_panic Sim.types Sim.backend gw 3
              (Sim.freshArgs "") 0%nat _ _ _
              (one_endpoint_nilOnError 2 100) eq_refl Hrun) as [Hready Hnext].
  split; [exact Hready|]. apply Hnext.
Defined.

Lemma key_holder_passes_the_check :
  let gw := Sim.gateway [(2, 100)%nat] 3 in
  exists args' evs,
    Check gw 3 (Sim.freshArgs "") true 0%nat = Done (None, args') 5%nat evs
    /\ GetSender args' = Sim.keyAddress
    /\ BuildTxArgs_GetChainID args' = Some 32659
    /\ Sender args' = Sim.keyAddress
    /\ sleeps evs = [].
Proof.
  intros gw.
  destruct (@check_accepts_the_key_holder Sim.types Sim.backend gw 3
              (Sim.freshArgs "") true 0%nat "{sealed}"
              ("secret" +++ Sim.newline) Sim.key 2 0 0 32659 9 1000000000
              3%nat 4%nat 5%nat eq_refl eq_refl eq_refl eq_refl eq_refl)
    as (args' & evs & Hrun & _ & Hs & Hc & Hsender & _ & Hsl).
  - apply (@Retried_failure Sim.types _ _ _ 0%nat None "connection refused"
             1%nat _ _ _ _ eq_refl eq_refl).
    apply (@Retried_failure Sim.types _ _ _ 1%nat None "connection refused"
             2%nat _ _ _ _ eq_refl eq_refl).
    apply (@Retried_success Sim.types _ _ _ 2%nat (Some 32659) 3%nat _
             eq_refl).
  - apply (@Retried_success Sim.types _ _ _ 3%nat 9 4%nat _ eq_refl).
  - apply (@Retried_success Sim.types _ _ _ 4%nat (Some 1000000000) 5%nat _
             eq_refl).
  - lia.
  - exists args', evs. repeat split; assumption.
Defined.

(** A dry run that names neither a sender nor a keystore that exists. *)
Lemma dry_run_of_nobody :
  let gw := Sim.gateway [(0, 100)%nat] 3 in
  let e := "open missing.json: no such file or directory" in
  Check gw 3 (Sim.argsWithoutKeystore "") false 0%nat
  = Done (Some e, Sim.argsWithoutKeystore "") 0%nat
      [EvLog LvlPrintln "read keystore fail" [("", LErr (Some e))]]
  /\ exists args' evs,
       Check gw 3 (Sim.argsWithoutKeystore "") true 0%nat
       = Done (None, args') 3%nat evs
       /\ Sender args' = "0x0000000000000000000000000000000000000000".
Proof.
  intros gw e.
  destruct (@dry_run_without_sender_or_key Sim.types Sim.backend gw 3
              (Sim.argsWithoutKeystore "") 0%nat e
              (Sim.argsWithoutKeystore "") 0%nat
              [EvLog LvlPrintln "read keystore fail" [("", LErr (Some e))]]
              eq_refl eq_refl eq_refl)
    as (Hnormal & _ & Hdry).
  split; [exact Hnormal|].
  rewrite Hdry. vm_compute. do 2 eexists. split; reflexivity.
Defined.

(** A reward of 5 for B, on one endpoint, with the cached nonce 7. *)
Lemma reward_of_B_is_a_call_of_the_token :
  let gw := Sim.gateway [(0, 100)%nat] 3 in
  let run := sendRewardsTransaction gw (Sim.resolvedArgs 7) Sim.accountB
               (Some 5) Sim.tokenAddress false 0%nat in
  exists tx,
    submitted (events_of run) = [Some tx]
    /\ tx_to tx = Sim.tokenAddress
    /\ tx_amount tx = Some 0
    /\ tx_data tx = transferData Sim.accountB 5
    /\ tx_gasLimit tx = 90000
    /\ tx_nonce tx = 9.
Proof.
  intros gw run.
  assert (Hsub : exists tx, submitted (events_of run) = [Some tx]
                            /\ tx_nonce tx = 9)
    by (eexists; split; vm_compute; reflexivity).
  destruct Hsub as (tx0 & Hsub & Hnonce).
  destruct (@submitted_transaction_is_a_token_transfer Sim.types Sim.backend
              gw (Sim.resolvedArgs 7) Sim.accountB 5 Sim.tokenAddress 0%nat
              (Some tx0))
    as (tx & gl & key & signer & sig & Htx & Hgl & _ & _ & Hto & Hamount
        & Hdata & Hlimit & _).
  - fold run. rewrite Hsub. left; reflexivity.
  - inversion Htx; subst tx. simpl in Hgl. inversion Hgl.
    exists tx0. repeat split; try assumption. congruence.
Defined.

(** Two rewards in a row, the live nonce being 9 throughout. *)
Lemma second_reward_uses_the_next_nonce :
  let gw := Sim.gateway [(0, 100)%nat] 3 in
  let args1 := Sim.resolvedArgs 10 in
  exists h1 evs1 r2 args2 w2 evs2 tx1 tx2,
    sendRewardsTransaction gw (Sim.resolvedArgs 7) Sim.accountA (Some 1)
      Sim.tokenAddress false 0%nat
    = Done ((h1, None), args1) 2%nat evs1
    /\ sendRewardsTransaction gw args1 Sim.accountB (Some 1)
         Sim.tokenAddress false 2%nat
       = Done (r2, args2) w2 evs2
    /\ submitted evs1 = [Some tx1]
    /\ submitted evs2 = [Some tx2]
    /\ tx_nonce tx1 = 9
    /\ tx_nonce tx1 < tx_nonce tx2.
Proof.
  intros gw args1.
  assert (H1 : exists h1 evs1 tx1,
            sendRewardsTransaction gw (Sim.resolvedArgs 7) Sim.accountA
              (Some 1) Sim.tokenAddress false 0%nat
            = Done ((h1, None), args1) 2%nat evs1
            /\ submitted evs1 = [Some tx1] /\ tx_nonce tx1 = 9)
    by (do 3 eexists; split; [vm_compute; reflexivity|];
        split; vm_compute; reflexivity).
  assert (H2 : exists r2 args2 w2 evs2 tx2,
            sendRewardsTransaction gw args1 Sim.accountB (Some 1)
              Sim.tokenAddress false 2%nat
            = Done (r2, args2) w2 evs2
            /\ submitted evs2 = [Some tx2])
    by (do 5 eexists; split; vm_compute; reflexivity).
  destruct H1 as (h1 & evs1 & tx1 & H1 & S1 & N1).
  destruct H2 as (r2 & args2 & w2 & evs2 & tx2 & H2 & S2).
  exists h1, evs1, r2, args2, w2, evs2, tx1, tx2.
  repeat split; try assumption.
  apply (@consecutive_transfers_use_increasing_nonces Sim.types Sim.backend
           gw _ _ _ _ _ _ _ _ _ _ _ _ _ _ _ _ _ _ _ H1 H2).
  - rewrite S1; left; reflexivity.
  - rewrite S2; left; reflexivity.
  - rewrite N1. lia.
Defined.

(** Fresh arguments on a gateway as [NewDefaultAPICaller] makes it. *)
Lemma defaults_of_an_offline_gateway :
  let gw := @NewDefaultAPICaller Sim.types in
  exists args' evs,
    setDefaults gw 1 (Sim.freshArgs "") 0%nat = Done args' 0%nat evs
    /\ chainID args' = None
    /\ Nonce args' = Some 0
    /\ GasPrice args' = None
    /\ GasLimit args' = Some 90000
    /\ consulted evs = [].
Proof.
  intros gw.
  pose proof (@setDefaults_without_endpoint Sim.types Sim.backend gw 0%nat
                (Sim.freshArgs "") 0%nat eq_refl eq_refl eq_refl eq_refl)
    as Hrun.
  cbv zeta in Hrun. do 2 eexists. split; [exact Hrun|].
  repeat split; reflexivity.
Defined.

(** The title line of the input files. *)
Lemma txhash_in_the_title_of_the_input :
  addTxHashFieldToTitleLine Sim.titleLine
  = "#account,reward,liquidity,share,txhash,number"
  /\ nth 2 (withTxHashField (blankOrCommaSepRegexp_Split Sim.titleLine)) ""
     = "liquidity".
Proof.
  destruct (@txhash_goes_before_the_last_field Sim.types Sim.backend
              Sim.titleLine) as [_ H].
  destruct H as (Heq & _ & Hnth); [vm_compute; lia|].
  split.
  - rewrite Heq. reflexivity.
  - rewrite (Hnth 2%nat); [reflexivity|vm_compute; lia].
Defined.

(** The title line against two classifications. *)
Lemma title_of_the_input_is_for_liquidity :
  let opt := Sim.setByWhat (Sim.option_ "five.txt" false (Sim.resolvedArgs 9))
               "liquidity" in
  fst (checkTitleLine opt Sim.titleLine) = None
  /\ snd (checkTitleLine opt Sim.titleLine) = opt.
Proof.
  intros opt.
  destruct (@title_is_checked_against_the_classification Sim.types Sim.backend
              opt Sim.titleLine eq_refl) as [Hsame Hiff].
  split; [|exact Hsame].
  apply Hiff. split; [reflexivity|]. split; [vm_compute; lia|reflexivity].
Defined.

End MoreExamples.

Section VariantExamples.

#[local] Existing Instance Sim.types.

(** An input file with a title line and no entry; the command line gives
    no total value. *)
Lemma empty_file_panics_after_deinit :
  let gw := Sim.gateway [(0, 100)%nat] 3 in
  let opt := Sim.option_ "empty.txt" false (Sim.resolvedArgs 9) in
  @SendRewardsFromFile Sim.types
    (Sim.backendWith ([], Sim.titleLine, None) None) gw opt 0%nat
  = Panic nilDeref 0%nat
      [EvLog LvlWarn "empty account list, no need to send reward" [];
       EvLog LvlInfo "call SendRewardsFromFile" [("option", LOption opt)];
       EvDeinit].
Proof.
  intros gw opt.
  exact (@empty_batch_needs_a_total Sim.types
           (Sim.backendWith ([], Sim.titleLine, None) None) gw opt 0%nat
           Sim.titleLine opt 0%nat [] eq_refl eq_refl).
Defined.

(** The batch of five when the basic check fails: without saving to the
    database the three-column title is written. *)
Lemma failed_basic_check_writes_the_short_title :
  let opt := Sim.option_ "five.txt" false (Sim.resolvedArgs 9) in
  let batch := @Sim.loadBatch "five.txt" in
  exists opt4,
    @checkSendRewardsFromFile Sim.types
      (Sim.backendWith batch (Some "no start height")) opt 0%nat
    = Done ((fst (fst batch), false, None), opt4) 0%nat
        [EvWriteOutput "#account,reward,txhash"].
Proof.
  intros opt batch.
  pose proof (@title_is_written_when_the_checks_pass Sim.types
                (Sim.backendWith batch (Some "no start height")) opt 0%nat
                (fst (fst batch)) Sim.titleLine opt 0%nat []) as H.
  specialize (H _ _ _ _ _ _ _ _ eq_refl eq_refl ltac:(discriminate)
                eq_refl eq_refl eq_refl).
  cbv zeta in H. simpl in H.
  eexists. rewrite H. reflexivity.
Defined.

End VariantExamples.
